(** * next-data-fetcher: the fetch / cache / retry / realtime core

    A shallow embedding of [BaseFetcher] (core/BaseFetcher.ts) and of
    [RealtimeManager] (core/realtime.ts), with the JavaScript primitives
    they rely on, followed by the properties of the specification that
    talk about them. *)

From Stdlib Require Import ZArith List String Ascii Bool Lia.
From stdpp Require Import base option gmap strings list.

Set Warnings "-register-all".

Open Scope list_scope.
Open Scope string_scope.
Open Scope Z_scope.

(** ** JavaScript strings

    A string is carried as the bytes of its UTF-8 encoding.  Every
    delimiter the code splits on is ASCII, and a search for well-formed
    text in well-formed text finds the same occurrences in the bytes as in
    the code units.  White space that is not ASCII takes two or three
    bytes; [trim] and [parseInt] strip it as the runtime does. *)

Module JsString.

Definition code (c : ascii) : N := N_of_ascii c.

Definition dquote : ascii := ascii_of_N 34.
Definition backslash : ascii := ascii_of_N 92.
Definition newline : ascii := ascii_of_N 10.

Definition isEmpty (s : string) : bool :=
  match s with EmptyString => true | String _ _ => false end.

(** [s.startsWith(p)] *)
Fixpoint startsWith (s p : string) : bool :=
  match p, s with
  | EmptyString, _ => true
  | String a p', String b s' => Ascii.eqb a b && startsWith s' p'
  | String _ _, EmptyString => false
  end.

(** [s.includes(sub)] *)
Fixpoint includes (s sub : string) : bool :=
  startsWith s sub
  || match s with
     | EmptyString => false
     | String _ s' => includes s' sub
     end.

(** [s.split(sep)] for a one-character separator: never empty. *)
Fixpoint split (sep : ascii) (s : string) : list string :=
  match s with
  | EmptyString => [EmptyString]
  | String c s' =>
      if Ascii.eqb c sep then EmptyString :: split sep s'
      else match split sep s' with
           | h :: t => String c h :: t
           | [] => [String c EmptyString]
           end
  end.

Definition bytes (codes : list N) : string :=
  string_of_list_ascii (List.map ascii_of_N codes).

(** The characters [trim] and [parseInt] strip: WhiteSpace and
    LineTerminator of ECMAScript (TAB, LF, VT, FF, CR, SP, U+00A0, U+1680,
    U+2000 to U+200A, U+2028, U+2029, U+202F, U+205F, U+3000, U+FEFF). *)
Definition whiteSpace : list string :=
  List.map bytes
    [ [9]; [10]; [11]; [12]; [13]; [32];
      [194; 160];
      [225; 154; 128];
      [226; 128; 128]; [226; 128; 129]; [226; 128; 130]; [226; 128; 131];
      [226; 128; 132]; [226; 128; 133]; [226; 128; 134]; [226; 128; 135];
      [226; 128; 136]; [226; 128; 137]; [226; 128; 138];
      [226; 128; 168]; [226; 128; 169]; [226; 128; 175];
      [226; 129; 159];
      [227; 128; 128];
      [239; 187; 191] ]%N.

(** [s] without its prefix [p], when it starts with [p]. *)
Fixpoint dropPrefix (p s : string) : option string :=
  match p, s with
  | EmptyString, _ => Some s
  | String a p', String b s' => if Ascii.eqb a b then dropPrefix p' s' else None
  | String _ _, EmptyString => None
  end.

(** [s] without the character of [chars] it starts with, when there is one. *)
Fixpoint dropOne (chars : list string) (s : string) : option string :=
  match chars with
  | [] => None
  | w :: more =>
      match dropPrefix w s with
      | Some rest => Some rest
      | None => dropOne more s
      end
  end.

(** Dropping such characters from the head until none is left; each step
    shortens the string, so its length is fuel enough. *)
Fixpoint dropLeading (chars : list string) (fuel : nat) (s : string) : string :=
  match fuel with
  | O => s
  | S fuel' =>
      match dropOne chars s with
      | Some rest => dropLeading chars fuel' rest
      | None => s
      end
  end.

Definition reverse (s : string) : string :=
  string_of_list_ascii (List.rev (list_ascii_of_string s)).

Definition trimStart (s : string) : string :=
  dropLeading whiteSpace (String.length s) s.

Definition trimEnd (s : string) : string :=
  reverse (dropLeading (List.map reverse whiteSpace) (String.length s) (reverse s)).

Definition trim (s : string) : string := trimEnd (trimStart s).

Definition isDigit (c : ascii) : bool :=
  let n := code c in ((48 <=? n) && (n <=? 57))%N.

Definition digitVal (c : ascii) : Z := Z.of_N (code c) - 48.

(** Longest prefix of decimal digits, read as a number, with the rest. *)
Fixpoint readDigits (acc : Z) (count : nat) (s : string) : Z * nat * string :=
  match s with
  | String c s' =>
      if isDigit c then readDigits (10 * acc + digitVal c) (S count) s'
      else (acc, count, s)
  | EmptyString => (acc, count, s)
  end.

(** [Number.parseInt(s, 10)]; [None] stands for NaN. *)
Definition parseInt (s : string) : option Z :=
  let s := trimStart s in
  let '(neg, s) :=
    match s with
    | String "-" s' => (true, s')
    | String "+" s' => (false, s')
    | _ => (false, s)
    end in
  match readDigits 0 0 s with
  | (_, O, _) => None
  | (n, S _, _) => Some (if neg : bool then - n else n)
  end.

(** Decimal rendering of an integer, as a template literal writes a safe
    integer (beyond [2^53] a double is rounded, and from [1e21] on it is
    written in exponent form; what is proved of the digits is stated for
    safe integers). *)
Fixpoint digitsOf (fuel : nat) (n : N) (acc : string) : string :=
  match fuel with
  | O => acc
  | S fuel' =>
      let acc' := String (ascii_of_N (48 + n mod 10)) acc in
      if (n <? 10)%N then acc' else digitsOf fuel' (n / 10) acc'
  end.

Definition ofN (n : N) : string := digitsOf (S (N.to_nat (N.log2 n))) n EmptyString.

Definition ofZ (z : Z) : string :=
  if z <? 0 then String "-" (ofN (Z.to_N (- z))) else ofN (Z.to_N z).

End JsString.

(** ** JavaScript values

    The values that flow through the fetcher: what [JSON.parse] yields,
    plus [undefined].  A number is the exact decimal [m * 10^e].  An object
    is its list of properties in insertion order (the engine lists
    integer-like keys first; nothing here depends on the order, properties
    are read by name). *)

Inductive value : Type :=
| JUndefined
| JNull
| JBool (b : bool)
| JNum (m e : Z)
| JStr (s : string)
| JArr (items : list value)
| JObj (props : list (string * value)).

Module JsValue.

(** [ToBoolean] *)
Definition truthy (v : value) : bool :=
  match v with
  | JUndefined | JNull => false
  | JBool b => b
  | JNum m _ => negb (m =? 0)
  | JStr s => negb (JsString.isEmpty s)
  | JArr _ | JObj _ => true
  end.

Definition isArray (v : value) : bool :=
  match v with JArr _ => true | _ => false end.

Fixpoint lookupProp (k : string) (props : list (string * value)) : value :=
  match props with
  | [] => JUndefined
  | (k', v) :: rest => if String.eqb k' k then v else lookupProp k rest
  end.

(** [obj[k] = v]: overwrite in place, or append a new property. *)
Fixpoint setProp (k : string) (v : value) (props : list (string * value))
  : list (string * value) :=
  match props with
  | [] => [(k, v)]
  | (k', v') :: rest =>
      if String.eqb k' k then (k, v) :: rest else (k', v') :: setProp k v rest
  end.

(** [v.k] for a property name that no primitive or array carries
    ([data], [pagination], [totalItems], [totalPages]).  [None] is the
    TypeError raised on [null] and [undefined]. *)
(** [obj[k] = v] on an object made by [{}].  [__proto__] names the
    accessor inherited from [Object.prototype]: assigning to it adds no
    property of the object, and a value that is neither an object nor
    [null] is ignored altogether.  (An object or [null] would become the
    prototype, which this list of own properties does not record; the code
    assigns strings and [undefined] only.) *)
Definition assign (k : string) (v : value) (props : list (string * value))
  : list (string * value) :=
  if String.eqb k "__proto__" then props else setProp k v props.

Definition getProp (v : value) (k : string) : option value :=
  match v with
  | JUndefined | JNull => None
  | JObj props => Some (lookupProp k props)
  | _ => Some JUndefined
  end.

(** [v?.k] *)
Definition getPropOpt (v : value) (k : string) : value :=
  match getProp v k with
  | Some x => x
  | None => JUndefined
  end.

End JsValue.

(** ** [JSON.parse]

    A recursive-descent reader of the JSON grammar (RFC 8259).  [\u]
    escapes are stored as the UTF-8 bytes of the code unit. *)

Module Json.
Import JsString.

Definition isJsonSpace (c : ascii) : bool :=
  let n := code c in
  (n =? 32)%N || (n =? 9)%N || (n =? 10)%N || (n =? 13)%N.

Fixpoint skipSpace (s : string) : string :=
  match s with
  | String c s' => if isJsonSpace c then skipSpace s' else s
  | EmptyString => s
  end.

Definition hexVal (c : ascii) : option N :=
  let n := code c in
  if ((48 <=? n) && (n <=? 57))%N then Some (n - 48)%N
  else if ((65 <=? n) && (n <=? 70))%N then Some (n - 55)%N
  else if ((97 <=? n) && (n <=? 102))%N then Some (n - 87)%N
  else None.

Definition utf8 (u : N) (rest : string) : string :=
  if (u <? 128)%N then String (ascii_of_N u) rest
  else if (u <? 2048)%N then
    String (ascii_of_N (192 + u / 64)) (String (ascii_of_N (128 + u mod 64)) rest)
  else
    String (ascii_of_N (224 + u / 4096))
      (String (ascii_of_N (128 + (u / 64) mod 64))
         (String (ascii_of_N (128 + u mod 64)) rest)).

(** The characters after an opening quote, up to the closing one. *)
Fixpoint readString (s : string) : option (string * string) :=
  match s with
  | EmptyString => None
  | String c s' =>
      if Ascii.eqb c dquote then Some (EmptyString, s')
      else if Ascii.eqb c backslash then
        match s' with
        | String e s'' =>
            let plain (x : N) :=
              match readString s'' with
              | Some (t, r) => Some (String (ascii_of_N x) t, r)
              | None => None
              end in
            if Ascii.eqb e dquote then plain 34%N
            else if Ascii.eqb e backslash then plain 92%N
            else match e with
                 | "/"%char => plain 47%N
                 | "b"%char => plain 8%N
                 | "f"%char => plain 12%N
                 | "n"%char => plain 10%N
                 | "r"%char => plain 13%N
                 | "t"%char => plain 9%N
                 | "u"%char =>
                     match s'' with
                     | String h1 (String h2 (String h3 (String h4 s3))) =>
                         match hexVal h1, hexVal h2, hexVal h3, hexVal h4 with
                         | Some a, Some b, Some c', Some d =>
                             match readString s3 with
                             | Some (t, r) =>
                                 Some (utf8 (((a * 16 + b) * 16 + c') * 16 + d)%N t, r)
                             | None => None
                             end
                         | _, _, _, _ => None
                         end
                     | _ => None
                     end
                 | _ => None
                 end
        | EmptyString => None
        end
      else if (code c <? 32)%N then None
      else match readString s' with
           | Some (t, r) => Some (String c t, r)
           | None => None
           end
  end.

(** [-? int frac? exp?] *)
Definition readNumber (s : string) : option (value * string) :=
  let '(neg, s1) :=
    match s with
    | String "-" s' => (true, s')
    | _ => (false, s)
    end in
  match readDigits 0 0 s1 with
  | (_, O, _) => None
  | (ip, S k, s2) =>
      let leadingZero :=
        match s1, k with
        | String "0" _, S _ => true
        | _, _ => false
        end in
      if leadingZero : bool then None else
      let afterFrac :=
        match s2 with
        | String "." s3 =>
            match readDigits ip 0 s3 with
            | (_, O, _) => None
            | (m, S j, s4) => Some (m, - Z.of_nat (S j), s4)
            end
        | _ => Some (ip, 0, s2)
        end in
      match afterFrac with
      | None => None
      | Some (m, e, s5) =>
          let signed := if neg : bool then - m else m in
          let expo (eneg : bool) (s6 : string) :=
            match readDigits 0 0 s6 with
            | (_, O, _) => None
            | (x, S _, s7) => Some (JNum signed (e + (if eneg then - x else x)), s7)
            end in
          match s5 with
          | String "e" (String "-" s6) | String "E" (String "-" s6) => expo true s6
          | String "e" (String "+" s6) | String "E" (String "+" s6) => expo false s6
          | String "e" s6 | String "E" s6 => expo false s6
          | _ => Some (JNum signed e, s5)
          end
      end
  end.

Fixpoint readValue (fuel : nat) (s : string) : option (value * string) :=
  match fuel with
  | O => None
  | S fuel' =>
      let s := skipSpace s in
      if startsWith s "null" then Some (JNull, String.substring 4 (String.length s - 4) s)
      else if startsWith s "true" then Some (JBool true, String.substring 4 (String.length s - 4) s)
      else if startsWith s "false" then Some (JBool false, String.substring 5 (String.length s - 5) s)
      else
        match s with
        | String "[" r =>
            match skipSpace r with
            | String "]" r' => Some (JArr [], r')
            | _ =>
                match readElements fuel' r with
                | Some (items, r') => Some (JArr items, r')
                | None => None
                end
            end
        | String "{" r =>
            match skipSpace r with
            | String "}" r' => Some (JObj [], r')
            | _ =>
                match readMembers fuel' [] r with
                | Some (props, r') => Some (JObj props, r')
                | None => None
                end
            end
        | String c r =>
            if Ascii.eqb c dquote then
              match readString r with
              | Some (t, r') => Some (JStr t, r')
              | None => None
              end
            else readNumber s
        | EmptyString => None
        end
  end
with readElements (fuel : nat) (s : string) : option (list value * string) :=
  match fuel with
  | O => None
  | S fuel' =>
      match readValue fuel' s with
      | Some (v, r) =>
          match skipSpace r with
          | String "," r' =>
              match readElements fuel' r' with
              | Some (vs, r'') => Some (v :: vs, r'')
              | None => None
              end
          | String "]" r' => Some ([v], r')
          | _ => None
          end
      | None => None
      end
  end
with readMembers (fuel : nat) (acc : list (string * value)) (s : string)
  : option (list (string * value) * string) :=
  match fuel with
  | O => None
  | S fuel' =>
      match skipSpace s with
      | String q r =>
          if Ascii.eqb q dquote then
            match readString r with
            | Some (k, r1) =>
                match skipSpace r1 with
                | String ":" r2 =>
                    match readValue fuel' r2 with
                    | Some (v, r3) =>
                        let acc' := JsValue.setProp k v acc in
                        match skipSpace r3 with
                        | String "," r4 => readMembers fuel' acc' r4
                        | String "}" r4 => Some (acc', r4)
                        | _ => None
                        end
                    | None => None
                    end
                | _ => None
                end
            | None => None
            end
          else None
      | EmptyString => None
      end
  end.

(** [JSON.parse(text)]; [None] is the SyntaxError.  Every recursive call
    of the reader comes after at least one consumed character, or is the
    second of two calls of which the first consumed one, so twice the
    length of the text is fuel enough. *)
Definition parse (text : string) : option value :=
  match readValue (2 * String.length text + 2) text with
  | Some (v, rest) =>
      match skipSpace rest with
      | EmptyString => Some v
      | String _ _ => None
      end
  | None => None
  end.

End Json.

(** ** Promises, exceptions and the world a fetcher runs in *)

Inductive Exn : Type :=
| Error (message : string)
| TypeError (message : string)
| SyntaxError (message : string)
| NetworkError.

(** How an [async] call settles. *)
Inductive Result (A : Type) : Type :=
| Resolved (a : A)
| Rejected (e : Exn).
Arguments Resolved {A} a.
Arguments Rejected {A} e.

(** What [fetch] hands back.  [retryAfter] is
    [headers.get("Retry-After")]; [body] is [None] when the body cannot
    be read. *)
Record Response : Type := {
  status : Z;
  statusText : string;
  retryAfter : option string;
  body : option string
}.

Definition ok (r : Response) : bool := (200 <=? status r) && (status r <=? 299).

(** One scripted network exchange: the time it takes and how it ends
    ([None]: [fetch] itself rejects). *)
Record Exchange : Type := {
  latency : Z;
  outcome : option Response
}.

Record Request : Type := {
  req_url : string;
  req_headers : list (string * string)
}.

Record PaginationOptions : Type := {
  page : Z;
  limit : Z;
  enabled : bool
}.

Record CacheEntry : Type := {
  entry_data : list value;
  timestamp : Z;
  entry_totalItems : value;
  entry_totalPages : value
}.

Record FetchResult : Type := {
  data : list value;
  totalItems : value;
  totalPages : value
}.

(** The process a fetcher lives in: [typeof window === "undefined"],
    the environment variables it reads, and the registry's URL settings. *)
Record Env : Type := {
  windowUndefined : bool;
  rapidApiKey : option string;
  rapidApiHost : option string;
  baseUrl : string;
  apiBasePath : string
}.

(** The parts of a fetcher object that never change. *)
Record Fetcher : Type := {
  parseData : value -> Result (list value);
  dataSource : option string;
  componentId : string;
  endpoint : option string
}.

(** Everything that changes: the clock, the network still to come, the
    trace of requests and timer waits, the class-wide [serverCache], and
    this fetcher's [clientCache] and pagination. *)
Record State : Type := {
  now : Z;
  network : list Exchange;
  requests : list Request;
  timers : list Z;
  serverCache : gmap string (list value);
  clientCache : gmap string CacheEntry;
  pagination : PaginationOptions
}.

Definition M (A : Type) : Type := State -> Result A * State.

Definition ret {A} (a : A) : M A := fun s => (Resolved a, s).

Definition throw {A} (e : Exn) : M A := fun s => (Rejected e, s).

Definition bind {A B} (c : M A) (k : A -> M B) : M B :=
  fun s =>
    match c s with
    | (Resolved a, s') => k a s'
    | (Rejected e, s') => (Rejected e, s')
    end.

(** [try { c } catch (e) { h e }] *)
Definition tryCatch {A} (c : M A) (h : Exn -> M A) : M A :=
  fun s =>
    match c s with
    | (Resolved a, s') => (Resolved a, s')
    | (Rejected e, s') => h e s'
    end.

Declare Scope js_scope.
Delimit Scope js_scope with js.
Notation "x <- c ;; k" := (bind c (fun x => k))
  (at level 100, c at next level, right associativity) : js_scope.
Notation "c ;; k" := (bind c (fun _ => k))
  (at level 100, right associativity) : js_scope.
Open Scope js_scope.

Definition settle {A} (r : Result A) : M A := fun s => (r, s).

Definition getState : M State := fun s => (Resolved s, s).

Definition Date_now : M Z := fun s => (Resolved (now s), s).

(** [await new Promise((resolve) => setTimeout(resolve, ms))] *)
Definition sleep (ms : Z) : M unit :=
  fun s =>
    (Resolved tt,
     {| now := now s + Z.max 0 ms;
        network := network s;
        requests := requests s;
        timers := (timers s ++ [ms])%list;
        serverCache := serverCache s;
        clientCache := clientCache s;
        pagination := pagination s |}).

(** [await fetch(url, { headers, ... })]: the request is recorded, the
    next scripted exchange is consumed and its latency elapses.  Once the
    script is used up the network is unreachable. *)
Definition fetch (url : string) (headers : list (string * string)) : M Response :=
  fun s =>
    let sent := (requests s ++ [{| req_url := url; req_headers := headers |}])%list in
    match network s with
    | [] =>
        (Rejected NetworkError,
         {| now := now s; network := []; requests := sent; timers := timers s;
            serverCache := serverCache s; clientCache := clientCache s;
            pagination := pagination s |})
    | x :: rest =>
        let s' :=
          {| now := now s + Z.max 0 (latency x); network := rest; requests := sent;
             timers := timers s; serverCache := serverCache s;
             clientCache := clientCache s; pagination := pagination s |} in
        match outcome x with
        | Some r => (Resolved r, s')
        | None => (Rejected NetworkError, s')
        end
    end.

(** [await response.text()] *)
Definition response_text (r : Response) : M string :=
  match body r with
  | Some t => ret t
  | None => throw (TypeError "body stream is not readable")
  end.

(** [await response.json()] *)
Definition response_json (r : Response) : M value :=
  match body r with
  | Some t =>
      match Json.parse t with
      | Some v => ret v
      | None => throw (SyntaxError "Unexpected token in JSON")
      end
  | None => throw (TypeError "body stream is not readable")
  end.

(** [BaseFetcher.serverCache.set(key, d)] *)
Definition serverCache_set (key : string) (d : list value) : M unit :=
  fun s =>
    (Resolved tt,
     {| now := now s; network := network s; requests := requests s;
        timers := timers s;
        serverCache := <[key := d]> (serverCache s);
        clientCache := clientCache s; pagination := pagination s |}).

(** [this.clientCache.set(key, entry)] *)
Definition clientCache_set (key : string) (entry : CacheEntry) : M unit :=
  fun s =>
    (Resolved tt,
     {| now := now s; network := network s; requests := requests s;
        timers := timers s; serverCache := serverCache s;
        clientCache := <[key := entry]> (clientCache s);
        pagination := pagination s |}).

(** Time passing with nothing running. *)
Definition elapse (ms : Z) (s : State) : State :=
  {| now := now s + Z.max 0 ms; network := network s; requests := requests s;
     timers := timers s; serverCache := serverCache s;
     clientCache := clientCache s; pagination := pagination s |}.

(** ** BaseFetcher *)

(** [cacheExpirationTime = 5 * 60 * 1000] *)
Definition cacheExpirationTime : Z := 5 * 60 * 1000.

Definition MAX_RETRIES : nat := 3.

Definition nonEmpty (o : option string) : bool :=
  match o with
  | Some s => negb (JsString.isEmpty s)
  | None => false
  end.

(** The loop [for (const key of keys) if (key.includes(id)) cache.delete(key)] *)
Definition deleteMatching {V} (id : string) (keys : list string) (cache : gmap string V)
  : gmap string V :=
  fold_left (fun m key => if JsString.includes key id then delete key m else m) keys cache.

Definition invalidateCache (env : Env) (self : Fetcher) : M unit :=
  fun s =>
    let cacheKeys := (map_to_list (clientCache s)).*1 in
    let client := deleteMatching (componentId self) cacheKeys (clientCache s) in
    let server :=
      if windowUndefined env then
        let serverCacheKeys := (map_to_list (serverCache s)).*1 in
        deleteMatching (componentId self) serverCacheKeys (serverCache s)
      else serverCache s in
    (Resolved tt,
     {| now := now s; network := network s; requests := requests s;
        timers := timers s; serverCache := server; clientCache := client;
        pagination := pagination s |}).

(** [setPagination(page, limit, enabled)] *)
Definition setPagination (pg lim : Z) (en : bool) : M unit :=
  fun s =>
    (Resolved tt,
     {| now := now s; network := network s; requests := requests s;
        timers := timers s; serverCache := serverCache s;
        clientCache := clientCache s;
        pagination := {| page := pg; limit := lim; enabled := en |} |}).

(** [FetcherRegistry.getDataUrl] *)
Definition getDataUrl (env : Env) (id : string) (source : option string) (isServer : bool)
  : string :=
  let dataSource := match source with Some d => d | None => "json" end in
  if isServer then
    baseUrl env ++ apiBasePath env ++ "?component=" ++ id ++ "&dataSource=" ++ dataSource
  else
    apiBasePath env ++ "?component=" ++ id ++ "&dataSource=" ++ dataSource.

Definition isApi (source : option string) : bool :=
  match source with
  | Some d => String.eqb d "api"
  | None => false
  end.

Definition getUrl (env : Env) (self : Fetcher) (p : PaginationOptions) (isServer : bool)
  : string :=
  if nonEmpty (endpoint self) && isApi (dataSource self) then
    match endpoint self with Some e => e | None => EmptyString end
  else
    let url := getDataUrl env (componentId self) (dataSource self) isServer in
    if enabled p && (0 <? limit p) then
      url ++ "&page=" ++ JsString.ofZ (page p) ++ "&limit=" ++ JsString.ofZ (limit p)
    else url.

Definition jsonCacheKey (self : Fetcher) (p : PaginationOptions) : string :=
  let paginationString :=
    if enabled p then "_page" ++ JsString.ofZ (page p) ++ "_limit" ++ JsString.ofZ (limit p)
    else EmptyString in
  "json_" ++ componentId self ++ paginationString.

Definition csvCacheKey (self : Fetcher) : string := "csv_" ++ componentId self.
Definition txtCacheKey (self : Fetcher) : string := "txt_" ++ componentId self.
Definition apiCacheKey (self : Fetcher) : string := "api_" ++ componentId self.

Definition onlyData (d : list value) : FetchResult :=
  {| data := d; totalItems := JUndefined; totalPages := JUndefined |}.

(** [cachedData && Date.now() - cachedData.timestamp < this.cacheExpirationTime] *)
Definition fresh (t : Z) (cached : option CacheEntry) : option CacheEntry :=
  match cached with
  | Some e => if t - timestamp e <? cacheExpirationTime then Some e else None
  | None => None
  end.

(** The shape test of [fetchJsonData] on the decoded body. *)
Definition decodeJsonBody (self : Fetcher) (responseData : value)
  : M (list value * value * value) :=
  match JsValue.getProp responseData "data" with
  | None => throw (TypeError "Cannot read properties of null (reading 'data')")
  | Some field =>
      if JsValue.truthy field && JsValue.isArray field then
        parsedData <- settle (parseData self field) ;;
        let pagination := JsValue.getPropOpt responseData "pagination" in
        ret (parsedData,
             JsValue.getPropOpt pagination "totalItems",
             JsValue.getPropOpt pagination "totalPages")
      else if JsValue.isArray responseData then
        parsedData <- settle (parseData self responseData) ;;
        ret (parsedData, JUndefined, JUndefined)
      else
        ret ([], JUndefined, JUndefined)
  end.

Definition fetchJsonData (env : Env) (self : Fetcher) (isServer : bool) : M FetchResult :=
  s0 <- getState ;;
  let cacheKey := jsonCacheKey self (pagination s0) in
  let hit :=
    if isServer then
      match serverCache s0 !! cacheKey with
      | Some d => Some (onlyData d)
      | None => None
      end
    else
      match fresh (now s0) (clientCache s0 !! cacheKey) with
      | Some cachedData =>
          Some {| data := entry_data cachedData;
                  totalItems := entry_totalItems cachedData;
                  totalPages := entry_totalPages cachedData |}
      | None => None
      end in
  match hit with
  | Some r => ret r
  | None =>
      let url := getUrl env self (pagination s0) isServer in
      tryCatch
        (response <- fetch url [] ;;
         if negb (ok response) then
           throw (Error ("Failed to fetch data: " ++ statusText response))
         else
           responseData <- response_json response ;;
           decoded <- decodeJsonBody self responseData ;;
           let '(parsedData, items, pages) := decoded in
           (if isServer then serverCache_set cacheKey parsedData
            else
              t <- Date_now ;;
              clientCache_set cacheKey
                {| entry_data := parsedData; timestamp := t;
                   entry_totalItems := items; entry_totalPages := pages |}) ;;
           ret {| data := parsedData; totalItems := items; totalPages := pages |})
        (fun error => throw error)
  end.

(** [headers.reduce((obj, header, index) => ..., {})] for one row. *)
Fixpoint csvRecord (headers : list string) (values : list string) (index : nat)
  (obj : list (string * value)) : list (string * value) :=
  match headers with
  | [] => obj
  | header :: rest =>
      let cell :=
        match nth_error values index with
        | Some v => JStr (JsString.trim v)
        | None => JUndefined
        end in
      csvRecord rest values (S index) (JsValue.assign (JsString.trim header) cell obj)
  end.

Definition nonBlank (line : string) : bool :=
  negb (JsString.isEmpty (JsString.trim line)).

Definition parseCsv (text : string) : value :=
  let rows := JsString.split JsString.newline text in
  let headers := JsString.split "," (hd EmptyString rows) in
  JArr (List.map
          (fun row => JObj (csvRecord headers (JsString.split "," row) 0 []))
          (List.filter nonBlank (tl rows))).

(** The cache check shared, word for word, by the csv, txt and api paths. *)
Definition plainCacheHit (isServer : bool) (cacheKey : string) (s0 : State)
  : option FetchResult :=
  if isServer then
    match serverCache s0 !! cacheKey with
    | Some d => Some (onlyData d)
    | None => None
    end
  else
    match fresh (now s0) (clientCache s0 !! cacheKey) with
    | Some cachedData => Some (onlyData (entry_data cachedData))
    | None => None
    end.

(** The cache write shared by the csv, txt and api paths. *)
Definition plainCacheStore (isServer : bool) (cacheKey : string) (parsedData : list value)
  : M unit :=
  if isServer then serverCache_set cacheKey parsedData
  else
    t <- Date_now ;;
    clientCache_set cacheKey
      {| entry_data := parsedData; timestamp := t;
         entry_totalItems := JUndefined; entry_totalPages := JUndefined |}.

Definition fetchCsvData (env : Env) (self : Fetcher) (isServer : bool) : M FetchResult :=
  s0 <- getState ;;
  let cacheKey := csvCacheKey self in
  match plainCacheHit isServer cacheKey s0 with
  | Some r => ret r
  | None =>
      let url := getUrl env self (pagination s0) isServer in
      tryCatch
        (response <- fetch url [] ;;
         if negb (ok response) then
           throw (Error ("Failed to fetch CSV data: " ++ statusText response))
         else
           text <- response_text response ;;
           let jsonData := parseCsv text in
           parsedData <- settle (parseData self jsonData) ;;
           plainCacheStore isServer cacheKey parsedData ;;
           ret (onlyData parsedData))
        (fun error => throw error)
  end.

(** The [catch] branch of the line decoder: [key:value,key:value]. *)
Definition parseKeyValue (line : string) : value :=
  let pairs := JsString.split "," line in
  JObj (fold_left
          (fun obj pair =>
             match List.map JsString.trim (JsString.split ":" pair) with
             | key :: val :: _ =>
                 if negb (JsString.isEmpty key) && negb (JsString.isEmpty val)
                 then JsValue.assign key (JStr val) obj
                 else obj
             | _ => obj
             end)
          pairs []).

(** [try { return JSON.parse(line) } catch (e) { ... }] *)
Definition parseTxtLine (line : string) : value :=
  match Json.parse line with
  | Some v => v
  | None => parseKeyValue line
  end.

Definition parseTxt (text : string) : value :=
  let lines := JsString.split JsString.newline text in
  JArr (List.map parseTxtLine (List.filter nonBlank lines)).

Definition fetchTxtData (env : Env) (self : Fetcher) (isServer : bool) : M FetchResult :=
  s0 <- getState ;;
  let cacheKey := txtCacheKey self in
  match plainCacheHit isServer cacheKey s0 with
  | Some r => ret r
  | None =>
      let url := getUrl env self (pagination s0) isServer in
      tryCatch
        (response <- fetch url [] ;;
         if negb (ok response) then
           throw (Error ("Failed to fetch TXT data: " ++ statusText response))
         else
           text <- response_text response ;;
           let jsonData := parseTxt text in
           parsedData <- settle (parseData self jsonData) ;;
           plainCacheStore isServer cacheKey parsedData ;;
           ret (onlyData parsedData))
        (fun error => throw error)
  end.

Definition mockUsers : list value :=
  [ JObj [("id", JNum 1 0); ("name", JStr "Mock User 1"); ("email", JStr "user1@example.com")];
    JObj [("id", JNum 2 0); ("name", JStr "Mock User 2"); ("email", JStr "user2@example.com")];
    JObj [("id", JNum 3 0); ("name", JStr "Mock User 3"); ("email", JStr "user3@example.com")] ].

Definition mockProducts : list value :=
  [ JObj [("id", JNum 1 0); ("name", JStr "Mock Product 1"); ("price", JNum 9999 (-2));
          ("description", JStr "A mock product")];
    JObj [("id", JNum 2 0); ("name", JStr "Mock Product 2"); ("price", JNum 19999 (-2));
          ("description", JStr "Another mock product")];
    JObj [("id", JNum 3 0); ("name", JStr "Mock Product 3"); ("price", JNum 29999 (-2));
          ("description", JStr "Yet another mock product")] ].

Definition getMockData (self : Fetcher) : list value :=
  let componentId := componentId self in
  if JsString.includes componentId "User" then mockUsers
  else if JsString.includes componentId "Product" then mockProducts
  else [].

(** [2 ** retries * 1000] *)
Definition backoff (retries : nat) : Z := 2 ^ Z.of_nat retries * 1000.

(** The wait after a 429:
    [Number.parseInt(headers.get("Retry-After") || "5", 10) * 1000 || 2 ** retries * 1000].
    The product is that of the code while it is an exact double; what is
    proved of the wait is stated for products within a timer delay. *)
Definition rateLimitWait (header : option string) (retries : nat) : Z :=
  let retryAfter := if nonEmpty header then default "5" header else "5" in
  match JsString.parseInt retryAfter with
  | Some n => if n * 1000 =? 0 then backoff retries else n * 1000
  | None => backoff retries
  end.

Definition apiHeaders (env : Env) : list (string * string) :=
  if nonEmpty (rapidApiKey env) && nonEmpty (rapidApiHost env) then
    [ ("x-rapidapi-key", default EmptyString (rapidApiKey env));
      ("x-rapidapi-host", default EmptyString (rapidApiHost env)) ]
  else [].

(** How one turn of the retry loop ends. *)
Inductive Turn : Type :=
| Continue
| Return (r : FetchResult).

(** The body of [while (retries < MAX_RETRIES)]: one [try]/[catch]. *)
Definition apiAttempt (env : Env) (self : Fetcher) (isServer : bool) (url : string)
  (retries : nat) : M Turn :=
  tryCatch
    (response <- fetch url (apiHeaders env) ;;
     if status response =? 429 then
       sleep (rateLimitWait (retryAfter response) retries) ;;
       ret Continue
     else if negb (ok response) then
       throw (Error ("Failed to fetch API data: " ++ statusText response))
     else
       data <- response_json response ;;
       parsedData <- settle (parseData self data) ;;
       plainCacheStore isServer (apiCacheKey self) parsedData ;;
       ret (Return (onlyData parsedData)))
    (fun error =>
       sleep (backoff retries) ;;
       ret Continue).

(** The retry loop; [fuel] only bounds the recursion, the loop test is the
    source's.  [None]: the loop ran out of attempts. *)
Fixpoint apiLoop (fuel : nat) (env : Env) (self : Fetcher) (isServer : bool) (url : string)
  (retries : nat) : M (option FetchResult) :=
  match fuel with
  | O => ret None
  | S fuel' =>
      if (retries <? MAX_RETRIES)%nat then
        turn <- apiAttempt env self isServer url retries ;;
        match turn with
        | Return r => ret (Some r)
        | Continue => apiLoop fuel' env self isServer url (S retries)
        end
      else ret None
  end.

(** The fallback read from the local endpoint; [None]: go on to the mock data. *)
Definition apiFallback (self : Fetcher) (isServer : bool) : M (option FetchResult) :=
  tryCatch
    (if negb isServer then
       let fallbackUrl := "/api/fallback?component=" ++ componentId self in
       response <- fetch fallbackUrl [] ;;
       if ok response then
         data <- response_json response ;;
         parsedData <- settle (parseData self data) ;;
         ret (Some (onlyData parsedData))
       else ret None
     else ret None)
    (fun fallbackError => ret None).

Definition fetchApiData (env : Env) (self : Fetcher) (isServer : bool) : M FetchResult :=
  s0 <- getState ;;
  let cacheKey := apiCacheKey self in
  match plainCacheHit isServer cacheKey s0 with
  | Some r => ret r
  | None =>
      if negb (nonEmpty (endpoint self)) then ret (onlyData [])
      else
        let url := default EmptyString (endpoint self) in
        looped <- apiLoop MAX_RETRIES env self isServer url 0 ;;
        match looped with
        | Some r => ret r
        | None =>
            fallback <- apiFallback self isServer ;;
            match fallback with
            | Some r => ret r
            | None => ret (onlyData (getMockData self))
            end
        end
  end.

Definition fetchData (env : Env) (self : Fetcher) (isServer : bool) : M FetchResult :=
  let dataSource := if nonEmpty (dataSource self) then default "json" (dataSource self) else "json" in
  if String.eqb dataSource "json" then fetchJsonData env self isServer
  else if String.eqb dataSource "csv" then fetchCsvData env self isServer
  else if String.eqb dataSource "txt" then fetchTxtData env self isServer
  else if String.eqb dataSource "api" then fetchApiData env self isServer
  else throw (Error ("Unsupported data source: " ++ dataSource)).

(** The three paths that do not retry, by format name. *)
Inductive PlainFormat : Type := FJson | FCsv | FTxt.

Definition fetchPlain (f : PlainFormat) : Env -> Fetcher -> bool -> M FetchResult :=
  match f with
  | FJson => fetchJsonData
  | FCsv => fetchCsvData
  | FTxt => fetchTxtData
  end.

Definition plainKey (f : PlainFormat) (self : Fetcher) (s : State) : string :=
  match f with
  | FJson => jsonCacheKey self (pagination s)
  | FCsv => csvCacheKey self
  | FTxt => txtCacheKey self
  end.

(** ** RealtimeManager

    The [events] emitter keeps, per event name, its listeners in the order
    they were added; [emit] calls them one after the other on the caller's
    stack, and a listener that throws ends the [emit] with its exception.
    The bus below records each call and each push so that order can be
    stated. *)

Module Realtime.

Inductive Action : Type := Create | Update | Delete | Refresh.

Record DataChangeEvent : Type := {
  ev_componentId : string;
  ev_action : Action;
  ev_data : value;
  ev_id : value
}.

(** A subscriber's function: which function it is, and whether a call
    with a given event returns ([None]) or throws. *)
Record Callback : Type := {
  fn : nat;
  run : DataChangeEvent -> option Exn
}.

(** One [{ id, send }] object of the [sseClients] set; [obj] tells the
    objects apart, as [Set] does. *)
Record SseClient : Type := {
  obj : nat;
  id : string;
  send : string -> option Exn
}.

Record Bus : Type := {
  listeners : list (string * Callback);
  sseClients : list SseClient;
  isServerSide : bool;
  nextObj : nat;
  called : list (nat * DataChangeEvent);
  pushed : list (nat * string)
}.

Definition eventName (componentId : string) : string := "data-change:" ++ componentId.

Definition create (server : bool) : Bus :=
  {| listeners := []; sseClients := []; isServerSide := server; nextObj := 0;
     called := []; pushed := [] |}.

(** [this.emitter.on(eventName, callback)] *)
Definition subscribe (componentId : string) (callback : Callback) (b : Bus) : Bus :=
  {| listeners := (listeners b ++ [(eventName componentId, callback)])%list;
     sseClients := sseClients b; isServerSide := isServerSide b;
     nextObj := nextObj b; called := called b; pushed := pushed b |}.

(** The listeners of one event, in the order they were added. *)
Definition listenersOf (name : string) (b : Bus) : list Callback :=
  (List.filter (fun l => String.eqb (fst l) name) (listeners b)).*2.

Fixpoint removeLast (name : string) (f : nat) (ls : list (string * Callback))
  : option (list (string * Callback)) :=
  match ls with
  | [] => None
  | l :: rest =>
      match removeLast name f rest with
      | Some rest' => Some (l :: rest')
      | None =>
          if String.eqb (fst l) name && Nat.eqb (fn (snd l)) f then Some rest else None
      end
  end.

(** The function [subscribe] returns: [this.emitter.off(eventName, callback)] *)
Definition unsubscribe (componentId : string) (callback : Callback) (b : Bus) : Bus :=
  {| listeners := default (listeners b)
                    (removeLast (eventName componentId) (fn callback) (listeners b));
     sseClients := sseClients b; isServerSide := isServerSide b;
     nextObj := nextObj b; called := called b; pushed := pushed b |}.

Definition registerSSEClient (i : string) (snd : string -> option Exn) (b : Bus) : Bus :=
  {| listeners := listeners b;
     sseClients := (sseClients b ++ [{| obj := nextObj b; id := i; send := snd |}])%list;
     isServerSide := isServerSide b; nextObj := S (nextObj b);
     called := called b; pushed := pushed b |}.

Fixpoint deleteFirst (i : string) (cs : list SseClient) : list SseClient :=
  match cs with
  | [] => []
  | c :: rest => if String.eqb (id c) i then rest else c :: deleteFirst i rest
  end.

Definition unregisterSSEClient (i : string) (b : Bus) : Bus :=
  {| listeners := listeners b; sseClients := deleteFirst i (sseClients b);
     isServerSide := isServerSide b; nextObj := nextObj b;
     called := called b; pushed := pushed b |}.

Definition recordCall (cb : Callback) (event : DataChangeEvent) (b : Bus) : Bus :=
  {| listeners := listeners b; sseClients := sseClients b;
     isServerSide := isServerSide b; nextObj := nextObj b;
     called := (called b ++ [(fn cb, event)])%list; pushed := pushed b |}.

Definition recordPush (client : SseClient) (payload : string) (b : Bus) : Bus :=
  {| listeners := listeners b; sseClients := sseClients b;
     isServerSide := isServerSide b; nextObj := nextObj b;
     called := called b; pushed := (pushed b ++ [(obj client, payload)])%list |}.

(** [this.sseClients.delete(client)] *)
Definition deleteClient (client : SseClient) (b : Bus) : Bus :=
  {| listeners := listeners b;
     sseClients := List.filter (fun c => negb (Nat.eqb (obj c) (obj client))) (sseClients b);
     isServerSide := isServerSide b; nextObj := nextObj b;
     called := called b; pushed := pushed b |}.

(** [emit] over the listeners it found when it started. *)
Fixpoint emitTo (todo : list Callback) (event : DataChangeEvent) (b : Bus)
  : Result unit * Bus :=
  match todo with
  | [] => (Resolved tt, b)
  | cb :: rest =>
      let b' := recordCall cb event b in
      match run cb event with
      | None => emitTo rest event b'
      | Some e => (Rejected e, b')
      end
  end.

Definition emit (name : string) (event : DataChangeEvent) (b : Bus) : Result unit * Bus :=
  emitTo (listenersOf name b) event b.

(** [for (const client of this.sseClients) try { client.send(data) } catch { delete }] *)
Fixpoint sendTo (todo : list SseClient) (payload : string) (b : Bus) : Bus :=
  match todo with
  | [] => b
  | client :: rest =>
      let b' := recordPush client payload b in
      match send client payload with
      | None => sendTo rest payload b'
      | Some _ => sendTo rest payload (deleteClient client b')
      end
  end.

(** [JSON.stringify] is the runtime's; it comes in as [stringify], which
    returns the text or throws (for an event whose [data] holds a BigInt or
    a cycle).  The call stands before the loop, outside its [try]. *)
Definition broadcastToSSEClients (stringify : DataChangeEvent -> Result string)
  (event : DataChangeEvent) (b : Bus) : Result unit * Bus :=
  match stringify event with
  | Resolved payload => (Resolved tt, sendTo (sseClients b) payload b)
  | Rejected e => (Rejected e, b)
  end.

Definition publish (stringify : DataChangeEvent -> Result string) (event : DataChangeEvent)
  (b : Bus) : Result unit * Bus :=
  match emit (eventName (ev_componentId event)) event b with
  | (Resolved _, b') =>
      if isServerSide b' then broadcastToSSEClients stringify event b'
      else (Resolved tt, b')
  | (Rejected e, b') => (Rejected e, b')
  end.

(** Every object in the client set is a different object. *)
Definition distinctClients (b : Bus) : Prop := NoDup (List.map obj (sseClients b)).

(** The clients whose [send] of this payload returns. *)
Definition accepting (payload : string) (cs : list SseClient) : list SseClient :=
  List.filter (fun c => match send c payload with None => true | Some _ => false end) cs.

Definition returns (event : DataChangeEvent) (cb : Callback) : Prop := run cb event = None.

End Realtime.

(** [publishDataChange(action, data, id)] *)
Definition publishDataChange (stringify : Realtime.DataChangeEvent -> Result string)
  (self : Fetcher) (action : Realtime.Action) (d i : value) (b : Realtime.Bus)
  : Result unit * Realtime.Bus :=
  Realtime.publish stringify
    {| Realtime.ev_componentId := componentId self; Realtime.ev_action := action;
       Realtime.ev_data := d; Realtime.ev_id := i |} b.

(** [handleDataChange(event)], the callback a fetcher subscribes with *)
Definition handleDataChange (env : Env) (self : Fetcher) (event : Realtime.DataChangeEvent)
  : M unit :=
  invalidateCache env self.

(** ** The public operations of one fetcher, as steps of a run *)

Inductive Op : Type :=
| Elapse (ms : Z)
| SetPagination (pg lim : Z) (en : bool)
| FetchJson (isServer : bool)
| FetchCsv (isServer : bool)
| FetchTxt (isServer : bool)
| FetchApi (isServer : bool)
| FetchData (isServer : bool)
| Invalidate.

Definition step (env : Env) (self : Fetcher) (op : Op) (s : State) : State :=
  match op with
  | Elapse ms => elapse ms s
  | SetPagination pg lim en => (setPagination pg lim en s).2
  | FetchJson b => (fetchJsonData env self b s).2
  | FetchCsv b => (fetchCsvData env self b s).2
  | FetchTxt b => (fetchTxtData env self b s).2
  | FetchApi b => (fetchApiData env self b s).2
  | FetchData b => (fetchData env self b s).2
  | Invalidate => (invalidateCache env self s).2
  end.

Definition steps (env : Env) (self : Fetcher) (ops : list Op) (s : State) : State :=
  fold_left (fun st op => step env self op st) ops s.

Definition isInvalidate (op : Op) : bool :=
  match op with Invalidate => true | _ => false end.

(** ** Words of the specification, as definitions *)

(** The exchange [fetch] will consume next. *)
Definition unreachable : Exchange := {| latency := 0; outcome := None |}.

Definition upcoming (s : State) (i : nat) : Exchange := nth i (network s) unreachable.

(** The payload an exchange delivers when it is a 2xx answer whose body
    decodes as JSON and goes through [parseData]. *)
Definition payloadOf (self : Fetcher) (x : Exchange) : option (list value) :=
  match outcome x with
  | Some r =>
      if ok r then
        match body r with
        | Some t =>
            match Json.parse t with
            | Some v =>
                match parseData self v with
                | Resolved d => Some d
                | Rejected _ => None
                end
            | None => None
            end
        | None => None
        end
      else None
  | None => None
  end.

(** A failed attempt of the api path: anything but a usable 2xx answer. *)
Definition attemptFails (self : Fetcher) (x : Exchange) : Prop := payloadOf self x = None.

(** A network failure: no answer, or an answer outside 2xx. *)
Definition networkFailure (x : Exchange) : Prop :=
  match outcome x with
  | Some r => ok r = false
  | None => True
  end.

(** The pair a [key:value] fragment stands for, when both sides are there. *)
Definition pairOf (fragment : string) : option (string * string) :=
  match JsString.split ":" fragment with
  | k :: v :: _ =>
      let key := JsString.trim k in
      let val := JsString.trim v in
      if JsString.isEmpty key || JsString.isEmpty val then None else Some (key, val)
  | _ => None
  end.

(** The value the last pair with this key gives it. *)
Fixpoint lastValue (key : string) (pairs : list (string * string)) : option string :=
  match pairs with
  | [] => None
  | (k, v) :: rest =>
      match lastValue key rest with
      | Some v' => Some v'
      | None => if String.eqb k key then Some v else None
      end
  end.

(** [sub] occurs in [s]. *)
Definition substring_of (sub s : string) : Prop :=
  exists before after : string, s = before ++ sub ++ after.

(** A client entry young enough to be served. *)
Definition reusable (s : State) (key : string) (e : CacheEntry) : Prop :=
  clientCache s !! key = Some e /\ now s - timestamp e < 300000.

(** ** Numbers the integers stand for

    Numbers of the code are doubles.  An integer stands for one exactly,
    and a template literal writes all its digits, while it is a safe
    integer ([Number.isSafeInteger]); a timer takes a delay of at most
    [2^31 - 1] ms as it is. *)

Definition safeInteger (z : Z) : Prop := Z.abs z <= 9007199254740991.

Definition timerDelay (ms : Z) : Prop := Z.abs ms <= 2147483647.

(** ** White space around a text *)

(** [c] is the first byte of a white-space character. *)
Definition opens (c : ascii) : Prop :=
  exists w tail, In w JsString.whiteSpace /\ w = String c tail.

(** A text that neither starts nor ends with a white-space character. *)
Definition bare (core : string) : Prop :=
  (forall w rest, In w JsString.whiteSpace -> core <> w ++ rest)
  /\ (forall w init, In w JsString.whiteSpace -> core <> init ++ w).

(** The first bytes of the white-space characters, and their other bytes. *)
Definition openingBytes : list ascii :=
  flat_map (fun w => match w with String a _ => [a] | EmptyString => [] end)
    JsString.whiteSpace.

Definition innerBytes : list ascii :=
  flat_map (fun w => match w with
                     | String _ rest => list_ascii_of_string rest
                     | EmptyString => []
                     end)
    JsString.whiteSpace.

(** What follows a text: nothing, or something that starts a white-space
    character. *)
Definition opened (tail : string) : Prop :=
  tail = EmptyString \/ exists t more, tail = String t more /\ In t openingBytes.

(** White-space characters, one after the other. *)
Definition padding (parts : list string) : Prop :=
  Forall (fun w => In w JsString.whiteSpace) parts.

Definition joined (parts : list string) : string :=
  fold_right String.append EmptyString parts.

(** U+00A0, the no-break space. *)
Definition nbsp : string := JsString.bytes [194; 160]%N.

(** ** Scenarios *)

Definition itemsOf (v : value) : Result (list value) :=
  match v with
  | JArr items => Resolved items
  | _ => Resolved []
  end.

Definition nodeEnv : Env :=
  {| windowUndefined := true; rapidApiKey := None; rapidApiHost := None;
     baseUrl := "http://localhost:3000"; apiBasePath := "/api/data" |}.

Definition browserEnv : Env :=
  {| windowUndefined := false; rapidApiKey := None; rapidApiHost := None;
     baseUrl := "http://localhost:3000"; apiBasePath := "/api/data" |}.

Definition fetcherOf (source id : string) (url : option string) : Fetcher :=
  {| parseData := itemsOf; dataSource := Some source; componentId := id; endpoint := url |}.

Definition noPagination : PaginationOptions := {| page := 1; limit := 0; enabled := false |}.

Definition idle (t : Z) (net : list Exchange) : State :=
  {| now := t; network := net; requests := []; timers := [];
     serverCache := ∅; clientCache := ∅; pagination := noPagination |}.

Definition answer (code : Z) (header : option string) (text : string) : Exchange :=
  {| latency := 40;
     outcome := Some {| status := code; statusText := EmptyString;
                        retryAfter := header; body := Some text |} |}.

Definition quoted (s : string) : string :=
  String JsString.dquote (s ++ String JsString.dquote EmptyString).

(** [[{"id":1}]] *)
Definition onePayload : string :=
  "[{" ++ quoted "id" ++ ":1}]".

(** [{"name":"Bob"}] *)
Definition bobLine : string :=
  "{" ++ quoted "name" ++ ":" ++ quoted "Bob" ++ "}".

Definition withClientEntry (key : string) (e : CacheEntry) (s : State) : State :=
  {| now := now s; network := network s; requests := requests s; timers := timers s;
     serverCache := serverCache s; clientCache := <[key := e]> (clientCache s);
     pagination := pagination s |}.

Definition withServerEntry (key : string) (d : list value) (s : State) : State :=
  {| now := now s; network := network s; requests := requests s; timers := timers s;
     serverCache := <[key := d]> (serverCache s); clientCache := clientCache s;
     pagination := pagination s |}.

(** Every key under which a fetcher may have cached something. *)
Definition cacheKeys (self : Fetcher) (p : PaginationOptions) : list string :=
  [jsonCacheKey self p; csvCacheKey self; txtCacheKey self; apiCacheKey self].

Definition named (id : string) (self : Fetcher) : Fetcher :=
  {| parseData := parseData self; dataSource := dataSource self; componentId := id;
     endpoint := endpoint self |}.

(** ** What one exchange amounts to, read off the response alone *)

(** The state right after [fetch] has settled. *)
Definition afterFetch (url : string) (headers : list (string * string)) (s : State) : State :=
  {| now := now s + Z.max 0 (latency (upcoming s 0));
     network := tl (network s);
     requests := (requests s ++ [{| req_url := url; req_headers := headers |}])%list;
     timers := timers s;
     serverCache := serverCache s;
     clientCache := clientCache s;
     pagination := pagination s |}.

(** The state after the result of a read has been cached. *)
Definition stored (isServer : bool) (key : string) (d : list value) (items pages : value)
  (s : State) : State :=
  if isServer then withServerEntry key d s
  else withClientEntry key
         {| entry_data := d; timestamp := now s;
            entry_totalItems := items; entry_totalPages := pages |} s.

Definition withTotals (r : Result (list value)) (items pages : value)
  : Result (list value * value * value) :=
  match r with
  | Resolved d => Resolved (d, items, pages)
  | Rejected e => Rejected e
  end.

(** The three response shapes of the JSON path, by cases on the body:
    an envelope whose [data] is an array, a bare array, anything else. *)
Definition jsonShape (self : Fetcher) (responseData : value)
  : Result (list value * value * value) :=
  match responseData with
  | JObj props =>
      match JsValue.lookupProp "data" props with
      | JArr items =>
          let pagination := JsValue.lookupProp "pagination" props in
          withTotals (parseData self (JArr items))
            (JsValue.getPropOpt pagination "totalItems")
            (JsValue.getPropOpt pagination "totalPages")
      | _ => Resolved ([], JUndefined, JUndefined)
      end
  | JArr items => withTotals (parseData self (JArr items)) JUndefined JUndefined
  | JNull | JUndefined =>
      Rejected (TypeError "Cannot read properties of null (reading 'data')")
  | _ => Resolved ([], JUndefined, JUndefined)
  end.

Definition failurePrefix (f : PlainFormat) : string :=
  match f with
  | FJson => "Failed to fetch data: "
  | FCsv => "Failed to fetch CSV data: "
  | FTxt => "Failed to fetch TXT data: "
  end.

(** What a json, csv or txt read makes of the exchange it consumes. *)
Definition delivered (f : PlainFormat) (self : Fetcher) (x : Exchange)
  : Result (list value * value * value) :=
  match outcome x with
  | None => Rejected NetworkError
  | Some r =>
      if ok r then
        match body r with
        | None => Rejected (TypeError "body stream is not readable")
        | Some t =>
            match f with
            | FJson =>
                match Json.parse t with
                | Some v => jsonShape self v
                | None => Rejected (SyntaxError "Unexpected token in JSON")
                end
            | FCsv => withTotals (parseData self (parseCsv t)) JUndefined JUndefined
            | FTxt => withTotals (parseData self (parseTxt t)) JUndefined JUndefined
            end
        end
      else Rejected (Error (failurePrefix f ++ statusText r))
  end.

(** What the cache check at the head of a json, csv or txt read finds. *)
Definition cached (f : PlainFormat) (self : Fetcher) (isServer : bool) (s : State)
  : option FetchResult :=
  let key := plainKey f self s in
  if isServer then
    match serverCache s !! key with
    | Some d => Some (onlyData d)
    | None => None
    end
  else
    match fresh (now s) (clientCache s !! key) with
    | Some e =>
        Some (match f with
              | FJson => {| data := entry_data e; totalItems := entry_totalItems e;
                            totalPages := entry_totalPages e |}
              | _ => onlyData (entry_data e)
              end)
    | None => None
    end.

(** The wait that follows a failed attempt of the api path. *)
Definition waitAfter (x : Exchange) (retries : nat) : Z :=
  match outcome x with
  | Some r => if status r =? 429 then rateLimitWait (retryAfter r) retries else backoff retries
  | None => backoff retries
  end.

Definition afterSleep (ms : Z) (s : State) : State := (sleep ms s).2.

(** The state an attempt of the api path leaves when it fails: the
    exchange is consumed, then the wait elapses. *)
Definition failedAttempt (env : Env) (url : string) (retries : nat) (s : State) : State :=
  afterSleep (waitAfter (upcoming s 0) retries) (afterFetch url (apiHeaders env) s).

(** Three failed attempts in a row. *)
Definition exhausted (env : Env) (url : string) (s : State) : State :=
  failedAttempt env url 2 (failedAttempt env url 1 (failedAttempt env url 0 s)).

Definition fallbackUrl (self : Fetcher) : string :=
  "/api/fallback?component=" ++ componentId self.

(** The api path has missed its cache and has an endpoint to call. *)
Definition apiCalls (self : Fetcher) (isServer : bool) (s : State) (url : string) : Prop :=
  plainCacheHit isServer (apiCacheKey self) s = None
  /\ endpoint self = Some url /\ url <> EmptyString.

Definition toEndpoint (env : Env) (url : string) : Request :=
  {| req_url := url; req_headers := apiHeaders env |}.

Definition toFallback (self : Fetcher) : Request :=
  {| req_url := fallbackUrl self; req_headers := [] |}.

Definition productList : Fetcher := fetcherOf "api" "ProductList" (Some "https://api.example.com/products").

Definition userProducts : Fetcher := fetcherOf "api" "UserProducts" (Some "https://api.example.com/mine").

(** Client side, nothing cached: a 429 without [Retry-After], then a good answer. *)
Definition rateLimitedOnce : State := idle 0 [answer 429 None EmptyString; answer 200 None onePayload].

(** [429 (Retry-After: 1), 500, 200 + payload] *)
Definition flakyThenGood : State :=
  idle 0 [answer 429 (Some "1") EmptyString; answer 500 None EmptyString;
          answer 200 None onePayload].

Definition userData : Fetcher := fetcherOf "json" "UserData" None.

Definition nullBody : State := idle 0 [answer 200 None "null"].

(** [{"data":[{"id":1}],"pagination":{"totalItems":12,"totalPages":3}}] *)
Definition envelopeBody : string :=
  "{" ++ quoted "data" ++ ":" ++ onePayload ++ "," ++ quoted "pagination" ++ ":{"
  ++ quoted "totalItems" ++ ":12," ++ quoted "totalPages" ++ ":3}}".

Definition envelopeProps : list (string * value) :=
  [("data", JArr [JObj [("id", JNum 1 0)]]);
   ("pagination", JObj [("totalItems", JNum 12 0); ("totalPages", JNum 3 0)])].

Definition envelopeAhead : State := idle 0 [answer 200 None envelopeBody].

(** Every entry of the server table is still there, with the same data. *)
Definition keepsServerEntries (s s' : State) : Prop :=
  forall (key : string) (d : list value),
    serverCache s !! key = Some d -> serverCache s' !! key = Some d.

Definition withoutInvalidation (ops : list Op) : Prop :=
  Forall (fun op => isInvalidate op = false) ops.

Definition onePayloadAhead : State := idle 0 [answer 200 None onePayload].

Definition oneItem : list value := [JObj [("id", JNum 1 0)]].

(** What a path hands back from a client entry it reuses. *)
Definition served (f : PlainFormat) (e : CacheEntry) : FetchResult :=
  match f with
  | FJson => {| data := entry_data e; totalItems := entry_totalItems e;
                totalPages := entry_totalPages e |}
  | _ => onlyData (entry_data e)
  end.

(** The entry a client-side read stores for its result. *)
Definition entryOf (r : FetchResult) (t : Z) : CacheEntry :=
  {| entry_data := data r; timestamp := t;
     entry_totalItems := totalItems r; entry_totalPages := totalPages r |}.

(** Client side: an api entry exactly 300000 ms old, and a dead network. *)
Definition staleApiEntry : CacheEntry :=
  {| entry_data := oneItem; timestamp := 0;
     entry_totalItems := JUndefined; entry_totalPages := JUndefined |}.

Definition staleApi : State := withClientEntry "api_ProductList" staleApiEntry (idle 300000 []).

(** Client side: a json entry exactly 300000 ms old, and a good answer ahead. *)
Definition staleJson : State :=
  withClientEntry "json_UserData" staleApiEntry (idle 300000 [answer 200 None onePayload]).

Definition bodyDecoder (f : PlainFormat) (t : string) : option value :=
  match f with
  | FJson => Json.parse t
  | FCsv => Some (parseCsv t)
  | FTxt => Some (parseTxt t)
  end.

Definition userText : Fetcher := fetcherOf "txt" "UserData" None.

Definition serverError : State := idle 0 [answer 500 None EmptyString; answer 200 None onePayload].

(** A txt body whose only line is not JSON. *)
Definition keyValueAhead : State := idle 0 [answer 200 None "name:Bob,age:30"].

Definition bob30 : value := JObj [("name", JStr "Bob"); ("age", JStr "30")].

(** The pairs of a line that have both a key and a value, in order. *)
Definition pairsOf (line : string) : list (string * string) :=
  omap pairOf (JsString.split "," line).

(** The value a property of the record built from [pairs] ends up with:
    that of the last pair naming it; a record has no property [__proto__]
    of its own. *)
Definition fieldOf (key : string) (pairs : list (string * string)) : value :=
  if String.eqb key "__proto__" then JUndefined
  else match lastValue key pairs with
       | Some v => JStr v
       | None => JUndefined
       end.

(** ** Scenarios on the bus *)

Definition refreshX : Realtime.DataChangeEvent :=
  {| Realtime.ev_componentId := "x"; Realtime.ev_action := Realtime.Refresh;
     Realtime.ev_data := JUndefined; Realtime.ev_id := JUndefined |}.

Definition quiet (f : nat) : Realtime.Callback :=
  {| Realtime.fn := f; Realtime.run := fun _ => None |}.

Definition thrower (f : nat) : Realtime.Callback :=
  {| Realtime.fn := f; Realtime.run := fun _ => Some (Error "listener failed") |}.

(** A serializer that writes the componentId, and one that meets a value
    it cannot write. *)
Definition nameOnly (e : Realtime.DataChangeEvent) : Result string :=
  Resolved (Realtime.ev_componentId e).

Definition unserializable (e : Realtime.DataChangeEvent) : Result string :=
  Rejected (TypeError "Do not know how to serialize a BigInt").

Definition openSink (payload : string) : option Exn := None.

Definition closedSink (payload : string) : option Exn := Some (Error "stream closed").

(** A server-side bus: two listeners on [x], the first of which throws. *)
Definition throwingFirst : Realtime.Bus :=
  Realtime.subscribe "x" (quiet 2) (Realtime.subscribe "x" (thrower 1) (Realtime.create true)).

(** A server-side bus: two quiet listeners on [x], one open and one closed client. *)
Definition twoAndTwo : Realtime.Bus :=
  Realtime.registerSSEClient "b" closedSink
    (Realtime.registerSSEClient "a" openSink
       (Realtime.subscribe "x" (quiet 2)
          (Realtime.subscribe "x" (quiet 1) (Realtime.create true)))).

(** The ids handed out so far are below the counter. *)
Definition wellNumbered (b : Realtime.Bus) : Prop :=
  Forall (fun c => (Realtime.obj c < Realtime.nextObj b)%nat) (Realtime.sseClients b).

(** The objects a broadcast of [payload] to [todo] deletes. *)
Definition failing (payload : string) (todo : list Realtime.SseClient) : list nat :=
  List.map Realtime.obj
    (List.filter (fun c => match Realtime.send c payload with
                           | None => false
                           | Some _ => true
                           end) todo).

(** ** Further scenarios *)

Definition paginated (pg lim : Z) : PaginationOptions :=
  {| page := pg; limit := lim; enabled := true |}.

(** Text at which the reading of digits stops. *)
Definition stopsDigits (rest : string) : Prop :=
  match rest with
  | EmptyString => True
  | String c _ => JsString.isDigit c = false
  end.


(** A csv answer of one row, then nothing more on the network. *)
Definition csvAhead : State :=
  idle 0 [answer 200 None ("id,name" ++ String JsString.newline "1,Alice")].

Definition userCsv : Fetcher := fetcherOf "csv" "UserData" None.

Definition userRecords : Fetcher := fetcherOf "json" "User" None.

(** The server table holding entries of two fetchers, [User] and [UserData]. *)
Definition sharedTable : State :=
  withServerEntry "csv_UserData" oneItem
    (withServerEntry "json_User" oneItem
       (withServerEntry "json_Orders" oneItem (idle 0 []))).

Definition noEndpoint : Fetcher := fetcherOf "api" "Feed" None.

Definition xmlSource : Fetcher := fetcherOf "xml" "Feed" None.

(** [values[index]?.trim()] *)
Definition cell (values : list string) (index : nat) : value :=
  match nth_error values index with
  | Some v => JStr (JsString.trim v)
  | None => JUndefined
  end.

(** The lines of a csv text that become records. *)
Definition csvRows (text : string) : list string :=
  List.filter nonBlank (tl (JsString.split JsString.newline text)).

Definition csvHeaders (text : string) : list string :=
  JsString.split "," (hd EmptyString (JsString.split JsString.newline text)).

(** The calls a user of the bus can make. *)
Inductive BusOp : Type :=
| Subscribe (componentId : string) (callback : Realtime.Callback)
| Unsubscribe (componentId : string) (callback : Realtime.Callback)
| Register (id : string) (send : string -> option Exn)
| Unregister (id : string)
| Publish (event : Realtime.DataChangeEvent).

Definition runBusOp (stringify : Realtime.DataChangeEvent -> Result string) (op : BusOp)
  (b : Realtime.Bus) : Realtime.Bus :=
  match op with
  | Subscribe i cb => Realtime.subscribe i cb b
  | Unsubscribe i cb => Realtime.unsubscribe i cb b
  | Register i snd => Realtime.registerSSEClient i snd b
  | Unregister i => Realtime.unregisterSSEClient i b
  | Publish event => (Realtime.publish stringify event b).2
  end.

Definition runBusOps (stringify : Realtime.DataChangeEvent -> Result string) (ops : list BusOp)
  (b : Realtime.Bus) : Realtime.Bus :=
  fold_left (fun bus op => runBusOp stringify op bus) ops b.

Definition hasId (i : string) (c : Realtime.SseClient) : bool := String.eqb (Realtime.id c) i.

Definition refreshY : Realtime.DataChangeEvent :=
  {| Realtime.ev_componentId := "y"; Realtime.ev_action := Realtime.Refresh;
     Realtime.ev_data := JUndefined; Realtime.ev_id := JUndefined |}.

From Stdlib Require Import Sorted Permutation.

(** ** Pagination component: the page buttons

    [currentPage] and [totalPages] are page counts; they are modelled as
    integers. *)


(** [for (let i = first; i <= last; i++) push(i)] *)
Definition countUp (first last : Z) : list Z :=
  List.map (fun k => first + Z.of_nat k) (seq 0 (Z.to_nat (last - first + 1))).



(** ** Arrays and numbers of the list components *)

Module JsArray.

(** [array.slice(start, end)] with integer bounds: a negative bound counts
    from the end, and both are clamped to the array. *)
Definition slice {A : Type} (start end_ : Z) (l : list A) : list A :=
  let len := Z.of_nat (length l) in
  let k := if start <? 0 then Z.max (len + start) 0 else Z.min start len in
  let final := if end_ <? 0 then Z.max (len + end_) 0 else Z.min end_ len in
  firstn (Z.to_nat (final - k)) (skipn (Z.to_nat k) l).

End JsArray.

(** A number computed from a length: an integer, or what a division by
    zero leaves. *)
Inductive JsNumber : Type :=
| Finite (z : Z)
| Infinity
| NaN.

(** [Math.ceil(count / per)] for an array length [count] and an integer [per] *)
Definition ceilOfRatio (count : nat) (per : Z) : JsNumber :=
  if per =? 0 then (if Nat.eqb count 0 then NaN else Infinity)
  else Finite (- ((- Z.of_nat count) / per)).

(** [Math.max(1, x)] *)
Definition atLeastOne (x : JsNumber) : JsNumber :=
  match x with
  | Finite z => Finite (Z.max 1 z)
  | Infinity => Infinity
  | NaN => NaN
  end.

Module DynamicListRenderer.

Definition totalPages {A : Type} (data : list A) (itemsPerPage : Z) : JsNumber :=
  atLeastOne (ceilOfRatio (length data) itemsPerPage).

(** The effect that sets [visibleItems] *)
Definition visibleItems {A : Type} (currentPage itemsPerPage : Z) (data : list A) : list A :=
  let startIndex := (currentPage - 1) * itemsPerPage in
  let endIndex := startIndex + itemsPerPage in
  JsArray.slice startIndex endIndex data.

End DynamicListRenderer.

(** ** createDataApiHandler

    The handler reads four query parameters; [searchParams.get] gives
    [null] for a missing one.  The body of a JSON reply is kept as the
    document [JSON.stringify] writes out, in which a NaN or an infinite
    number reads [null].  Nothing inside the handler's [try] can throw, so
    its [catch] branch is left out. *)

Module DataApi.

Inductive Body : Type :=
| Json (document : value)
| Text (text : string).

Record Reply : Type := {
  reply_status : Z;
  contentType : string;
  reply_body : Body
}.

(** [param || fallback] *)
Definition orElse (param : option string) (fallback : string) : string :=
  match param with
  | Some s => if JsString.isEmpty s then fallback else s
  | None => fallback
  end.

Definition mockData : list value :=
  [ JObj [("id", JNum 1 0); ("name", JStr "Item 1")];
    JObj [("id", JNum 2 0); ("name", JStr "Item 2")];
    JObj [("id", JNum 3 0); ("name", JStr "Item 3")] ].

Definition numberOrNull (n : option Z) : value :=
  match n with
  | Some z => JNum z 0
  | None => JNull
  end.

Definition written (n : JsNumber) : value :=
  match n with
  | Finite z => JNum z 0
  | Infinity | NaN => JNull
  end.

(** [limit > 0]; false for NaN *)
Definition positive (limit : option Z) : bool :=
  match limit with
  | Some l => 0 <? l
  | None => false
  end.

Definition handler (component dataSource page limit : option string) : Reply :=
  let dataSource := orElse dataSource "json" in
  let page := JsString.parseInt (orElse page "1") in
  let limit := JsString.parseInt (orElse limit "0") in
  if negb (nonEmpty component) then
    {| reply_status := 400; contentType := "application/json";
       reply_body := Json (JObj [("error", JStr "Component parameter is required")]) |}
  else
    let totalItems := length mockData in
    let paginatedData :=
      match limit with
      | Some l =>
          if 0 <? l then
            match page with
            | Some p =>
                let startIndex := (p - 1) * l in
                JsArray.slice startIndex (startIndex + l) mockData
            | None => JsArray.slice 0 0 mockData
            end
          else mockData
      | None => mockData
      end in
    if String.eqb dataSource "json" then
      {| reply_status := 200; contentType := "application/json";
         reply_body :=
           Json (JObj
                   [("data", JArr paginatedData);
                    ("pagination",
                      match limit with
                      | Some l =>
                          if 0 <? l then
                            JObj [("page", numberOrNull page);
                                  ("limit", JNum l 0);
                                  ("totalItems", JNum (Z.of_nat totalItems) 0);
                                  ("totalPages", written (ceilOfRatio totalItems l))]
                          else JNull
                      | None => JNull
                      end)]) |}
    else
      {| reply_status := 200;
         contentType := if String.eqb dataSource "csv" then "text/csv" else "text/plain";
         reply_body := Text "Mock data for non-JSON format" |}.

End DataApi.

(** ** withServerFetching

    What the server component hands to the wrapped component, or to the
    error component.  The registry is the map of [FetcherRegistry]; the
    state is that of the fetcher found in it.  [networkText] is the
    message the runtime gives the exception of a failed [fetch]. *)

Definition messageOf (networkText : string) (e : Exn) : string :=
  match e with
  | Error m | TypeError m | SyntaxError m => m
  | NetworkError => networkText
  end.

(** A number of the pagination props: the one of the result when it is
    truthy, else one computed from the length of the data. *)
Inductive Shown : Type :=
| FromResult (v : value)
| FromLength (n : JsNumber).

(** [given || computed] *)
Definition orComputed (given : value) (computed : JsNumber) : Shown :=
  if JsValue.truthy given then FromResult given else FromLength computed.

Record PaginationProps : Type := {
  currentPage : Z;
  shownPages : Shown;
  shownItems : Shown;
  itemsPerPage : Z
}.

Inductive Rendered : Type :=
| Wrapped (records : list value) (props : PaginationProps)
| ErrorView (message : string).

Definition ServerComponent (env : Env) (networkText : string)
  (fetchers : gmap string Fetcher) (componentId : string) (defaultItemsPerPage : Z)
  : M Rendered :=
  tryCatch
    (match fetchers !! componentId with
     | None => throw (Error ("No fetcher registered for component: " ++ componentId))
     | Some fetcher =>
         (setPagination 1 defaultItemsPerPage true ;;
          result <- fetchData env fetcher true ;;
          ret (Wrapped (data result)
                 {| currentPage := 1;
                    shownPages :=
                      orComputed (totalPages result)
                        (ceilOfRatio (length (data result)) defaultItemsPerPage);
                    shownItems :=
                      orComputed (totalItems result)
                        (Finite (Z.of_nat (length (data result))));
                    itemsPerPage := defaultItemsPerPage |}))
     end)
    (fun error =>
       ret (ErrorView (DataApi.orElse (Some (messageOf networkText error))
                         "Unknown error occurred"))).

(** ** withClientFetching

    The state cells of the client component and one run of its fetch
    effect while the component stays mounted.  A total that the effect
    computes with [Math.ceil(totalItems / itemsPerPage)] from a value of
    the response is kept as that quotient. *)

Module ClientFetching.

Inductive Total : Type :=
| Unset
| Given (v : value)
| CeilOfRatio (numerator : value) (denominator : Z).

Record Cells : Type := {
  state_data : list value;
  state_loading : bool;
  state_error : option string;
  state_currentPage : Z;
  state_itemsPerPage : Z;
  state_totalItems : Total;
  state_totalPages : Total
}.

Definition setLoading (b : bool) (c : Cells) : Cells :=
  {| state_data := state_data c; state_loading := b; state_error := state_error c;
     state_currentPage := state_currentPage c; state_itemsPerPage := state_itemsPerPage c;
     state_totalItems := state_totalItems c; state_totalPages := state_totalPages c |}.

Definition setError (e : option string) (c : Cells) : Cells :=
  {| state_data := state_data c; state_loading := state_loading c; state_error := e;
     state_currentPage := state_currentPage c; state_itemsPerPage := state_itemsPerPage c;
     state_totalItems := state_totalItems c; state_totalPages := state_totalPages c |}.

Definition setCurrentPage (p : Z) (c : Cells) : Cells :=
  {| state_data := state_data c; state_loading := state_loading c;
     state_error := state_error c;
     state_currentPage := p; state_itemsPerPage := state_itemsPerPage c;
     state_totalItems := state_totalItems c; state_totalPages := state_totalPages c |}.

Definition setData (d : list value) (c : Cells) : Cells :=
  {| state_data := d; state_loading := state_loading c; state_error := state_error c;
     state_currentPage := state_currentPage c; state_itemsPerPage := state_itemsPerPage c;
     state_totalItems := state_totalItems c; state_totalPages := state_totalPages c |}.

Definition setTotalItems (t : Total) (c : Cells) : Cells :=
  {| state_data := state_data c; state_loading := state_loading c;
     state_error := state_error c;
     state_currentPage := state_currentPage c; state_itemsPerPage := state_itemsPerPage c;
     state_totalItems := t; state_totalPages := state_totalPages c |}.

Definition setTotalPages (t : Total) (c : Cells) : Cells :=
  {| state_data := state_data c; state_loading := state_loading c;
     state_error := state_error c;
     state_currentPage := state_currentPage c; state_itemsPerPage := state_itemsPerPage c;
     state_totalItems := state_totalItems c; state_totalPages := t |}.

Definition isUndefined (v : value) : bool :=
  match v with JUndefined => true | _ => false end.

(** The user-friendly wording of the [catch] branch *)
Definition friendly (errorMessage : string) : string :=
  if JsString.includes errorMessage "Too Many Requests" || JsString.includes errorMessage "429"
  then "The API is rate limited. Please try again later."
  else if JsString.includes errorMessage "Failed to fetch"
  then "Network error. Please check your connection."
  else errorMessage.

Definition fetchEffect (env : Env) (networkText : string) (fetchers : gmap string Fetcher)
  (componentId : string) (cells : Cells) : M Cells :=
  let cells := setError None (setLoading true cells) in
  settled <-
    tryCatch
      (match fetchers !! componentId with
       | None => throw (Error ("No fetcher registered for component: " ++ componentId))
       | Some fetcher =>
           (setPagination (state_currentPage cells) (state_itemsPerPage cells) true ;;
            result <- fetchData env fetcher false ;;
            if Nat.eqb (length (data result)) 0 && (state_currentPage cells >? 1) then
              ret (setCurrentPage 1 cells)
            else
              let cells := setData (data result) cells in
              let cells :=
                if negb (isUndefined (totalItems result))
                then setTotalItems (Given (totalItems result)) cells
                else cells in
              let cells :=
                if negb (isUndefined (totalPages result))
                then setTotalPages (Given (totalPages result)) cells
                else if negb (isUndefined (totalItems result))
                then setTotalPages
                       (CeilOfRatio (totalItems result) (state_itemsPerPage cells)) cells
                else cells in
              let cells :=
                if Nat.eqb (length (data result)) 0
                then setError (Some "No data available. The API might be rate limited.") cells
                else cells in
              ret cells)
       end)
      (fun err =>
         let errorMessage :=
           DataApi.orElse (Some (messageOf networkText err)) "Unknown error occurred" in
         ret (setError (Some (friendly errorMessage)) cells)) ;;
  ret (setLoading false settled).

End ClientFetching.

Definition sourceName (f : PlainFormat) : string :=
  match f with
  | FJson => "json"
  | FCsv => "csv"
  | FTxt => "txt"
  end.

(** The cells of a client component that has not fetched yet. *)
Definition mounted (perPage : Z) : ClientFetching.Cells :=
  {| ClientFetching.state_data := []; ClientFetching.state_loading := true;
     ClientFetching.state_error := None; ClientFetching.state_currentPage := 1;
     ClientFetching.state_itemsPerPage := perPage;
     ClientFetching.state_totalItems := ClientFetching.Unset;
     ClientFetching.state_totalPages := ClientFetching.Unset |}.

(** A 429 over HTTP/2, where the status line has no text. *)
Definition rateLimitedNow : State :=
  idle 0 [{| latency := 40;
             outcome := Some {| status := 429; statusText := EmptyString;
                                retryAfter := None; body := None |} |}].

(** ** FetcherRegistry: the base URL *)

(** [s.endsWith(c)] for a single character *)
Fixpoint endsWith (s : string) (c : ascii) : bool :=
  match s with
  | EmptyString => false
  | String a EmptyString => Ascii.eqb a c
  | String _ rest => endsWith rest c
  end.

(** [s.slice(0, -1)] *)
Fixpoint dropLast (s : string) : string :=
  match s with
  | EmptyString => EmptyString
  | String _ EmptyString => EmptyString
  | String a rest => String a (dropLast rest)
  end.

Definition setBaseUrl (url : string) (env : Env) : Env :=
  {| windowUndefined := windowUndefined env; rapidApiKey := rapidApiKey env;
     rapidApiHost := rapidApiHost env;
     baseUrl := if endsWith url "/" then dropLast url else url;
     apiBasePath := apiBasePath env |}.

(** ** DynamicDataDisplay: the rows of one record *)

Module DynamicDataDisplay.

(** [Object.keys(data)] of a record whose keys are not array indices: the
    keys in insertion order; of an array: its indices. *)
Definition keysOf (data : value) : list string :=
  match data with
  | JObj props => List.map fst props
  | JArr items => List.map (fun k => JsString.ofZ (Z.of_nat k)) (seq 0 (length items))
  | _ => []
  end.

(** [list.includes(key)] *)
Definition listed (list : list string) (key : string) : bool :=
  existsb (String.eqb key) list.

Definition allFields (data : value) (excludeFields : list string) : list string :=
  List.filter (fun key => negb (listed excludeFields key)) (keysOf data).

Definition priorityFieldsToShow (data : value) (excludeFields priorityFields : list string)
  : list string :=
  List.filter (fun field => listed priorityFields field) (allFields data excludeFields).

Definition otherFields (data : value) (excludeFields priorityFields : list string)
  : list string :=
  List.filter (fun field => negb (listed priorityFields field)) (allFields data excludeFields).

(** What is rendered: nothing but [No data available], or the field rows
    and, when there is one, the number on the [Show n more fields] button. *)
Record Display : Type := {
  rows : list string;
  more : option Z
}.

Definition display (data : value) (excludeFields priorityFields : list string)
  (expanded : bool) : option Display :=
  if negb (JsValue.truthy data) || negb (match data with JObj _ | JArr _ | JNull => true | _ => false end)
  then None
  else
    let others := otherFields data excludeFields priorityFields in
    let count := Z.of_nat (length others) in
    Some {| rows :=
              (priorityFieldsToShow data excludeFields priorityFields
               ++ JsArray.slice 0 (if expanded then count else 2) others)%list;
            more := if count >? 2 then Some (count - 2) else None |}.

End DynamicDataDisplay.

(** A browser in which both RapidAPI variables are set. *)
Definition keyedEnv : Env :=
  {| windowUndefined := false; rapidApiKey := Some "secret-key";
     rapidApiHost := Some "api.example.com";
     baseUrl := "http://localhost:3000"; apiBasePath := "/api/data" |}.

(** * Properties *)

(** ** The JSON reader on sample texts *)

Example parse_scalars :
  Json.parse " [1, 2.50, -3e2, true, false, null] "
  = Some (JArr [JNum 1 0; JNum 250 (-2); JNum (-3) 2; JBool true; JBool false; JNull]).
Proof. vm_compute. reflexivity. Qed.

Example parse_nested : Json.parse envelopeBody = Some (JObj envelopeProps).
Proof. vm_compute. reflexivity. Qed.

Example parse_rejects :
  List.map Json.parse ["01"; "[1,]"; "{a:1}"; "nul"; "1 2"; "name:Bob,age:30"; EmptyString]
  = [None; None; None; None; None; None; None].
Proof. vm_compute. reflexivity. Qed.

Example parseInt_samples :
  List.map JsString.parseInt ["1"; " 12abc"; "-0"; "abc"; "Wed, 21 Oct 2026 07:28:00 GMT"]
  = [Some 1; Some 12; Some 0; None; None].
Proof. vm_compute. reflexivity. Qed.

Example split_trim_samples :
  JsString.split "," "a, b,,c" = ["a"; " b"; EmptyString; "c"]
  /\ JsString.split "," EmptyString = [EmptyString]
  /\ JsString.trim "  a b  " = "a b".
Proof. vm_compute. repeat split. Qed.

Example trim_samples :
  JsString.trim (nbsp ++ " a" ++ nbsp ++ "b" ++ JsString.bytes [226; 128; 168; 9]%N) = "a" ++ nbsp ++ "b"
  /\ JsString.trim (nbsp ++ JsString.bytes [239; 187; 191; 32]%N) = EmptyString
  /\ JsString.parseInt (nbsp ++ "42") = Some 42
  /\ JsValue.assign "__proto__" (JStr "x") [("a", JNull)] = [("a", JNull)].
Proof. vm_compute. repeat split. Qed.

Example csv_sample :
  parseCsv ("id,name" ++ String JsString.newline "1, Alice ")
  = JArr [JObj [("id", JStr "1"); ("name", JStr "Alice")]].
Proof. vm_compute. reflexivity. Qed.

(** ** Strings *)

Lemma startsWith_prefix (s p : string) :
  JsString.startsWith s p = true <-> exists after : string, s = p ++ after.
Proof.
  revert s. induction p as [|a p IH]; intros s; simpl.
  - split; [intros _; exists s; reflexivity | intros _; destruct s; reflexivity].
  - destruct s as [|b s].
    + split; [discriminate | intros [after H]; discriminate].
    + cbn [JsString.startsWith]. rewrite andb_true_iff, Ascii.eqb_eq, IH. split.
      * intros [-> [after ->]]. exists after. reflexivity.
      * intros [after H]. injection H as -> ->. split; [reflexivity | eauto].
Qed.

Lemma includes_substring (s sub : string) :
  JsString.includes s sub = true <-> substring_of sub s.
Proof.
  unfold substring_of. induction s as [|c s IH].
  - cbn [JsString.includes]. rewrite orb_false_r, startsWith_prefix. split.
    + intros [after H]. exists EmptyString, after. exact H.
    + intros [[|b before] [after H]]; [exists after; exact H | discriminate].
  - cbn [JsString.includes]. rewrite orb_true_iff, startsWith_prefix, IH. split.
    + intros [[after H] | [before [after H]]].
      * exists EmptyString, after. exact H.
      * exists (String c before), after. simpl. rewrite H. reflexivity.
    + intros [[|b before] [after H]].
      * left. exists after. exact H.
      * right. simpl in H. injection H as -> ->. eauto.
Qed.

(** A string that contains [sub] contains the first character of [sub]. *)
Lemma includes_first_char (s sub : string) (c : ascii) :
  JsString.includes s (String c sub) = true -> In c (list_ascii_of_string s).
Proof.
  induction s as [|b s IH]; cbn [JsString.includes JsString.startsWith].
  - discriminate.
  - rewrite orb_true_iff, andb_true_iff, Ascii.eqb_eq. simpl.
    intros [[-> _] | H]; [left; reflexivity | right; apply IH, H].
Qed.

(** ** Deleting by substring *)

Lemma deleteMatching_lookup {V} (id : string) (keys : list string) (cache : gmap string V)
  (key : string) :
  deleteMatching id keys cache !! key
  = if JsString.includes key id && bool_decide (key ∈ keys) then None else cache !! key.
Proof.
  unfold deleteMatching. revert cache.
  induction keys as [|k keys IH]; intros cache; simpl.
  - rewrite andb_false_r. reflexivity.
  - rewrite IH. destruct (JsString.includes key id) eqn:Hinc; simpl.
    + destruct (decide (key = k)) as [->|Hne].
      * rewrite Hinc, lookup_delete_eq.
        rewrite (bool_decide_eq_true_2 (k ∈ k :: keys)) by left.
        destruct (bool_decide (k ∈ keys)); reflexivity.
      * rewrite (bool_decide_ext (key ∈ k :: keys) (key ∈ keys)).
        2:{ rewrite elem_of_cons. tauto. }
        destruct (bool_decide (key ∈ keys)); [reflexivity|].
        destruct (JsString.includes k id); [|reflexivity].
        apply lookup_delete_ne. congruence.
    + destruct (JsString.includes k id) eqn:Hk; [|reflexivity].
      apply lookup_delete_ne. intros ->. congruence.
Qed.

Lemma deleteMatching_all_keys {V} (id : string) (cache : gmap string V) (key : string) :
  deleteMatching id (map_to_list cache).*1 cache !! key
  = if JsString.includes key id then None else cache !! key.
Proof.
  rewrite deleteMatching_lookup.
  destruct (JsString.includes key id); [simpl|reflexivity].
  destruct (cache !! key) as [v|] eqn:Hk.
  - rewrite bool_decide_eq_true_2; [reflexivity|].
    apply list_elem_of_fmap. exists (key, v). split; [reflexivity|].
    apply elem_of_map_to_list. exact Hk.
  - destruct (bool_decide (key ∈ (map_to_list cache).*1)); reflexivity.
Qed.

Lemma chars_append (a b : string) :
  list_ascii_of_string (a ++ b) = (list_ascii_of_string a ++ list_ascii_of_string b)%list.
Proof. induction a as [|c a IH]; simpl; [reflexivity | rewrite IH; reflexivity]. Qed.

Lemma digitsOf_chars (fuel : nat) (n : N) (acc : string) (c : ascii) :
  In c (list_ascii_of_string (JsString.digitsOf fuel n acc)) ->
  In c (list_ascii_of_string acc) \/ (48 <= N_of_ascii c <= 57)%N.
Proof.
  revert n acc. induction fuel as [|fuel IH]; intros n acc; simpl.
  - auto.
  - assert (Hd : (48 <= N_of_ascii (ascii_of_N (48 + n mod 10)) <= 57)%N).
    { pose proof (N.mod_upper_bound n 10 ltac:(lia)) as Hm.
      revert Hm. generalize (n mod 10)%N. intros m Hm.
      rewrite N_ascii_embedding; lia. }
    destruct (n <? 10)%N.
    + simpl. intros [<- | H]; auto.
    + intros H. apply IH in H. simpl in H. destruct H as [[<- | H] | H]; auto.
Qed.

Lemma ofZ_chars (z : Z) (c : ascii) :
  In c (list_ascii_of_string (JsString.ofZ z)) ->
  c = "-"%char \/ (48 <= N_of_ascii c <= 57)%N.
Proof.
  unfold JsString.ofZ, JsString.ofN. destruct (z <? 0).
  - cbn [list_ascii_of_string]. intros [<- | H]; [left; reflexivity|].
    apply digitsOf_chars in H. destruct H as [[] | H]. right. exact H.
  - intros H. apply digitsOf_chars in H. destruct H as [[] | H]. right. exact H.
Qed.

(** No cache key of a [ProductData] fetcher contains [UserData]. *)
Lemma product_keys_lack_user (other : Fetcher) (p : PaginationOptions) (key : string) :
  componentId other = "ProductData" ->
  In key (cacheKeys other p) ->
  JsString.includes key "UserData" = false.
Proof.
  intros Hid Hin. destruct (JsString.includes key "UserData") eqn:Hinc; [|reflexivity].
  exfalso. apply includes_first_char in Hinc.
  unfold cacheKeys, jsonCacheKey, csvCacheKey, txtCacheKey, apiCacheKey in Hin.
  rewrite Hid in Hin. simpl in Hin.
  destruct Hin as [<- | [<- | [<- | [<- | []]]]];
    try (simpl in Hinc; intuition discriminate).
  destruct (enabled p).
  - change (In "U"%char
              (list_ascii_of_string
                 ("json_ProductData_page" ++ JsString.ofZ (page p)
                  ++ "_limit" ++ JsString.ofZ (limit p)))) in Hinc.
    rewrite !chars_append in Hinc. rewrite !in_app_iff in Hinc.
    destruct Hinc as [H | [H | [H | H]]].
    + simpl in H. intuition discriminate.
    + apply ofZ_chars in H. destruct H as [H | H]; [discriminate | simpl in H; lia].
    + simpl in H. intuition discriminate.
    + apply ofZ_chars in H. destruct H as [H | H]; [discriminate | simpl in H; lia].
  - simpl in Hinc. intuition discriminate.
Qed.

(** ** Invalidation *)

(** C6. [invalidateCache()] returns normally and deletes exactly the
    client entries whose key contains the fetcher's componentId as a
    substring; it does the same to the shared server table when, and only
    when, it runs where [window] is undefined; every other entry of both
    tables, the clock, the network and the pagination are as before.  With
    componentId [UserData], every key of a [ProductData] fetcher (json with
    any pagination suffix, csv, txt, api) keeps its entry in both tables. *)
Theorem invalidateCache_deletes_exactly (env : Env) (self : Fetcher) (s : State) :
  let s' := (invalidateCache env self s).2 in
  (invalidateCache env self s).1 = Resolved tt
  /\ (forall key : string,
        clientCache s' !! key
        = if JsString.includes key (componentId self) then None else clientCache s !! key)
  /\ (forall key : string,
        serverCache s' !! key
        = if windowUndefined env && JsString.includes key (componentId self)
          then None else serverCache s !! key)
  /\ (forall key : string,
        JsString.includes key (componentId self) = true
        <-> substring_of (componentId self) key)
  /\ (now s', network s', requests s', timers s', pagination s')
     = (now s, network s, requests s, timers s, pagination s)
  /\ (forall (other : Fetcher) (p : PaginationOptions),
        let user := named "UserData" self in
        let u' := (invalidateCache env user s).2 in
        Forall (fun key => clientCache u' !! key = clientCache s !! key
                           /\ serverCache u' !! key = serverCache s !! key)
               (cacheKeys (named "ProductData" other) p)).
Proof.
  cbn zeta. repeat split.
  - intros key. simpl. apply deleteMatching_all_keys.
  - intros key. simpl. destruct (windowUndefined env); simpl.
    + apply deleteMatching_all_keys.
    + reflexivity.
  - apply includes_substring.
  - apply includes_substring.
  - intros other p. apply Forall_forall. intros key Hin.
    assert (Hno : JsString.includes key "UserData" = false).
    { apply (product_keys_lack_user (named "ProductData" other) p); [reflexivity | apply list_elem_of_In, Hin]. }
    simpl. split.
    + rewrite deleteMatching_all_keys. simpl. rewrite Hno. reflexivity.
    + destruct (windowUndefined env); [|reflexivity].
      rewrite deleteMatching_all_keys. simpl. rewrite Hno. reflexivity.
Qed.

(** ** One exchange *)

Lemma fetch_settles (url : string) (headers : list (string * string)) (s : State) :
  fetch url headers s
  = (match outcome (upcoming s 0) with
     | Some r => Resolved r
     | None => Rejected NetworkError
     end, afterFetch url headers s).
Proof.
  unfold fetch, afterFetch, upcoming. destruct (network s) as [|x rest]; simpl.
  - replace (now s + Z.max 0 0) with (now s) by lia. reflexivity.
  - destruct (outcome x); reflexivity.
Qed.

Lemma decodeJsonBody_shape (self : Fetcher) (v : value) (s : State) :
  decodeJsonBody self v s = (jsonShape self v, s).
Proof.
  unfold decodeJsonBody, jsonShape, bind, settle, ret, throw, withTotals.
  destruct v as [| |b|m e|t|items|props]; simpl; try reflexivity.
  - destruct (parseData self (JArr items)); reflexivity.
  - destruct (JsValue.lookupProp "data" props) as [| |b|m e|t|items|ps]; simpl;
      try reflexivity.
    + destruct b; reflexivity.
    + destruct (negb (m =? 0)); reflexivity.
    + destruct (negb (JsString.isEmpty t)); reflexivity.
    + destruct (parseData self (JArr items)); reflexivity.
Qed.

Ltac run_monad :=
  unfold bind, tryCatch, settle, ret, throw, getState, Date_now,
    response_json, response_text, plainCacheStore, serverCache_set, clientCache_set.

Lemma plain_hit (f : PlainFormat) (env : Env) (self : Fetcher) (isServer : bool)
  (s : State) (r : FetchResult) :
  cached f self isServer s = Some r ->
  fetchPlain f env self isServer s = (Resolved r, s).
Proof.
  unfold cached. intros H.
  destruct f; cbn [fetchPlain plainKey] in *;
    unfold fetchJsonData, fetchCsvData, fetchTxtData, plainCacheHit; run_monad;
    destruct isServer.
  all: repeat match type of H with
         | context [match ?x with _ => _ end] => destruct x eqn:?; try discriminate
         end.
  all: injection H as <-; reflexivity.
Qed.

Lemma plain_miss (f : PlainFormat) (env : Env) (self : Fetcher) (isServer : bool)
  (s : State) :
  cached f self isServer s = None ->
  fetchPlain f env self isServer s
  = let s1 := afterFetch (getUrl env self (pagination s) isServer) [] s in
    match delivered f self (upcoming s 0) with
    | Resolved (d, items, pages) =>
        (Resolved {| data := d; totalItems := items; totalPages := pages |},
         stored isServer (plainKey f self s) d items pages s1)
    | Rejected e => (Rejected e, s1)
    end.
Proof.
  unfold cached, delivered. intros H. cbn zeta.
  destruct f; cbn [fetchPlain plainKey failurePrefix] in *;
    unfold fetchJsonData, fetchCsvData, fetchTxtData, plainCacheHit; run_monad;
    destruct isServer.
  all: repeat match type of H with
         | context [match ?x with _ => _ end] => destruct x eqn:?; try discriminate
         end.
  all: rewrite fetch_settles.
  all: destruct (outcome (upcoming s 0)) as [resp|]; [|reflexivity].
  all: destruct (ok resp); cbn [negb]; [|reflexivity].
  all: destruct (body resp) as [t|]; [|reflexivity].
  all: try (destruct (Json.parse t) as [v|]; [|reflexivity];
            unfold ret; cbv beta iota; rewrite decodeJsonBody_shape;
            destruct (jsonShape self v) as [[[d items] pages]|e]; reflexivity).
  all: unfold withTotals, ret, throw; cbv beta iota.
  all: match goal with
       | |- context [parseData ?who ?j] => destruct (parseData who j); reflexivity
       end.
Qed.

(** ** The api path *)

Lemma status_429_not_ok (r : Response) : (status r =? 429) = true -> ok r = false.
Proof. intros H. apply Z.eqb_eq in H. unfold ok. rewrite H. reflexivity. Qed.

Lemma apiAttempt_settles (env : Env) (self : Fetcher) (isServer : bool) (url : string)
  (retries : nat) (s : State) :
  apiAttempt env self isServer url retries s
  = let s1 := afterFetch url (apiHeaders env) s in
    match payloadOf self (upcoming s 0) with
    | Some d =>
        (Resolved (Return (onlyData d)),
         stored isServer (apiCacheKey self) d JUndefined JUndefined s1)
    | None => (Resolved Continue, afterSleep (waitAfter (upcoming s 0) retries) s1)
    end.
Proof.
  unfold apiAttempt, payloadOf, waitAfter, afterSleep. run_monad.
  rewrite fetch_settles. cbn zeta.
  destruct (outcome (upcoming s 0)) as [resp|]; [|reflexivity].
  destruct (status resp =? 429) eqn:H429.
  { rewrite (status_429_not_ok _ H429). reflexivity. }
  destruct (ok resp); cbn [negb]; [|reflexivity].
  destruct (body resp) as [t|]; [|reflexivity].
  destruct (Json.parse t) as [v|]; [|reflexivity].
  unfold ret; cbv beta iota.
  destruct (parseData self v); [|reflexivity].
  destruct isServer; reflexivity.
Qed.

Lemma apiLoop_unfold (fuel : nat) (env : Env) (self : Fetcher) (isServer : bool)
  (url : string) (retries : nat) (s : State) :
  (retries < MAX_RETRIES)%nat ->
  apiLoop (S fuel) env self isServer url retries s
  = match payloadOf self (upcoming s 0) with
    | Some d =>
        (Resolved (Some (onlyData d)),
         stored isServer (apiCacheKey self) d JUndefined JUndefined
           (afterFetch url (apiHeaders env) s))
    | None => apiLoop fuel env self isServer url (S retries) (failedAttempt env url retries s)
    end.
Proof.
  intros Hlt. cbn [apiLoop].
  destruct (Nat.ltb_spec retries MAX_RETRIES) as [_|Hge]; [|lia].
  unfold bind. rewrite apiAttempt_settles. cbn zeta.
  destruct (payloadOf self (upcoming s 0)); reflexivity.
Qed.

Lemma apiLoop_resolves (fuel : nat) (env : Env) (self : Fetcher) (isServer : bool)
  (url : string) (retries : nat) (s : State) :
  exists (o : option FetchResult) (s' : State),
    apiLoop fuel env self isServer url retries s = (Resolved o, s').
Proof.
  revert retries s. induction fuel as [|fuel IH]; intros retries s.
  - exists None, s. reflexivity.
  - destruct (Nat.ltb_spec retries MAX_RETRIES) as [Hlt|Hge].
    + rewrite apiLoop_unfold by exact Hlt.
      destruct (payloadOf self (upcoming s 0)); [eauto | apply IH].
    + exists None, s. cbn [apiLoop].
      destruct (Nat.ltb_spec retries MAX_RETRIES); [lia | reflexivity].
Qed.

(** [MAX_RETRIES] units of fuel are enough: the loop test ends the loop
    first, and more fuel changes nothing. *)
Lemma apiLoop_fuel_enough (n extra : nat) (env : Env) (self : Fetcher) (isServer : bool)
  (url : string) (retries : nat) (s : State) :
  (retries + n = MAX_RETRIES)%nat ->
  apiLoop (n + extra) env self isServer url retries s
  = apiLoop n env self isServer url retries s.
Proof.
  revert retries s. induction n as [|n IH]; intros retries s Hsum.
  - cbn [Nat.add apiLoop]. destruct extra as [|extra]; [reflexivity|].
    cbn [apiLoop]. destruct (Nat.ltb_spec retries MAX_RETRIES); [lia | reflexivity].
  - cbn [Nat.add]. rewrite !apiLoop_unfold by lia.
    destruct (payloadOf self (upcoming s 0)); [reflexivity|].
    apply IH. lia.
Qed.

Lemma apiFallback_settles (self : Fetcher) (isServer : bool) (s : State) :
  apiFallback self isServer s
  = if isServer then (Resolved None, s)
    else (Resolved (option_map onlyData (payloadOf self (upcoming s 0))),
          afterFetch (fallbackUrl self) [] s).
Proof.
  unfold apiFallback, payloadOf, fallbackUrl. run_monad.
  destruct isServer; cbn [negb]; [reflexivity|].
  rewrite fetch_settles.
  destruct (outcome (upcoming s 0)) as [resp|]; [|reflexivity].
  destruct (ok resp); [|reflexivity].
  destruct (body resp) as [t|]; [|reflexivity].
  destruct (Json.parse t) as [v|]; [|reflexivity].
  unfold ret; cbv beta iota.
  destruct (parseData self v); reflexivity.
Qed.

Lemma upcoming_failedAttempt (env : Env) (url : string) (retries : nat) (s : State)
  (i : nat) :
  upcoming (failedAttempt env url retries s) i = upcoming s (S i).
Proof.
  unfold upcoming, failedAttempt, afterSleep, sleep, afterFetch. cbn.
  destruct (network s) as [|x rest]; [destruct i|]; reflexivity.
Qed.

Lemma nonEmpty_endpoint (self : Fetcher) (url : string) :
  endpoint self = Some url -> url <> EmptyString -> nonEmpty (endpoint self) = true.
Proof. intros -> H. destruct url; [congruence | reflexivity]. Qed.

(** The api path once the cache has missed and there is an endpoint: up
    to three attempts, then the fallback read, then the mock data. *)
Lemma fetchApiData_ladder (env : Env) (self : Fetcher) (isServer : bool) (s : State)
  (url : string) :
  apiCalls self isServer s url ->
  fetchApiData env self isServer s
  = let key := apiCacheKey self in
    let hdr := apiHeaders env in
    let keep d st := (Resolved (onlyData d), stored isServer key d JUndefined JUndefined st) in
    match payloadOf self (upcoming s 0) with
    | Some d => keep d (afterFetch url hdr s)
    | None =>
        let s1 := failedAttempt env url 0 s in
        match payloadOf self (upcoming s 1) with
        | Some d => keep d (afterFetch url hdr s1)
        | None =>
            let s2 := failedAttempt env url 1 s1 in
            match payloadOf self (upcoming s 2) with
            | Some d => keep d (afterFetch url hdr s2)
            | None =>
                let s3 := exhausted env url s in
                if isServer then (Resolved (onlyData (getMockData self)), s3)
                else
                  (Resolved (match payloadOf self (upcoming s 3) with
                             | Some d => onlyData d
                             | None => onlyData (getMockData self)
                             end),
                   afterFetch (fallbackUrl self) [] s3)
            end
        end
    end.
Proof.
  intros (Hmiss & Hurl & Hne). unfold fetchApiData, bind, getState.
  rewrite Hmiss, (nonEmpty_endpoint _ _ Hurl Hne), Hurl.
  cbn [negb default]. unfold MAX_RETRIES at 1. cbn zeta.
  rewrite apiLoop_unfold by (unfold MAX_RETRIES; lia).
  destruct (payloadOf self (upcoming s 0)); [reflexivity|].
  rewrite apiLoop_unfold by (unfold MAX_RETRIES; lia).
  rewrite upcoming_failedAttempt.
  destruct (payloadOf self (upcoming s 1)); [reflexivity|].
  rewrite apiLoop_unfold by (unfold MAX_RETRIES; lia).
  rewrite !upcoming_failedAttempt.
  destruct (payloadOf self (upcoming s 2)); [reflexivity|].
  cbn [apiLoop]. unfold ret at 1. cbv beta iota.
  rewrite apiFallback_settles. fold (exhausted env url s).
  destruct isServer; [reflexivity|].
  unfold exhausted at 1. rewrite !upcoming_failedAttempt.
  destruct (payloadOf self (upcoming s 3)); reflexivity.
Qed.

Lemma timers_failedAttempt (env : Env) (url : string) (k : nat) (s : State) :
  timers (failedAttempt env url k s) = (timers s ++ [waitAfter (upcoming s 0) k])%list.
Proof. reflexivity. Qed.

Lemma requests_failedAttempt (env : Env) (url : string) (k : nat) (s : State) :
  requests (failedAttempt env url k s) = (requests s ++ [toEndpoint env url])%list.
Proof. reflexivity. Qed.

Lemma requests_exhausted (env : Env) (url : string) (s : State) :
  requests (exhausted env url s)
  = (requests s ++ [toEndpoint env url; toEndpoint env url; toEndpoint env url])%list.
Proof.
  unfold exhausted, failedAttempt, afterSleep, sleep, afterFetch, toEndpoint. cbn.
  rewrite <- !app_assoc. reflexivity.
Qed.

Lemma timers_exhausted (env : Env) (url : string) (s : State) :
  timers (exhausted env url s)
  = (timers s ++ [waitAfter (upcoming s 0) 0; waitAfter (upcoming s 1) 1;
                  waitAfter (upcoming s 2) 2])%list.
Proof.
  unfold exhausted. 
  assert (Hstep : forall k st, timers (failedAttempt env url k st)
                               = (timers st ++ [waitAfter (upcoming st 0) k])%list)
    by reflexivity.
  rewrite !Hstep, !upcoming_failedAttempt, <- !app_assoc. reflexivity.
Qed.

(** The api path when attempt number [k] is the first to deliver a payload. *)
Lemma api_success_at (env : Env) (self : Fetcher) (isServer : bool) (s : State)
  (url : string) (k : nat) (d : list value) :
  apiCalls self isServer s url ->
  (k < 3)%nat ->
  (forall j : nat, (j < k)%nat -> attemptFails self (upcoming s j)) ->
  payloadOf self (upcoming s k) = Some d ->
  let run := fetchApiData env self isServer s in
  run.1 = Resolved (onlyData d)
  /\ requests run.2 = (requests s ++ repeat (toEndpoint env url) (S k))%list
  /\ (if isServer then serverCache run.2 !! apiCacheKey self = Some d
      else clientCache run.2 !! apiCacheKey self
           = Some {| entry_data := d; timestamp := now run.2;
                     entry_totalItems := JUndefined; entry_totalPages := JUndefined |}).
Proof.
  intros Hcalls Hk Hfail Hd. unfold attemptFails in Hfail.
  assert (Hrun : exists st,
             fetchApiData env self isServer s
             = (Resolved (onlyData d),
                stored isServer (apiCacheKey self) d JUndefined JUndefined st)
             /\ requests st = (requests s ++ repeat (toEndpoint env url) (S k))%list).
  { rewrite (fetchApiData_ladder env self isServer s url Hcalls). cbn zeta.
    destruct k as [|[|[|k]]]; [| | |lia].
    - rewrite Hd. eexists. split; reflexivity.
    - rewrite (Hfail 0%nat) by lia. rewrite Hd. eexists. split; [reflexivity|].
      cbn [afterFetch requests]. rewrite requests_failedAttempt, <- !app_assoc. reflexivity.
    - rewrite (Hfail 0%nat) by lia. rewrite (Hfail 1%nat) by lia. rewrite Hd.
      eexists. split; [reflexivity|].
      cbn [afterFetch requests]. rewrite !requests_failedAttempt, <- !app_assoc.
      reflexivity. }
  destruct Hrun as (st & -> & Hreq). cbn zeta. cbn [fst snd].
  split; [reflexivity|]. split.
  - rewrite <- Hreq. destruct isServer; reflexivity.
  - destruct isServer; apply lookup_insert_eq.
Qed.

(** The requests the api path sends once it has decided to call. *)
Lemma api_requests_sent (env : Env) (self : Fetcher) (isServer : bool) (s : State)
  (url : string) :
  apiCalls self isServer s url ->
  exists (n : nat) (tail : list Request),
    requests (fetchApiData env self isServer s).2
    = (requests s ++ repeat (toEndpoint env url) n ++ tail)%list
    /\ (1 <= n <= 3)%nat
    /\ (tail = [] \/ (tail = [toFallback self] /\ n = 3%nat /\ isServer = false)).
Proof.
  intros Hcalls. rewrite (fetchApiData_ladder env self isServer s url Hcalls). cbn zeta.
  destruct (payloadOf self (upcoming s 0)).
  { exists 1%nat, []. split; [|split; [lia | left; reflexivity]].
    destruct isServer; reflexivity. }
  destruct (payloadOf self (upcoming s 1)).
  { exists 2%nat, []. split; [|split; [lia | left; reflexivity]].
    destruct isServer; cbn; rewrite <- !app_assoc; reflexivity. }
  destruct (payloadOf self (upcoming s 2)).
  { exists 3%nat, []. split; [|split; [lia | left; reflexivity]].
    destruct isServer; cbn; rewrite <- !app_assoc; reflexivity. }
  destruct isServer.
  + exists 3%nat, []. split; [|split; [lia | left; reflexivity]].
    cbn [snd]. apply requests_exhausted.
  + exists 3%nat, [toFallback self]. split; [|split; [lia | right; auto]].
    cbn [snd afterFetch requests]. rewrite requests_exhausted.
    rewrite <- !app_assoc. reflexivity.
Qed.

Lemma fetchApiData_resolves (env : Env) (self : Fetcher) (isServer : bool) (s : State) :
  exists (r : FetchResult) (s' : State),
    fetchApiData env self isServer s = (Resolved r, s').
Proof.
  unfold fetchApiData, bind, getState.
  destruct (plainCacheHit isServer (apiCacheKey self) s) as [r|]; [eexists _, _; reflexivity|].
  destruct (negb (nonEmpty (endpoint self))); [eexists _, _; reflexivity|].
  destruct (apiLoop_resolves MAX_RETRIES env self isServer
              (default EmptyString (endpoint self)) 0 s) as (o & s1 & ->).
  destruct o as [r|]; [eexists _, _; reflexivity|].
  rewrite apiFallback_settles. destruct isServer; [eexists _, _; reflexivity|].
  destruct (payloadOf self (upcoming s1 0)); eexists _, _; reflexivity.
Qed.

(** C1 (as amended).  [fetchApiData] settles as resolved from every state,
    whatever the network, the bodies and [parseData] do.  Once the cache
    has missed and an endpoint is configured, three failed attempts in a
    row send exactly three requests to the endpoint; server-side no
    further request is made and the result is the mock data; client-side
    one request goes to the fallback endpoint and the result is its parsed
    payload when it delivers one, the mock data otherwise.  The mock data
    are the user records when componentId contains [User], the product
    records when it contains [Product] and not [User], and empty when it
    contains neither. *)
Theorem fetchApiData_always_resolves (env : Env) (self : Fetcher) (isServer : bool)
  (s : State) :
  (exists (r : FetchResult) (s' : State),
      fetchApiData env self isServer s = (Resolved r, s'))
  /\ (forall url : string,
        apiCalls self isServer s url ->
        attemptFails self (upcoming s 0) ->
        attemptFails self (upcoming s 1) ->
        attemptFails self (upcoming s 2) ->
        let s3 := exhausted env url s in
        requests (fetchApiData env self isServer s).2
        = (requests s ++ [toEndpoint env url; toEndpoint env url; toEndpoint env url]
           ++ if isServer then [] else [toFallback self])%list
        /\ fetchApiData env self isServer s
           = if isServer then (Resolved (onlyData (getMockData self)), s3)
             else (Resolved (onlyData (default (getMockData self)
                                         (payloadOf self (upcoming s 3)))),
                   afterFetch (fallbackUrl self) [] s3))
  /\ (JsString.includes (componentId self) "User" = true ->
      getMockData self = mockUsers)
  /\ (JsString.includes (componentId self) "User" = false ->
      JsString.includes (componentId self) "Product" = true ->
      getMockData self = mockProducts)
  /\ (JsString.includes (componentId self) "User" = false ->
      JsString.includes (componentId self) "Product" = false ->
      getMockData self = []).
Proof.
  split; [|split; [|repeat split]].
  - apply fetchApiData_resolves.
  - intros url Hcalls F0 F1 F2. cbn zeta.
    assert (Hrun : fetchApiData env self isServer s
                   = if isServer
                     then (Resolved (onlyData (getMockData self)), exhausted env url s)
                     else (Resolved (onlyData (default (getMockData self)
                                                 (payloadOf self (upcoming s 3)))),
                           afterFetch (fallbackUrl self) [] (exhausted env url s))).
    { rewrite (fetchApiData_ladder env self isServer s url Hcalls).
      unfold attemptFails in F0, F1, F2. rewrite F0, F1, F2. cbn zeta.
      destruct isServer; [reflexivity|].
      destruct (payloadOf self (upcoming s 3)); reflexivity. }
    split; [|exact Hrun]. rewrite Hrun.
    destruct isServer; cbn [snd afterFetch requests]; rewrite requests_exhausted.
    + rewrite app_nil_r. reflexivity.
    + rewrite <- !app_assoc. reflexivity.
  - unfold getMockData. intros ->. reflexivity.
  - unfold getMockData. intros -> ->. reflexivity.
  - unfold getMockData. intros -> ->. reflexivity.
Qed.

Lemma fetchApiData_always_resolves_witness :
  fetchApiData nodeEnv productList true (idle 0 [])
  = (Resolved (onlyData mockProducts),
     exhausted nodeEnv "https://api.example.com/products" (idle 0 [])).
Proof.
  destruct (fetchApiData_always_resolves nodeEnv productList true (idle 0 []))
    as (_ & Hladder & _ & Hproduct & _).
  destruct (Hladder "https://api.example.com/products") as [_ Hrun].
  - repeat split. discriminate.
  - reflexivity.
  - reflexivity.
  - reflexivity.
  - rewrite Hrun. rewrite Hproduct; reflexivity.
Defined.

(** C1, as first stated, at a componentId that contains both words: the
    id contains [Product], yet the mock data served are the user records. *)
Lemma mock_selection_prefers_user :
  JsString.includes (componentId userProducts) "Product" = true
  /\ (fetchApiData nodeEnv userProducts true (idle 0 [])).1 = Resolved (onlyData mockUsers)
  /\ mockUsers <> mockProducts.
Proof. repeat split. discriminate. Qed.

(** ** Retry and backoff *)

Lemma rateLimitWait_cases (header : option string) (retries : nat) :
  rateLimitWait header retries
  = match header with
    | None => 5000
    | Some h =>
        if JsString.isEmpty h then 5000
        else match JsString.parseInt h with
             | Some n => if n =? 0 then backoff retries else n * 1000
             | None => backoff retries
             end
    end.
Proof.
  unfold rateLimitWait. destruct header as [h|]; [|reflexivity].
  destruct h as [|c h]; [reflexivity|]. cbn [nonEmpty JsString.isEmpty negb default from_option id].
  destruct (JsString.parseInt (String c h)) as [n|]; [|reflexivity].
  destruct (Z.eqb_spec n 0) as [->|Hn]; [reflexivity|].
  destruct (Z.eqb_spec (n * 1000) 0); [lia | reflexivity].
Qed.

(** C2 (as amended).  A failed attempt is followed by a wait and then by
    the next attempt, and no more than three requests go to the endpoint.
    After a 429 the wait is the [Retry-After] value times 1000 ms when the
    header is there and reads as a non-zero integer whose product with
    1000 is within a timer delay (at most [2^31 - 1] ms, so at most
    2147483 s), 5000 ms when the header is absent or empty, and
    [2^retries] seconds when it is there but reads as zero or as no
    number; after any other failure the wait is [2^retries] seconds,
    [retries] counting the attempts already made, fewer than three.
    For the answers [429 (Retry-After: 1), 500, 200 + payload] exactly
    three requests are sent, the waits are 1000 ms then 2000 ms, and the
    parsed payload is returned and stored in the cache. *)
Theorem api_retry_policy (env : Env) (self : Fetcher) (isServer : bool) (s : State)
  (url : string) (retries : nat) :
  (attemptFails self (upcoming s 0) ->
   apiAttempt env self isServer url retries s
   = (Resolved Continue, failedAttempt env url retries s)
   /\ timers (failedAttempt env url retries s)
      = (timers s ++ [waitAfter (upcoming s 0) retries])%list
   /\ requests (failedAttempt env url retries s)
      = (requests s ++ [toEndpoint env url])%list)
  /\ (forall r : Response,
        outcome (upcoming s 0) = Some r ->
        (retries < 3)%nat ->
        (forall (h : string) (n : Z),
            retryAfter r = Some h -> JsString.parseInt h = Some n -> timerDelay (n * 1000)) ->
        waitAfter (upcoming s 0) retries
        = if status r =? 429 then
            match retryAfter r with
            | None => 5000
            | Some h =>
                if JsString.isEmpty h then 5000
                else match JsString.parseInt h with
                     | Some n => if n =? 0 then 2 ^ Z.of_nat retries * 1000 else n * 1000
                     | None => 2 ^ Z.of_nat retries * 1000
                     end
            end
          else 2 ^ Z.of_nat retries * 1000)
  /\ (outcome (upcoming s 0) = None ->
      (retries < 3)%nat ->
      waitAfter (upcoming s 0) retries = 2 ^ Z.of_nat retries * 1000)
  /\ (apiCalls self isServer s url ->
      exists (n : nat) (tail : list Request),
        requests (fetchApiData env self isServer s).2
        = (requests s ++ repeat (toEndpoint env url) n ++ tail)%list
        /\ (1 <= n <= 3)%nat
        /\ (tail = [] \/ (tail = [toFallback self] /\ n = 3%nat /\ isServer = false)))
  /\ (forall (r0 r1 : Response) (d : list value),
        apiCalls self isServer s url ->
        outcome (upcoming s 0) = Some r0 -> status r0 = 429 -> retryAfter r0 = Some "1" ->
        outcome (upcoming s 1) = Some r1 -> status r1 = 500 ->
        payloadOf self (upcoming s 2) = Some d ->
        let s' := (fetchApiData env self isServer s).2 in
        (fetchApiData env self isServer s).1 = Resolved (onlyData d)
        /\ requests s'
           = (requests s ++ [toEndpoint env url; toEndpoint env url; toEndpoint env url])%list
        /\ timers s' = (timers s ++ [1000; 2000])%list
        /\ (if isServer then serverCache s' !! apiCacheKey self = Some d
            else clientCache s' !! apiCacheKey self
                 = Some {| entry_data := d; timestamp := now s';
                           entry_totalItems := JUndefined;
                           entry_totalPages := JUndefined |})).
Proof.
  split; [|split; [|split; [|split]]].
  - intros Hfail. rewrite apiAttempt_settles. unfold attemptFails in Hfail.
    rewrite Hfail. repeat split.
  - intros r Hr _ _. unfold waitAfter. rewrite Hr.
    destruct (status r =? 429); [apply rateLimitWait_cases | reflexivity].
  - intros Hr _. unfold waitAfter. rewrite Hr. reflexivity.
  - apply api_requests_sent.
  - intros r0 r1 d Hcalls H0 S0 A0 H1 S1 H2. cbn zeta.
    assert (F0 : payloadOf self (upcoming s 0) = None).
    { unfold payloadOf. rewrite H0. unfold ok. rewrite S0. reflexivity. }
    assert (F1 : payloadOf self (upcoming s 1) = None).
    { unfold payloadOf. rewrite H1. unfold ok. rewrite S1. reflexivity. }
    assert (W0 : waitAfter (upcoming s 0) 0 = 1000).
    { unfold waitAfter. rewrite H0, S0, A0. reflexivity. }
    assert (W1 : waitAfter (upcoming s 1) 1 = 2000).
    { unfold waitAfter. rewrite H1, S1. reflexivity. }
    rewrite (fetchApiData_ladder env self isServer s url Hcalls). cbn zeta.
    rewrite F0, F1, H2. cbn [fst snd].
    split; [reflexivity|]. split; [|split].
    + destruct isServer; cbn; rewrite <- !app_assoc; reflexivity.
    + destruct isServer; cbn [stored withServerEntry withClientEntry timers afterFetch];
        rewrite !timers_failedAttempt, upcoming_failedAttempt, W0, W1, <- !app_assoc;
        reflexivity.
    + destruct isServer; cbn; apply lookup_insert_eq.
Qed.

Lemma api_retry_policy_witness :
  (fetchApiData browserEnv productList false flakyThenGood).1
  = Resolved (onlyData [JObj [("id", JNum 1 0)]])
  /\ timers (fetchApiData browserEnv productList false flakyThenGood).2 = [1000; 2000]
  /\ waitAfter (upcoming flakyThenGood 0) 0 = 1000.
Proof.
  destruct (api_retry_policy browserEnv productList false flakyThenGood
              "https://api.example.com/products" 0) as (_ & Hwait & _ & _ & Hrun).
  destruct (Hrun {| status := 429; statusText := EmptyString; retryAfter := Some "1";
                    body := Some EmptyString |}
                 {| status := 500; statusText := EmptyString; retryAfter := None;
                    body := Some EmptyString |}
                 [JObj [("id", JNum 1 0)]]) as (Hres & _ & Htimers & _).
  - repeat split. discriminate.
  - reflexivity.
  - reflexivity.
  - reflexivity.
  - reflexivity.
  - reflexivity.
  - vm_compute. reflexivity.
  - split; [exact Hres|]. split; [exact Htimers|].
    rewrite (Hwait {| status := 429; statusText := EmptyString; retryAfter := Some "1";
                      body := Some EmptyString |} eq_refl).
    + reflexivity.
    + lia.
    + intros h n Hh Hn. injection Hh as <-. vm_compute in Hn. injection Hn as <-.
      unfold timerDelay. lia.
Defined.

(** C2, as first stated, at a 429 that carries no [Retry-After] header on
    the first attempt: the wait is 5000 ms, not [2^0] seconds. *)
Lemma rate_limit_without_header_waits_five_seconds :
  timers (fetchApiData browserEnv productList false rateLimitedOnce).2 = [5000]
  /\ (forall attempt : nat, 2 ^ Z.of_nat attempt * 1000 <> 5000)
  /\ (fetchApiData browserEnv productList false rateLimitedOnce).1
     = Resolved (onlyData [JObj [("id", JNum 1 0)]]).
Proof.
  split; [vm_compute; reflexivity|]. split; [|vm_compute; reflexivity].
  intros attempt H. assert (H5 : 2 ^ Z.of_nat attempt = 5) by lia. clear H.
  destruct attempt as [|[|[|k]]]; try (vm_compute in H5; discriminate).
  replace (Z.of_nat (S (S (S k)))) with (3 + Z.of_nat k) in H5 by lia.
  rewrite Z.pow_add_r in H5 by lia.
  pose proof (Z.pow_pos_nonneg 2 (Z.of_nat k) ltac:(lia) ltac:(lia)) as Hpos.
  change (2 ^ 3) with 8 in H5. lia.
Qed.

(** ** Response shapes of the JSON path *)

(** C3.  What [fetchJsonData] makes of a 2xx body that decodes to [v],
    once the cache has missed: an object whose [data] is an array goes
    through [parseData] with [totalItems] and [totalPages] read off its
    [pagination]; a bare array goes through [parseData] with no totals; a
    number, string, boolean, or an object whose [data] is no array gives
    the empty sequence; the body [null] makes the read of [.data] throw a
    TypeError, which the [catch] rethrows to the caller, and nothing is
    cached. *)
Theorem fetchJsonData_body_shapes (env : Env) (self : Fetcher) (isServer : bool)
  (s : State) (r : Response) (t : string) (v : value) :
  cached FJson self isServer s = None ->
  outcome (upcoming s 0) = Some r -> ok r = true -> body r = Some t ->
  Json.parse t = Some v ->
  let s1 := afterFetch (getUrl env self (pagination s) isServer) [] s in
  let key := jsonCacheKey self (pagination s) in
  (forall props items,
      v = JObj props -> JsValue.lookupProp "data" props = JArr items ->
      let pg := JsValue.lookupProp "pagination" props in
      fetchJsonData env self isServer s
      = match parseData self (JArr items) with
        | Resolved d =>
            (Resolved {| data := d;
                         totalItems := JsValue.getPropOpt pg "totalItems";
                         totalPages := JsValue.getPropOpt pg "totalPages" |},
             stored isServer key d (JsValue.getPropOpt pg "totalItems")
               (JsValue.getPropOpt pg "totalPages") s1)
        | Rejected e => (Rejected e, s1)
        end)
  /\ (forall items,
        v = JArr items ->
        fetchJsonData env self isServer s
        = match parseData self (JArr items) with
          | Resolved d => (Resolved (onlyData d), stored isServer key d JUndefined JUndefined s1)
          | Rejected e => (Rejected e, s1)
          end)
  /\ (v = JNull ->
      fetchJsonData env self isServer s
      = (Rejected (TypeError "Cannot read properties of null (reading 'data')"), s1)
      /\ serverCache s1 = serverCache s /\ clientCache s1 = clientCache s)
  /\ (v <> JNull -> v <> JUndefined -> JsValue.isArray v = false ->
      (forall props, v = JObj props ->
                     JsValue.isArray (JsValue.lookupProp "data" props) = false) ->
      fetchJsonData env self isServer s
      = (Resolved (onlyData []), stored isServer key [] JUndefined JUndefined s1)).
Proof.
  intros Hmiss Hr Hok Hbody Hparse. cbn zeta.
  pose proof (plain_miss FJson env self isServer s Hmiss) as Hrun.
  cbn [fetchPlain plainKey] in Hrun. cbn zeta in Hrun.
  unfold delivered in Hrun. rewrite Hr, Hok, Hbody, Hparse in Hrun.
  rewrite Hrun. clear Hrun. split; [|split; [|split]].
  - intros props items -> Hdata. cbn [jsonShape]. rewrite Hdata. cbn zeta.
    destruct (parseData self (JArr items)); reflexivity.
  - intros items ->. cbn [jsonShape].
    destruct (parseData self (JArr items)); reflexivity.
  - intros ->. repeat split.
  - intros Hnull Hundef Harr Hobj. destruct v as [| |b|m e|x|items|props]; try reflexivity;
      try congruence; try discriminate.
    cbn [jsonShape]. specialize (Hobj props eq_refl).
    destruct (JsValue.lookupProp "data" props); try reflexivity. discriminate.
Qed.

Lemma fetchJsonData_body_shapes_witness :
  fetchJsonData browserEnv userData false nullBody
  = (Rejected (TypeError "Cannot read properties of null (reading 'data')"),
     afterFetch "/api/data?component=UserData&dataSource=json" [] nullBody).
Proof.
  assert (Hmiss : cached FJson userData false nullBody = None) by reflexivity.
  assert (Hparse : Json.parse "null" = Some JNull) by reflexivity.
  destruct (fetchJsonData_body_shapes browserEnv userData false nullBody
              {| status := 200; statusText := EmptyString; retryAfter := None;
                 body := Some "null" |} "null" JNull Hmiss eq_refl eq_refl eq_refl Hparse)
    as (_ & _ & Hnull & _).
  destruct (Hnull eq_refl) as [Hrun _]. exact Hrun.
Defined.

(** ** The server table *)

Lemma keepsServerEntries_refl (s : State) : keepsServerEntries s s.
Proof. intros key d H. exact H. Qed.

Lemma keepsServerEntries_trans (s1 s2 s3 : State) :
  keepsServerEntries s1 s2 -> keepsServerEntries s2 s3 -> keepsServerEntries s1 s3.
Proof. intros H12 H23 key d H. apply H23, H12, H. Qed.

Lemma keepsServerEntries_same (s s' : State) :
  serverCache s' = serverCache s -> keepsServerEntries s s'.
Proof. intros Heq key d H. rewrite Heq. exact H. Qed.

Lemma keepsServerEntries_stored (isServer : bool) (key : string) (d : list value)
  (items pages : value) (s s1 : State) :
  serverCache s1 = serverCache s ->
  (isServer = true -> serverCache s !! key = None) ->
  keepsServerEntries s (stored isServer key d items pages s1).
Proof.
  intros Heq Hfree k x Hk. destruct isServer; cbn; rewrite Heq; [|exact Hk].
  rewrite lookup_insert_ne; [exact Hk|]. intros ->. rewrite Hfree in Hk by reflexivity.
  discriminate.
Qed.

Lemma cached_server (f : PlainFormat) (self : Fetcher) (s : State) :
  cached f self true s = option_map onlyData (serverCache s !! plainKey f self s).
Proof. unfold cached. destruct (serverCache s !! plainKey f self s); reflexivity. Qed.

Lemma plain_keeps_server (f : PlainFormat) (env : Env) (self : Fetcher) (isServer : bool)
  (s : State) :
  keepsServerEntries s (fetchPlain f env self isServer s).2.
Proof.
  destruct (cached f self isServer s) as [r|] eqn:Hc.
  - rewrite (plain_hit f env self isServer s r Hc). apply keepsServerEntries_refl.
  - rewrite (plain_miss f env self isServer s Hc). cbn zeta.
    destruct (delivered f self (upcoming s 0)) as [[[d items] pages]|e]; cbn [snd].
    + apply keepsServerEntries_stored; [reflexivity|].
      intros ->. rewrite cached_server in Hc.
      destruct (serverCache s !! plainKey f self s); [discriminate | reflexivity].
    + apply keepsServerEntries_same. reflexivity.
Qed.

Lemma apiCalls_or_idle (env : Env) (self : Fetcher) (isServer : bool) (s : State) :
  (exists url, apiCalls self isServer s url)
  \/ (exists r, fetchApiData env self isServer s = (Resolved r, s)
               /\ (plainCacheHit isServer (apiCacheKey self) s = Some r
                   \/ (plainCacheHit isServer (apiCacheKey self) s = None
                       /\ nonEmpty (endpoint self) = false /\ r = onlyData []))).
Proof.
  unfold apiCalls, fetchApiData, bind, getState.
  destruct (plainCacheHit isServer (apiCacheKey self) s) as [r|] eqn:Hc.
  - right. exists r. split; [reflexivity | left; reflexivity].
  - destruct (endpoint self) as [[|c url]|] eqn:Hurl; cbn.
    + right. exists (onlyData []). split; [reflexivity|]. right. repeat split.
    + left. exists (String c url). repeat split. discriminate.
    + right. exists (onlyData []). split; [reflexivity|]. right. repeat split.
Qed.

Lemma plainCacheHit_server (key : string) (s : State) :
  plainCacheHit true key s = option_map onlyData (serverCache s !! key).
Proof. unfold plainCacheHit. destruct (serverCache s !! key); reflexivity. Qed.

Lemma api_keeps_server (env : Env) (self : Fetcher) (isServer : bool) (s : State) :
  keepsServerEntries s (fetchApiData env self isServer s).2.
Proof.
  destruct (apiCalls_or_idle env self isServer s) as [[url Hcalls] | (r & -> & _)];
    [|apply keepsServerEntries_refl].
  rewrite (fetchApiData_ladder env self isServer s url Hcalls). cbn zeta.
  assert (Hfree : isServer = true -> serverCache s !! apiCacheKey self = None).
  { intros ->. destruct Hcalls as [Hc _]. rewrite plainCacheHit_server in Hc.
    destruct (serverCache s !! apiCacheKey self); [discriminate | reflexivity]. }
  cbv beta.
  repeat match goal with
         | |- context [match payloadOf ?a ?b with _ => _ end] => destruct (payloadOf a b)
         end;
    cbn [snd]; try (apply keepsServerEntries_stored; [reflexivity | exact Hfree]).
  all: destruct isServer; apply keepsServerEntries_same; reflexivity.
Qed.

Lemma fetchData_dispatch (env : Env) (self : Fetcher) (isServer : bool) (s : State) :
  fetchData env self isServer s = fetchJsonData env self isServer s
  \/ fetchData env self isServer s = fetchCsvData env self isServer s
  \/ fetchData env self isServer s = fetchTxtData env self isServer s
  \/ fetchData env self isServer s = fetchApiData env self isServer s
  \/ exists e, fetchData env self isServer s = (Rejected e, s).
Proof.
  unfold fetchData.
  repeat match goal with
         | |- context [if String.eqb ?a ?b then _ else _] => destruct (String.eqb a b)
         end; eauto 6.
Qed.

Lemma step_keeps_server (env : Env) (self : Fetcher) (op : Op) (s : State) :
  isInvalidate op = false -> keepsServerEntries s (step env self op s).
Proof.
  intros Hop. destruct op; try discriminate; cbn [step].
  - apply keepsServerEntries_same. reflexivity.
  - apply keepsServerEntries_same. reflexivity.
  - apply (plain_keeps_server FJson).
  - apply (plain_keeps_server FCsv).
  - apply (plain_keeps_server FTxt).
  - apply api_keeps_server.
  - destruct (fetchData_dispatch env self isServer s) as [-> | [-> | [-> | [-> | [e ->]]]]].
    + apply (plain_keeps_server FJson).
    + apply (plain_keeps_server FCsv).
    + apply (plain_keeps_server FTxt).
    + apply api_keeps_server.
    + apply keepsServerEntries_refl.
Qed.

Lemma steps_keep_server (env : Env) (self : Fetcher) (ops : list Op) (s : State) :
  withoutInvalidation ops -> keepsServerEntries s (steps env self ops s).
Proof.
  unfold steps. revert s. induction ops as [|op ops IH]; intros s Hops; cbn [fold_left].
  - apply keepsServerEntries_refl.
  - apply Forall_cons in Hops. destruct Hops as [Hop Hops].
    eapply keepsServerEntries_trans; [apply step_keeps_server, Hop | apply IH, Hops].
Qed.

Lemma server_fetch_is_cached (f : PlainFormat) (env : Env) (self : Fetcher) (s s1 : State)
  (r : FetchResult) :
  fetchPlain f env self true s = (Resolved r, s1) ->
  serverCache s1 !! plainKey f self s = Some (data r).
Proof.
  destruct (cached f self true s) as [r0|] eqn:Hc.
  - rewrite (plain_hit f env self true s r0 Hc). intros H. injection H as <- <-.
    rewrite cached_server in Hc.
    destruct (serverCache s !! plainKey f self s); [|discriminate].
    injection Hc as <-. reflexivity.
  - rewrite (plain_miss f env self true s Hc). cbn zeta.
    destruct (delivered f self (upcoming s 0)) as [[[d items] pages]|e]; [|discriminate].
    intros H. injection H as <- <-. cbn. apply lookup_insert_eq.
Qed.

Lemma api_server_fetch_is_cached (env : Env) (self : Fetcher) (s s1 : State)
  (r : FetchResult) (d : list value) :
  fetchApiData env self true s = (Resolved r, s1) ->
  serverCache s1 !! apiCacheKey self = Some d ->
  data r = d.
Proof.
  destruct (apiCalls_or_idle env self true s) as [[url Hcalls] | (r0 & -> & Hwhy)].
  - assert (Hfree : serverCache s !! apiCacheKey self = None).
    { destruct Hcalls as [Hc _]. rewrite plainCacheHit_server in Hc.
      destruct (serverCache s !! apiCacheKey self); [discriminate | reflexivity]. }
    rewrite (fetchApiData_ladder env self true s url Hcalls). cbn zeta. cbv beta.
    repeat match goal with
           | |- context [match payloadOf ?a ?b with _ => _ end] => destruct (payloadOf a b)
           end;
      intros H; injection H as <- <-; cbn; rewrite ?lookup_insert_eq; congruence.
  - intros H. injection H as <- <-. intros Hd.
    destruct Hwhy as [Hhit | (Hmiss & _)].
    + rewrite plainCacheHit_server, Hd in Hhit. injection Hhit as <-. reflexivity.
    + rewrite plainCacheHit_server, Hd in Hmiss. discriminate.
Qed.

(** C4.  With the server flag true, each of the four paths that finds its
    cache key in the shared server table returns the cached data at once:
    however much time has passed, the result is the cached data and the
    state is unchanged, so no request is sent and no clock is consulted.
    No operation other than [invalidateCache] removes or alters an entry of
    the server table; time passing in particular leaves the table as it
    is.  Hence, after a server-side fetch has resolved, a later server-side
    fetch under the same cache key, with no invalidation in between,
    returns the same data without a request. *)
Theorem server_cache_hit_never_expires (env : Env) (self : Fetcher) (s : State) :
  (forall (f : PlainFormat) (d : list value) (ms : Z),
      serverCache s !! plainKey f self s = Some d ->
      fetchPlain f env self true (elapse ms s) = (Resolved (onlyData d), elapse ms s))
  /\ (forall (d : list value) (ms : Z),
        serverCache s !! apiCacheKey self = Some d ->
        fetchApiData env self true (elapse ms s) = (Resolved (onlyData d), elapse ms s))
  /\ (forall ms : Z, serverCache (elapse ms s) = serverCache s)
  /\ (forall ops : list Op,
        withoutInvalidation ops -> keepsServerEntries s (steps env self ops s))
  /\ (forall (f : PlainFormat) (r : FetchResult) (s1 : State) (ops : list Op),
        fetchPlain f env self true s = (Resolved r, s1) ->
        withoutInvalidation ops ->
        let s2 := steps env self ops s1 in
        plainKey f self s2 = plainKey f self s ->
        fetchPlain f env self true s2 = (Resolved (onlyData (data r)), s2))
  /\ (forall (r : FetchResult) (s1 : State) (d : list value) (ops : list Op),
        fetchApiData env self true s = (Resolved r, s1) ->
        serverCache s1 !! apiCacheKey self = Some d ->
        withoutInvalidation ops ->
        let s2 := steps env self ops s1 in
        data r = d /\ fetchApiData env self true s2 = (Resolved (onlyData d), s2)).
Proof.
  split; [|split; [|split; [|split; [|split]]]].
  - intros f d ms Hd. apply plain_hit. rewrite cached_server.
    change (plainKey f self (elapse ms s)) with (plainKey f self s).
    change (serverCache (elapse ms s)) with (serverCache s). rewrite Hd. reflexivity.
  - intros d ms Hd. unfold fetchApiData, bind, getState.
    rewrite plainCacheHit_server.
    change (serverCache (elapse ms s)) with (serverCache s). rewrite Hd. reflexivity.
  - reflexivity.
  - intros ops Hops. apply steps_keep_server, Hops.
  - intros f r s1 ops Hrun Hops s2 Hkey. subst s2. apply plain_hit.
    rewrite cached_server, Hkey.
    rewrite (steps_keep_server env self ops s1 Hops _ _
               (server_fetch_is_cached f env self s s1 r Hrun)).
    reflexivity.
  - intros r s1 d ops Hrun Hd Hops s2. subst s2. split.
    + eapply api_server_fetch_is_cached; eassumption.
    + unfold fetchApiData, bind, getState. rewrite plainCacheHit_server.
      rewrite (steps_keep_server env self ops s1 Hops _ _ Hd). reflexivity.
Qed.

Lemma server_cache_hit_never_expires_witness :
  let s1 := (fetchJsonData nodeEnv userData true onePayloadAhead).2 in
  let s2 := steps nodeEnv userData [Elapse 86400000; FetchCsv false; Elapse 1] s1 in
  fetchJsonData nodeEnv userData true s2 = (Resolved (onlyData oneItem), s2).
Proof.
  cbn zeta.
  destruct (server_cache_hit_never_expires nodeEnv userData onePayloadAhead)
    as (_ & _ & _ & _ & Hsecond & _).
  apply (Hsecond FJson (onlyData oneItem)
           (fetchJsonData nodeEnv userData true onePayloadAhead).2
           [Elapse 86400000; FetchCsv false; Elapse 1]).
  - vm_compute. reflexivity.
  - repeat constructor.
  - reflexivity.
Defined.

(** ** What a cache hit gives back *)

Lemma fresh_now (s : State) (e : CacheEntry) :
  timestamp e = now s -> fresh (now s) (Some e) = Some e.
Proof. intros H. unfold fresh. rewrite H, Z.sub_diag. reflexivity. Qed.

Lemma cached_after_store (f : PlainFormat) (self : Fetcher) (isServer : bool)
  (d : list value) (items pages : value) (s : State) :
  cached f self isServer (stored isServer (plainKey f self s) d items pages s)
  = Some (if isServer then onlyData d
          else match f with
               | FJson => {| data := d; totalItems := items; totalPages := pages |}
               | _ => onlyData d
               end).
Proof.
  unfold cached.
  assert (Hkey : plainKey f self (stored isServer (plainKey f self s) d items pages s)
                 = plainKey f self s) by (destruct f, isServer; reflexivity).
  rewrite Hkey. destruct isServer; cbn [stored withServerEntry withClientEntry
                                         serverCache clientCache now].
  - rewrite lookup_insert_eq. reflexivity.
  - rewrite lookup_insert_eq, fresh_now by reflexivity. destruct f; reflexivity.
Qed.

(** C10.  The server table maps a key to the parsed data alone, so a
    server-side JSON fetch that hits it returns the data with [totalItems]
    and [totalPages] undefined; a client-side JSON fetch that hits a young
    enough entry returns the data with the [totalItems] and [totalPages]
    stored in the entry.  After an envelope response carrying both totals,
    the first fetch returns them; a second server-side fetch returns the
    same data without them, a second client-side fetch returns them again. *)
Theorem server_hit_drops_pagination (env : Env) (self : Fetcher) (s : State) :
  (forall d : list value,
      serverCache s !! jsonCacheKey self (pagination s) = Some d ->
      fetchJsonData env self true s
      = (Resolved {| data := d; totalItems := JUndefined; totalPages := JUndefined |}, s))
  /\ (forall e : CacheEntry,
        reusable s (jsonCacheKey self (pagination s)) e ->
        fetchJsonData env self false s
        = (Resolved {| data := entry_data e; totalItems := entry_totalItems e;
                       totalPages := entry_totalPages e |}, s))
  /\ (forall (isServer : bool) (r : Response) (t : string) (props : list (string * value))
             (items d : list value),
        cached FJson self isServer s = None ->
        outcome (upcoming s 0) = Some r -> ok r = true -> body r = Some t ->
        Json.parse t = Some (JObj props) ->
        JsValue.lookupProp "data" props = JArr items ->
        parseData self (JArr items) = Resolved d ->
        let pg := JsValue.lookupProp "pagination" props in
        let first := fetchJsonData env self isServer s in
        let second := fetchJsonData env self isServer first.2 in
        first.1 = Resolved {| data := d;
                              totalItems := JsValue.getPropOpt pg "totalItems";
                              totalPages := JsValue.getPropOpt pg "totalPages" |}
        /\ second.2 = first.2
        /\ second.1
           = Resolved (if isServer
                       then {| data := d; totalItems := JUndefined;
                               totalPages := JUndefined |}
                       else {| data := d;
                               totalItems := JsValue.getPropOpt pg "totalItems";
                               totalPages := JsValue.getPropOpt pg "totalPages" |})).
Proof.
  split; [|split].
  - intros d Hd. apply (plain_hit FJson). rewrite cached_server. cbn [plainKey].
    rewrite Hd. reflexivity.
  - intros e [He Hage]. apply (plain_hit FJson). unfold cached. cbn [plainKey].
    rewrite He. unfold fresh.
    destruct (Z.ltb_spec (now s - timestamp e) cacheExpirationTime) as [_|Hge];
      [reflexivity | unfold cacheExpirationTime in Hge; lia].
  - intros isServer r t props items d Hmiss Hr Hok Hbody Hparse Hdata Hpd. cbn zeta.
    pose proof (plain_miss FJson env self isServer s Hmiss) as Hrun.
    cbn [fetchPlain plainKey] in Hrun. cbn zeta in Hrun. unfold delivered in Hrun.
    rewrite Hr, Hok, Hbody, Hparse in Hrun. cbn [jsonShape] in Hrun.
    rewrite Hdata, Hpd in Hrun. cbn [withTotals] in Hrun. rewrite Hrun. cbn [fst snd].
    split; [reflexivity|].
    set (s1 := afterFetch (getUrl env self (pagination s) isServer) [] s).
    change (jsonCacheKey self (pagination s)) with (plainKey FJson self s1).
    rewrite (plain_hit FJson env self isServer _ _
               (cached_after_store FJson self isServer d _ _ s1)).
    split; [reflexivity|]. destruct isServer; reflexivity.
Qed.

Lemma server_hit_drops_pagination_witness :
  (fetchJsonData nodeEnv userData true envelopeAhead).1
  = Resolved {| data := oneItem; totalItems := JNum 12 0; totalPages := JNum 3 0 |}
  /\ (fetchJsonData nodeEnv userData true
        (fetchJsonData nodeEnv userData true envelopeAhead).2).1
     = Resolved {| data := oneItem; totalItems := JUndefined; totalPages := JUndefined |}.
Proof.
  assert (Hmiss : cached FJson userData true envelopeAhead = None) by reflexivity.
  assert (Hparse : Json.parse envelopeBody = Some (JObj envelopeProps))
    by (vm_compute; reflexivity).
  destruct (server_hit_drops_pagination nodeEnv userData envelopeAhead) as (_ & _ & Hrun).
  destruct (Hrun true
              {| status := 200; statusText := EmptyString; retryAfter := None;
                 body := Some envelopeBody |}
              envelopeBody envelopeProps oneItem oneItem
              Hmiss eq_refl eq_refl eq_refl Hparse eq_refl eq_refl)
    as (Hfirst & _ & Hsecond).
  split; [exact Hfirst | exact Hsecond].
Defined.

(** ** The client table *)

Lemma fresh_iff (t : Z) (o : option CacheEntry) (e : CacheEntry) :
  fresh t o = Some e <-> o = Some e /\ t - timestamp e < 300000.
Proof.
  unfold fresh, cacheExpirationTime. destruct o as [e0|].
  - destruct (Z.ltb_spec (t - timestamp e0) (5 * 60 * 1000)) as [Hlt|Hge].
    + split; [intros H; injection H as <-; split; [reflexivity | lia]
             | intros [H _]; exact H].
    + split; [discriminate | intros [H Hlt]; injection H as ->; lia].
  - split; [discriminate | intros [H _]; discriminate].
Qed.

Lemma cached_client_iff (f : PlainFormat) (self : Fetcher) (s : State) (r : FetchResult) :
  cached f self false s = Some r
  <-> exists e, reusable s (plainKey f self s) e /\ r = served f e.
Proof.
  unfold cached, reusable.
  destruct (fresh (now s) (clientCache s !! plainKey f self s)) as [e|] eqn:Hf.
  - apply fresh_iff in Hf. split.
    + intros H. injection H as <-. exists e. split; [exact Hf | destruct f; reflexivity].
    + intros (e' & [He' _] & ->). destruct Hf as [He _]. rewrite He in He'.
      injection He' as <-. destruct f; reflexivity.
  - split; [discriminate|]. intros (e & He & _). apply fresh_iff in He.
    rewrite He in Hf. discriminate.
Qed.

Lemma plainCacheHit_client_iff (key : string) (s : State) (r : FetchResult) :
  plainCacheHit false key s = Some r
  <-> exists e, reusable s key e /\ r = onlyData (entry_data e).
Proof.
  unfold plainCacheHit, reusable.
  destruct (fresh (now s) (clientCache s !! key)) as [e|] eqn:Hf.
  - apply fresh_iff in Hf. split.
    + intros H. injection H as <-. exists e. split; [exact Hf | reflexivity].
    + intros (e' & [He' _] & ->). destruct Hf as [He _]. rewrite He in He'.
      injection He' as <-. reflexivity.
  - split; [discriminate|]. intros (e & He & _). apply fresh_iff in He.
    rewrite He in Hf. discriminate.
Qed.

Lemma plain_client_refetch (f : PlainFormat) (env : Env) (self : Fetcher) (s : State) :
  cached f self false s = None ->
  let run := fetchPlain f env self false s in
  requests run.2
  = (requests s ++ [{| req_url := getUrl env self (pagination s) false;
                       req_headers := [] |}])%list
  /\ match run.1 with
     | Resolved r =>
         clientCache run.2 = <[plainKey f self s := entryOf r (now run.2)]> (clientCache s)
         /\ cached f self false run.2 = Some r
     | Rejected _ => clientCache run.2 = clientCache s
     end.
Proof.
  intros Hmiss. cbn zeta. rewrite (plain_miss f env self false s Hmiss). cbn zeta.
  destruct (delivered f self (upcoming s 0)) as [[[d items] pages]|e] eqn:Hd;
    cbn [fst snd]; split; try reflexivity.
  split; [reflexivity|].
  set (s1 := afterFetch (getUrl env self (pagination s) false) [] s).
  change (plainKey f self s) with (plainKey f self s1).
  rewrite cached_after_store. destruct f; try reflexivity.
  all: unfold delivered in Hd; destruct (outcome (upcoming s 0)) as [resp|]; [|discriminate];
    destruct (ok resp); [|discriminate]; destruct (body resp); [|discriminate];
    unfold withTotals in Hd;
    match type of Hd with
    | context [parseData ?who ?j] => destruct (parseData who j); [|discriminate]
    end;
    injection Hd as <- <- <-; reflexivity.
Qed.

(** C5 (as amended).  With the server flag false, each of the four paths
    reuses a client entry, returning its data with no request and no
    change of state, exactly when the entry is there and its age, the
    current time minus its timestamp, is below 300000 ms.  Otherwise the
    entry is not reused.  The json, csv and txt paths then send exactly one
    request; when the read resolves, a fresh entry holding the result is
    stored with the time of storing as its timestamp and is reusable at
    once, and when it rejects the table is left as it was.  The api path
    then sends between one and three requests to the endpoint and at most
    one to the fallback endpoint; when attempt number [k] is the first to
    deliver a payload it has sent [k + 1] requests, one when the first
    attempt succeeds, and it stores a fresh entry holding the payload. *)
Theorem client_cache_expiry (env : Env) (self : Fetcher) (s : State) :
  cacheExpirationTime = 300000
  /\ (forall (f : PlainFormat) (r : FetchResult),
        cached f self false s = Some r
        <-> exists e, reusable s (plainKey f self s) e /\ r = served f e)
  /\ (forall r : FetchResult,
        plainCacheHit false (apiCacheKey self) s = Some r
        <-> exists e, reusable s (apiCacheKey self) e /\ r = onlyData (entry_data e))
  /\ (forall (f : PlainFormat) (r : FetchResult),
        cached f self false s = Some r ->
        fetchPlain f env self false s = (Resolved r, s))
  /\ (forall r : FetchResult,
        plainCacheHit false (apiCacheKey self) s = Some r ->
        fetchApiData env self false s = (Resolved r, s))
  /\ (forall f : PlainFormat,
        cached f self false s = None ->
        let run := fetchPlain f env self false s in
        requests run.2
        = (requests s ++ [{| req_url := getUrl env self (pagination s) false;
                             req_headers := [] |}])%list
        /\ match run.1 with
           | Resolved r =>
               clientCache run.2
               = <[plainKey f self s := entryOf r (now run.2)]> (clientCache s)
               /\ cached f self false run.2 = Some r
           | Rejected _ => clientCache run.2 = clientCache s
           end)
  /\ (forall url : string,
        apiCalls self false s url ->
        (exists (n : nat) (tail : list Request),
            requests (fetchApiData env self false s).2
            = (requests s ++ repeat (toEndpoint env url) n ++ tail)%list
            /\ (1 <= n <= 3)%nat
            /\ (tail = [] \/ (tail = [toFallback self] /\ n = 3%nat)))
        /\ (forall (k : nat) (d : list value),
              (k < 3)%nat ->
              (forall j : nat, (j < k)%nat -> attemptFails self (upcoming s j)) ->
              payloadOf self (upcoming s k) = Some d ->
              let run := fetchApiData env self false s in
              run.1 = Resolved (onlyData d)
              /\ requests run.2 = (requests s ++ repeat (toEndpoint env url) (S k))%list
              /\ clientCache run.2 !! apiCacheKey self
                 = Some (entryOf (onlyData d) (now run.2)))).
Proof.
  split; [reflexivity|]. split; [intros; apply cached_client_iff|].
  split; [intros; apply plainCacheHit_client_iff|].
  split; [intros f r; apply plain_hit|]. split; [|split].
  - intros r Hr. unfold fetchApiData, bind, getState. rewrite Hr. reflexivity.
  - intros f. apply plain_client_refetch.
  - intros url Hcalls. split.
    + destruct (api_requests_sent env self false s url Hcalls) as (n & tail & Hreq & Hn & Ht).
      exists n, tail. split; [exact Hreq|]. split; [exact Hn|].
      destruct Ht as [Ht | (Ht & Hn3 & _)]; auto.
    + intros k d Hk Hfail Hd.
      exact (api_success_at env self false s url k d Hcalls Hk Hfail Hd).
Qed.

Lemma client_cache_expiry_witness :
  (fetchJsonData browserEnv userData false staleJson).1 = Resolved (onlyData oneItem)
  /\ clientCache (fetchJsonData browserEnv userData false staleJson).2 !! "json_UserData"
     = Some (entryOf (onlyData oneItem) 300040).
Proof.
  assert (Hmiss : cached FJson userData false staleJson = None) by reflexivity.
  destruct (client_cache_expiry browserEnv userData staleJson)
    as (_ & _ & _ & _ & _ & Hplain & _).
  destruct (Hplain FJson Hmiss) as [_ Hstore].
  change (fetchPlain FJson browserEnv userData false staleJson)
    with (fetchJsonData browserEnv userData false staleJson) in Hstore.
  assert (Hres : (fetchJsonData browserEnv userData false staleJson).1
                 = Resolved (onlyData oneItem)) by (vm_compute; reflexivity).
  rewrite Hres in Hstore. destruct Hstore as [Hcache _].
  split; [exact Hres|]. rewrite Hcache. apply lookup_insert_eq.
Defined.

(** C5, as first stated, on the api path: the entry is 300000 ms old, so it
    is not reused; with the network down the path sends four requests, not
    one, and the entry in the table is still the old one. *)
Lemma stale_api_entry_costs_four_requests :
  clientCache staleApi !! "api_ProductList" = Some staleApiEntry
  /\ now staleApi - timestamp staleApiEntry = 300000
  /\ length (requests (fetchApiData browserEnv productList false staleApi).2) = 4%nat
  /\ clientCache (fetchApiData browserEnv productList false staleApi).2 !! "api_ProductList"
     = Some staleApiEntry.
Proof. repeat split; vm_compute; reflexivity. Qed.

(** ** Failures of the json, csv and txt paths *)

(** C9 (as amended).  On the json, csv and txt paths, once the cache has
    missed, exactly one request is sent and no wait is made, however the
    read ends.  A network failure (no answer, or an answer outside 2xx)
    and an unreadable body reject; on the json path a body that is not
    JSON rejects with a SyntaxError.  On the csv and txt paths the text of
    a readable 2xx body always decodes, a txt line that is not JSON
    included, so the read rejects only when [parseData] does.  Whenever
    the read rejects, both cache tables are exactly as before.  The api
    path, by contrast, resolves from every state. *)
Theorem plain_formats_raise_at_once (env : Env) (self : Fetcher) (isServer : bool)
  (s : State) (f : PlainFormat) :
  cached f self isServer s = None ->
  let run := fetchPlain f env self isServer s in
  let sent := (requests s ++ [{| req_url := getUrl env self (pagination s) isServer;
                                 req_headers := [] |}])%list in
  (requests run.2 = sent /\ timers run.2 = timers s)
  /\ (networkFailure (upcoming s 0) -> exists e, run.1 = Rejected e)
  /\ (forall r, outcome (upcoming s 0) = Some r -> ok r = true -> body r = None ->
                exists e, run.1 = Rejected e)
  /\ (forall r t, outcome (upcoming s 0) = Some r -> ok r = true -> body r = Some t ->
                  bodyDecoder f t = None ->
                  f = FJson /\ run.1 = Rejected (SyntaxError "Unexpected token in JSON"))
  /\ (forall r t, outcome (upcoming s 0) = Some r -> ok r = true -> body r = Some t ->
                  f <> FJson ->
                  exists v, bodyDecoder f t = Some v
                            /\ run.1 = match parseData self v with
                                       | Resolved d => Resolved (onlyData d)
                                       | Rejected e => Rejected e
                                       end)
  /\ (forall e, run.1 = Rejected e ->
                serverCache run.2 = serverCache s /\ clientCache run.2 = clientCache s)
  /\ (exists (r : FetchResult) (s' : State),
        fetchApiData env self isServer s = (Resolved r, s')).
Proof.
  intros Hmiss. cbn zeta. rewrite (plain_miss f env self isServer s Hmiss). cbn zeta.
  unfold delivered, networkFailure.
  split; [|split; [|split; [|split; [|split; [|split]]]]].
  - destruct (outcome (upcoming s 0)) as [resp|]; [|split; reflexivity].
    destruct (ok resp); [|split; reflexivity].
    destruct (body resp) as [t|]; [|split; reflexivity].
    destruct f; [destruct (Json.parse t) as [v|]; [destruct (jsonShape self v) as [[[d i] p]|e]
                                                  | ] | | ].
    all: unfold withTotals;
      try match goal with
          | |- context [parseData ?who ?j] => destruct (parseData who j)
          end;
      destruct isServer; split; reflexivity.
  - destruct (outcome (upcoming s 0)) as [resp|]; [|eauto].
    intros ->. eauto.
  - intros r -> -> ->. eauto.
  - intros r t -> -> -> Hdec. destruct f; try discriminate. cbn in Hdec. rewrite Hdec.
    split; reflexivity.
  - intros r t -> -> -> Hf. destruct f; [congruence | |]; eexists; (split; [reflexivity|]);
      unfold withTotals;
      match goal with
      | |- context [parseData ?who ?j] => destruct (parseData who j); reflexivity
      end.
  - intros e. destruct (outcome (upcoming s 0)) as [resp|]; [|split; reflexivity].
    destruct (ok resp); [|split; reflexivity].
    destruct (body resp) as [t|]; [|split; reflexivity].
    destruct f; [destruct (Json.parse t) as [v|]; [destruct (jsonShape self v) as [[[d i] p]|e']
                                                  | ] | | ].
    all: unfold withTotals;
      try match goal with
          | |- context [parseData ?who ?j] => destruct (parseData who j)
          end;
      cbn [fst snd]; try discriminate; intros _; split; reflexivity.
  - apply fetchApiData_resolves.
Qed.

Lemma plain_formats_raise_at_once_witness :
  (exists e, (fetchJsonData browserEnv userData false serverError).1 = Rejected e)
  /\ length (requests (fetchJsonData browserEnv userData false serverError).2) = 1%nat.
Proof.
  assert (Hmiss : cached FJson userData false serverError = None) by reflexivity.
  destruct (plain_formats_raise_at_once browserEnv userData false serverError FJson Hmiss)
    as ((Hsent & _) & Hfail & _).
  split.
  - apply Hfail. reflexivity.
  - change (fetchPlain FJson browserEnv userData false serverError)
      with (fetchJsonData browserEnv userData false serverError) in Hsent.
    rewrite Hsent. reflexivity.
Defined.

(** C9, as first stated, on the txt path: the one line of the body fails
    to decode as JSON, yet the read resolves with the record recovered
    from it and writes a cache entry. *)
Lemma txt_decode_failure_does_not_raise :
  Json.parse "name:Bob,age:30" = None
  /\ (fetchTxtData browserEnv userText false keyValueAhead).1 = Resolved (onlyData [bob30])
  /\ clientCache (fetchTxtData browserEnv userText false keyValueAhead).2 !! "txt_UserData"
     = Some (entryOf (onlyData [bob30]) 40).
Proof. repeat split; vm_compute; reflexivity. Qed.

(** ** White space *)

Lemma string_append_empty (s : string) : s ++ EmptyString = s.
Proof.
  induction s as [|c s IH]; [reflexivity|].
  change (String c (s ++ EmptyString) = String c s). rewrite IH. reflexivity.
Qed.

Lemma string_append_assoc3 (a b c : string) : (a ++ b) ++ c = a ++ b ++ c.
Proof.
  induction a as [|x a IH]; [reflexivity|]. change (String x ((a ++ b) ++ c) = String x (a ++ b ++ c)).
  rewrite IH. reflexivity.
Qed.

Lemma string_length_append (a b : string) :
  String.length (a ++ b) = (String.length a + String.length b)%nat.
Proof.
  induction a as [|x a IH]; [reflexivity|].
  change (S (String.length (a ++ b)) = S (String.length a + String.length b)).
  rewrite IH. reflexivity.
Qed.

Lemma list_of_append (a b : string) :
  list_ascii_of_string (a ++ b) = (list_ascii_of_string a ++ list_ascii_of_string b)%list.
Proof.
  induction a as [|x a IH]; [reflexivity|].
  change (x :: list_ascii_of_string (a ++ b)
          = x :: (list_ascii_of_string a ++ list_ascii_of_string b)%list).
  rewrite IH. reflexivity.
Qed.

Lemma string_of_app (a b : list ascii) :
  string_of_list_ascii (a ++ b)%list = string_of_list_ascii a ++ string_of_list_ascii b.
Proof.
  induction a as [|x a IH]; [reflexivity|].
  change (String x (string_of_list_ascii (a ++ b)%list)
          = String x (string_of_list_ascii a ++ string_of_list_ascii b)).
  rewrite IH. reflexivity.
Qed.

Lemma reverse_append (a b : string) :
  JsString.reverse (a ++ b) = JsString.reverse b ++ JsString.reverse a.
Proof. unfold JsString.reverse. rewrite list_of_append, rev_app_distr, string_of_app. reflexivity. Qed.

Lemma reverse_reverse (s : string) : JsString.reverse (JsString.reverse s) = s.
Proof.
  unfold JsString.reverse.
  rewrite list_ascii_of_string_of_list_ascii, rev_involutive, string_of_list_ascii_of_string.
  reflexivity.
Qed.

Lemma reverse_length (s : string) : String.length (JsString.reverse s) = String.length s.
Proof.
  assert (Hlen : forall l, String.length (string_of_list_ascii l) = length l)
    by (induction l as [|x l IH]; [reflexivity | cbn; rewrite IH; reflexivity]).
  assert (Hlist : forall t, length (list_ascii_of_string t) = String.length t)
    by (induction t as [|x t IH]; [reflexivity | cbn; rewrite IH; reflexivity]).
  unfold JsString.reverse. rewrite Hlen, length_rev, Hlist. reflexivity.
Qed.

Lemma dropPrefix_length (w s rest : string) :
  JsString.dropPrefix w s = Some rest ->
  String.length s = (String.length w + String.length rest)%nat.
Proof.
  revert s. induction w as [|a w IH]; intros s; cbn [JsString.dropPrefix].
  - intros H. injection H as ->. reflexivity.
  - destruct s as [|b s]; [discriminate|]. destruct (Ascii.eqb a b); [|discriminate].
    intros H. cbn [String.length]. rewrite (IH _ H). reflexivity.
Qed.

Lemma dropOne_shortens (chars : list string) (s rest : string) :
  Forall (fun w => w <> EmptyString) chars ->
  JsString.dropOne chars s = Some rest ->
  (String.length rest < String.length s)%nat.
Proof.
  induction chars as [|w chars IH]; intros Hne; cbn [JsString.dropOne]; [discriminate|].
  apply Forall_cons in Hne. destruct Hne as [Hw Hne].
  destruct (JsString.dropPrefix w s) as [r|] eqn:Hdrop.
  - intros H. injection H as <-. apply dropPrefix_length in Hdrop.
    destruct w; [congruence|]. cbn [String.length] in Hdrop. lia.
  - apply IH, Hne.
Qed.

Lemma dropLeading_enough (chars : list string) (fuel : nat) (s : string) :
  Forall (fun w => w <> EmptyString) chars ->
  (String.length s <= fuel)%nat ->
  JsString.dropLeading chars fuel s = JsString.dropLeading chars (String.length s) s.
Proof.
  intros Hne. remember (String.length s) as n eqn:Hn.
  revert fuel s Hn. induction n as [n IH] using lt_wf_ind. intros fuel s Hn Hfuel.
  destruct fuel as [|fuel].
  - replace n with 0%nat by lia. reflexivity.
  - destruct n as [|n].
    + destruct s; [|discriminate]. cbn [JsString.dropLeading].
      destruct (JsString.dropOne chars EmptyString) as [rest|] eqn:Hone; [|reflexivity].
      apply dropOne_shortens in Hone; [cbn in Hone; lia | exact Hne].
    + cbn [JsString.dropLeading].
      destruct (JsString.dropOne chars s) as [rest|] eqn:Hone; [|reflexivity].
      pose proof (dropOne_shortens chars s rest Hne Hone) as Hshort.
      rewrite (IH (String.length rest) ltac:(lia) fuel rest eq_refl ltac:(lia)).
      rewrite (IH (String.length rest) ltac:(lia) n rest eq_refl ltac:(lia)).
      reflexivity.
Qed.

Lemma dropLeading_step (chars : list string) (w rest : string) :
  Forall (fun w => w <> EmptyString) chars ->
  w <> EmptyString ->
  JsString.dropOne chars (w ++ rest) = Some rest ->
  JsString.dropLeading chars (String.length (w ++ rest)) (w ++ rest)
  = JsString.dropLeading chars (String.length rest) rest.
Proof.
  intros Hne Hw Hone. rewrite string_length_append.
  destruct w as [|a w]; [congruence|]. cbn [String.length Nat.add JsString.dropLeading].
  rewrite Hone. apply dropLeading_enough; [exact Hne | lia].
Qed.

Lemma dropOne_no_opening (chars : list string) (c : ascii) (rest : string) :
  Forall (fun w => exists a tail, w = String a tail /\ a <> c) chars ->
  JsString.dropOne chars (String c rest) = None.
Proof.
  induction chars as [|w chars IH]; intros Hall; cbn [JsString.dropOne]; [reflexivity|].
  apply Forall_cons in Hall. destruct Hall as [(a & tail & -> & Hac) Hall].
  cbn [JsString.dropPrefix]. destruct (Ascii.eqb_spec a c) as [|_]; [congruence|].
  apply IH, Hall.
Qed.

Lemma dropLeading_stops (chars : list string) (fuel : nat) (c : ascii) (rest : string) :
  Forall (fun w => exists a tail, w = String a tail /\ a <> c) chars ->
  JsString.dropLeading chars fuel (String c rest) = String c rest.
Proof.
  intros Hall. destruct fuel; [reflexivity|]. cbn [JsString.dropLeading].
  rewrite (dropOne_no_opening chars c rest Hall). reflexivity.
Qed.

Ltac each_white_space H :=
  unfold JsString.whiteSpace in H; cbn [List.map In] in H;
  repeat (destruct H as [H | H]; [subst|]); [..|destruct H].

Lemma whiteSpace_not_empty : Forall (fun w => w <> EmptyString) JsString.whiteSpace.
Proof. apply Forall_forall. intros w Hin. apply list_elem_of_In in Hin. each_white_space Hin; discriminate. Qed.

Lemma reversed_not_empty :
  Forall (fun w => w <> EmptyString) (List.map JsString.reverse JsString.whiteSpace).
Proof.
  apply Forall_forall. intros w Hin. apply list_elem_of_In, in_map_iff in Hin.
  destruct Hin as (v & <- & Hin). each_white_space Hin; discriminate.
Qed.

Lemma dropOne_white_space (w rest : string) :
  In w JsString.whiteSpace ->
  w <> EmptyString
  /\ JsString.dropOne JsString.whiteSpace (w ++ rest) = Some rest
  /\ JsString.dropOne (List.map JsString.reverse JsString.whiteSpace)
       (JsString.reverse w ++ rest) = Some rest.
Proof. intros Hin. each_white_space Hin; (split; [discriminate | split; reflexivity]). Qed.

Lemma trimStart_white_space (w rest : string) :
  In w JsString.whiteSpace -> JsString.trimStart (w ++ rest) = JsString.trimStart rest.
Proof.
  intros Hin. destruct (dropOne_white_space w rest Hin) as (Hw & Hone & _).
  apply dropLeading_step; [apply whiteSpace_not_empty | exact Hw | exact Hone].
Qed.

Lemma trimEnd_white_space (w text : string) :
  In w JsString.whiteSpace -> JsString.trimEnd (text ++ w) = JsString.trimEnd text.
Proof.
  intros Hin. destruct (dropOne_white_space w (JsString.reverse text) Hin) as (Hw & _ & Hone).
  unfold JsString.trimEnd. rewrite reverse_append. f_equal.
  replace (String.length (text ++ w))
    with (String.length (JsString.reverse w ++ JsString.reverse text))
    by (rewrite !string_length_append, !reverse_length; lia).
  rewrite <- (reverse_length text).
  apply dropLeading_step; [apply reversed_not_empty | | exact Hone].
  intros Hempty. apply (f_equal JsString.reverse) in Hempty.
  rewrite reverse_reverse in Hempty. exact (Hw Hempty).
Qed.

Lemma trimStart_not_opened (c : ascii) (rest : string) :
  ~ opens c -> JsString.trimStart (String c rest) = String c rest.
Proof.
  intros Hc. apply dropLeading_stops. apply Forall_forall. intros w Hin.
  apply list_elem_of_In in Hin. destruct w as [|a tail].
  - exfalso. pose proof whiteSpace_not_empty as Hne. rewrite Forall_forall in Hne.
    apply (Hne EmptyString); [apply list_elem_of_In, Hin | reflexivity].
  - exists a, tail. split; [reflexivity|]. intros ->. apply Hc. exists (String c tail), tail. auto.
Qed.

Lemma dropPrefix_spec (w s rest : string) :
  JsString.dropPrefix w s = Some rest -> s = w ++ rest.
Proof.
  revert s. induction w as [|a w IH]; intros s; cbn [JsString.dropPrefix].
  - intros H. injection H as ->. reflexivity.
  - destruct s as [|b s]; [discriminate|].
    destruct (Ascii.eqb_spec a b) as [->|_]; [|discriminate].
    intros H. rewrite (IH _ H). reflexivity.
Qed.

Lemma inner_never_opens (a b : ascii) : In a innerBytes -> In b openingBytes -> a <> b.
Proof.
  assert (Hall : forallb (fun x => forallb (fun y => negb (Ascii.eqb x y)) openingBytes)
                   innerBytes = true) by (vm_compute; reflexivity).
  intros Ha Hb Heq. rewrite forallb_forall in Hall. specialize (Hall a Ha).
  rewrite forallb_forall in Hall. specialize (Hall b Hb).
  subst b. rewrite Ascii.eqb_refl in Hall. discriminate Hall.
Qed.

Lemma whiteSpace_shape (w : string) :
  In w JsString.whiteSpace ->
  exists (a : ascii) (v : string),
    w = String a v /\ In a openingBytes
    /\ forall x, In x (list_ascii_of_string v) -> In x innerBytes.
Proof.
  intros Hin. destruct w as [|a v].
  - exfalso. pose proof whiteSpace_not_empty as Hne. rewrite Forall_forall in Hne.
    apply (Hne EmptyString); [apply list_elem_of_In, Hin | reflexivity].
  - exists a, v. split; [reflexivity|]. split.
    + apply in_flat_map. exists (String a v). split; [exact Hin | left; reflexivity].
    + intros x Hx. apply in_flat_map. exists (String a v). split; [exact Hin | exact Hx].
Qed.

Lemma joined_opened (after : list string) : padding after -> opened (joined after).
Proof.
  intros Hafter. destruct Hafter as [|w after Hw _]; [left; reflexivity|].
  destruct (whiteSpace_shape w Hw) as (a & v & -> & Ha & _).
  right. exists a, (v ++ joined after). split; [reflexivity | exact Ha].
Qed.

Lemma dropPrefix_inner (v core tail rest : string) :
  (forall x, In x (list_ascii_of_string v) -> In x innerBytes) ->
  opened tail ->
  JsString.dropPrefix v (core ++ tail) = Some rest ->
  exists more, core = v ++ more.
Proof.
  intros Hinner Htail. revert core.
  induction v as [|a v IH]; intros core; [exists core; reflexivity|].
  destruct core as [|c core].
  - change (EmptyString ++ tail) with tail.
    destruct Htail as [-> | (t & more & -> & Ht)]; [discriminate|].
    cbn [JsString.dropPrefix]. destruct (Ascii.eqb_spec a t) as [->|_]; [|discriminate].
    exfalso. apply (inner_never_opens t t); [|exact Ht|reflexivity].
    apply Hinner. left. reflexivity.
  - change (String c core ++ tail) with (String c (core ++ tail)).
    cbn [JsString.dropPrefix]. destruct (Ascii.eqb_spec a c) as [->|_]; [|discriminate].
    intros Hdrop. destruct (IH (fun x Hx => Hinner x (or_intror Hx)) core Hdrop) as [more ->].
    exists more. reflexivity.
Qed.

Lemma trimStart_bare (core tail : string) :
  core <> EmptyString ->
  (forall w rest, In w JsString.whiteSpace -> core <> w ++ rest) ->
  opened tail ->
  JsString.trimStart (core ++ tail) = core ++ tail.
Proof.
  intros Hcore Hbare Htail.
  assert (Hnone : forall chars,
             (forall w, In w chars -> In w JsString.whiteSpace) ->
             JsString.dropOne chars (core ++ tail) = None).
  { induction chars as [|w chars IH]; intros Hsub; cbn [JsString.dropOne]; [reflexivity|].
    destruct (JsString.dropPrefix w (core ++ tail)) as [rest|] eqn:Hdrop.
    - exfalso. destruct (whiteSpace_shape w (Hsub w (or_introl eq_refl)))
        as (a & v & -> & _ & Hinner).
      destruct core as [|c core]; [congruence|].
      change (String c core ++ tail) with (String c (core ++ tail)) in Hdrop.
      cbn [JsString.dropPrefix] in Hdrop.
      destruct (Ascii.eqb_spec a c) as [->|_]; [|discriminate].
      destruct (dropPrefix_inner v core tail rest Hinner Htail Hdrop) as [more ->].
      apply (Hbare (String c v) more (Hsub _ (or_introl eq_refl))). reflexivity.
    - apply IH. intros x Hx. apply Hsub. right. exact Hx. }
  unfold JsString.trimStart.
  destruct (String.length (core ++ tail)); cbn [JsString.dropLeading]; [reflexivity|].
  rewrite (Hnone JsString.whiteSpace (fun w H => H)). reflexivity.
Qed.

Lemma trimEnd_bare (core : string) :
  (forall w init, In w JsString.whiteSpace -> core <> init ++ w) ->
  JsString.trimEnd core = core.
Proof.
  intros Hbare.
  assert (Hnone : forall chars,
             (forall w, In w chars -> In w JsString.whiteSpace) ->
             JsString.dropOne (List.map JsString.reverse chars) (JsString.reverse core) = None).
  { induction chars as [|w chars IH]; intros Hsub; cbn [JsString.dropOne List.map];
      [reflexivity|].
    destruct (JsString.dropPrefix (JsString.reverse w) (JsString.reverse core))
      as [rest|] eqn:Hdrop.
    - exfalso. apply dropPrefix_spec in Hdrop. apply (f_equal JsString.reverse) in Hdrop.
      rewrite reverse_append, !reverse_reverse in Hdrop.
      exact (Hbare w (JsString.reverse rest) (Hsub w (or_introl eq_refl)) Hdrop).
    - apply IH. intros x Hx. apply Hsub. right. exact Hx. }
  unfold JsString.trimEnd.
  destruct (String.length core); cbn [JsString.dropLeading]; [apply reverse_reverse|].
  rewrite (Hnone JsString.whiteSpace (fun w H => H)). apply reverse_reverse.
Qed.

Lemma trimStart_padding (pad : list string) :
  padding pad -> JsString.trimStart (joined pad) = EmptyString.
Proof.
  intros Hpad. induction Hpad as [|w pad Hw _ IH]; [reflexivity|].
  cbn [joined fold_right]. fold (joined pad). rewrite trimStart_white_space by exact Hw.
  exact IH.
Qed.

Lemma joined_snoc (parts : list string) (w : string) :
  joined (parts ++ [w]) = joined parts ++ w.
Proof.
  induction parts as [|x parts IH]; cbn [joined fold_right app].
  - apply string_append_empty.
  - fold (joined (parts ++ [w])). fold (joined parts).
    rewrite IH, string_append_assoc3. reflexivity.
Qed.

(** What [trim] does, for every text: the white-space characters on both
    sides go, and what stands between them, starting and ending with none,
    is kept as it is. *)
Lemma trim_strips_padding (before after : list string) (core : string) :
  padding before -> padding after -> bare core ->
  JsString.trim (joined before ++ core ++ joined after) = core.
Proof.
  intros Hbefore Hafter [Hhead Hlast]. unfold JsString.trim.
  assert (Hpeel : JsString.trimStart (joined before ++ core ++ joined after)
                  = JsString.trimStart (core ++ joined after)).
  { induction Hbefore as [|w before Hw _ IH]; [reflexivity|].
    cbn [joined fold_right]. fold (joined before).
    rewrite string_append_assoc3, trimStart_white_space by exact Hw. exact IH. }
  rewrite Hpeel. clear Hpeel.
  destruct core as [|c core].
  - change (EmptyString ++ joined after) with (joined after).
    rewrite (trimStart_padding after Hafter). reflexivity.
  - rewrite trimStart_bare;
      [ | discriminate | exact Hhead | apply joined_opened, Hafter ].
    clear Hbefore. induction after as [|w after IH] using rev_ind.
    + cbn [joined fold_right]. rewrite string_append_empty. apply trimEnd_bare, Hlast.
    + apply Forall_app in Hafter. destruct Hafter as [Hafter Hw].
      apply Forall_cons in Hw. destruct Hw as [Hw _].
      rewrite joined_snoc, <- string_append_assoc3, trimEnd_white_space by exact Hw.
      apply IH, Hafter.
Qed.

(** ** The line grammar of the txt path *)

Lemma lookupProp_setProp (key k : string) (v : value) (props : list (string * value)) :
  JsValue.lookupProp key (JsValue.setProp k v props)
  = if String.eqb k key then v else JsValue.lookupProp key props.
Proof.
  induction props as [|[k' v'] props IH]; cbn [JsValue.setProp JsValue.lookupProp].
  - reflexivity.
  - destruct (String.eqb_spec k' k) as [->|Hne]; cbn [JsValue.lookupProp].
    + destruct (String.eqb k key); reflexivity.
    + rewrite IH. destruct (String.eqb_spec k' key) as [->|Hne'].
      * destruct (String.eqb_spec k key) as [->|_]; [congruence | reflexivity].
      * reflexivity.
Qed.

Lemma lookupProp_assign (key k : string) (v : value) (props : list (string * value)) :
  JsValue.lookupProp key (JsValue.assign k v props)
  = if String.eqb k "__proto__" then JsValue.lookupProp key props
    else if String.eqb k key then v else JsValue.lookupProp key props.
Proof.
  unfold JsValue.assign. destruct (String.eqb k "__proto__"); [reflexivity|].
  apply lookupProp_setProp.
Qed.

(** The own keys of a record come from the assignments made to it. *)
Lemma keys_setProp (k : string) (v : value) (props : list (string * value)) (key : string) :
  In key (List.map fst (JsValue.setProp k v props)) <-> key = k \/ In key (List.map fst props).
Proof.
  induction props as [|[k' v'] props IH]; cbn [JsValue.setProp List.map fst In].
  - intuition congruence.
  - destruct (String.eqb_spec k' k) as [->|Hne]; cbn [List.map fst In].
    + intuition congruence.
    + rewrite IH. intuition congruence.
Qed.

Lemma keys_assign (k : string) (v : value) (props : list (string * value)) (key : string) :
  In key (List.map fst (JsValue.assign k v props))
  <-> (key = k /\ k <> "__proto__") \/ In key (List.map fst props).
Proof.
  unfold JsValue.assign. destruct (String.eqb_spec k "__proto__") as [->|Hne].
  - intuition congruence.
  - rewrite keys_setProp. intuition congruence.
Qed.

Lemma lookupProp_assignments (key : string) (pairs : list (string * string))
  (acc : list (string * value)) :
  JsValue.lookupProp key
    (fold_left (fun obj kv => JsValue.assign kv.1 (JStr kv.2) obj) pairs acc)
  = if String.eqb key "__proto__" then JsValue.lookupProp key acc
    else match lastValue key pairs with
         | Some v => JStr v
         | None => JsValue.lookupProp key acc
         end.
Proof.
  revert acc. induction pairs as [|[k v] pairs IH]; intros acc; cbn [fold_left lastValue].
  - destruct (String.eqb key "__proto__"); reflexivity.
  - rewrite IH. cbn [fst snd]. rewrite lookupProp_assign.
    destruct (String.eqb_spec key "__proto__") as [->|Hkey].
    + destruct (String.eqb_spec k "__proto__") as [->|Hk]; [reflexivity|].
      destruct (String.eqb_spec k "__proto__"); [congruence | reflexivity].
    + destruct (lastValue key pairs); [reflexivity|].
      destruct (String.eqb_spec k "__proto__") as [->|Hk].
      * destruct (String.eqb_spec "__proto__" key); [congruence | reflexivity].
      * destruct (String.eqb k key); reflexivity.
Qed.

Lemma keys_assignments (key : string) (pairs : list (string * string)) :
  In key (List.map fst
            (fold_left (fun obj kv => JsValue.assign kv.1 (JStr kv.2) obj) pairs []))
  -> key <> "__proto__" /\ exists v, In (key, v) pairs.
Proof.
  assert (Hgen : forall acc,
             In key (List.map fst
                       (fold_left (fun obj kv => JsValue.assign kv.1 (JStr kv.2) obj) pairs acc))
             -> In key (List.map fst acc)
                \/ (key <> "__proto__" /\ exists v, In (key, v) pairs)).
  { induction pairs as [|[k v] pairs IH]; intros acc; cbn [fold_left]; [auto|].
    intros Hin. apply IH in Hin. cbn [fst snd] in Hin.
    destruct Hin as [Hin | (Hkey & w & Hw)].
    - apply keys_assign in Hin. destruct Hin as [[-> Hk] | Hin]; [|auto].
      right. split; [exact Hk|]. exists v. left. reflexivity.
    - right. split; [exact Hkey|]. exists w. right. exact Hw. }
  intros Hin. destruct (Hgen [] Hin) as [[] | H]. exact H.
Qed.

Lemma parseKeyValue_pairs (line : string) :
  parseKeyValue line
  = JObj (fold_left (fun obj kv => JsValue.assign kv.1 (JStr kv.2) obj) (pairsOf line) []).
Proof.
  unfold parseKeyValue, pairsOf. f_equal. generalize (@nil (string * value)).
  induction (JsString.split "," line) as [|fragment rest IH]; intros acc;
    cbn [fold_left omap list_omap].
  - reflexivity.
  - rewrite IH. unfold pairOf at 2.
    destruct (JsString.split ":" fragment) as [|k [|v more]]; cbn [List.map];
      try reflexivity.
    destruct (JsString.isEmpty (JsString.trim k)), (JsString.isEmpty (JsString.trim v));
      reflexivity.
Qed.

Lemma trim_padding_only (pad : list string) :
  padding pad -> JsString.trim (joined pad) = EmptyString.
Proof.
  intros Hpad. unfold JsString.trim.
  assert (Hstart : JsString.trimStart (joined pad) = EmptyString).
  { induction Hpad as [|w pad Hw _ IH]; [reflexivity|].
    cbn [joined fold_right]. fold (joined pad). rewrite trimStart_white_space by exact Hw.
    exact IH. }
  rewrite Hstart. reflexivity.
Qed.

(** C8.  Every non-blank line of a txt body is first given to
    [JSON.parse], whose value is kept when it succeeds.  When it fails the
    line is split on commas; each fragment is split on colons and its
    first two pieces, trimmed, are the key and the value; a fragment with
    no colon, an empty key or an empty value is dropped.  Trimming removes
    the white space of ECMAScript on both sides (the twenty-five code
    points listed, U+00A0 among them) and keeps what stands between, a
    text that neither starts nor ends with such a character; a line of
    white space only is blank.  The record built has, for each key
    other than [__proto__], the value of the last fragment that names it,
    and no other property of its own: a fragment whose key is [__proto__]
    has both sides and is lost all the same, because the assignment
    [obj[key] = value] meets the inherited accessor.  The line
    [name:Bob,age:30] gives [{name: "Bob", age: "30"}], and
    [{"name":"Bob"}] is decoded as JSON to [{name: "Bob"}].
    [fetchTxtData] hands [parseData] the array of these records, one per
    non-blank line. *)
Theorem txt_line_grammar (line : string) :
  (forall v : value, Json.parse line = Some v -> parseTxtLine line = v)
  /\ (Json.parse line = None ->
      exists props : list (string * value),
        parseTxtLine line = JObj props
        /\ (forall key : string, JsValue.lookupProp key props = fieldOf key (pairsOf line))
        /\ (forall key : string,
              In key (List.map fst props) ->
              key <> "__proto__" /\ exists val, In (key, val) (pairsOf line)))
  /\ (forall fragment key val : string,
        pairOf fragment = Some (key, val)
        <-> exists k v more,
            JsString.split ":" fragment = k :: v :: more
            /\ key = JsString.trim k /\ val = JsString.trim v
            /\ key <> EmptyString /\ val <> EmptyString)
  /\ (forall (before after : list string) (core : string),
        padding before -> padding after -> bare core ->
        JsString.trim (joined before ++ core ++ joined after) = core
        /\ nonBlank (joined before ++ core ++ joined after)
           = negb (String.eqb core EmptyString))
  /\ (forall pad : list string, padding pad -> nonBlank (joined pad) = false)
  /\ JsString.whiteSpace
     = List.map (fun codePoint => Json.utf8 codePoint EmptyString)
         [9; 10; 11; 12; 13; 32; 160; 5760;
          8192; 8193; 8194; 8195; 8196; 8197; 8198; 8199; 8200; 8201; 8202;
          8232; 8233; 8239; 8287; 12288; 65279]%N
  /\ parseTxtLine "name:Bob,age:30" = JObj [("name", JStr "Bob"); ("age", JStr "30")]
  /\ Json.parse bobLine = Some (JObj [("name", JStr "Bob")])
  /\ parseTxtLine bobLine = JObj [("name", JStr "Bob")]
  /\ (pairOf "__proto__:x" = Some ("__proto__", "x")
      /\ Json.parse "__proto__:x,name:Bob" = None
      /\ parseTxtLine "__proto__:x,name:Bob" = JObj [("name", JStr "Bob")])
  /\ parseTxt (nbsp ++ "name" ++ nbsp ++ ":" ++ nbsp ++ "Bob" ++ nbsp
               ++ String JsString.newline nbsp
               ++ String JsString.newline "age:30")
     = JArr [JObj [("name", JStr "Bob")]; JObj [("age", JStr "30")]]
  /\ (forall (env : Env) (self : Fetcher) (isServer : bool) (s : State) (r : Response)
             (text : string),
        cached FTxt self isServer s = None ->
        outcome (upcoming s 0) = Some r -> ok r = true -> body r = Some text ->
        (fetchTxtData env self isServer s).1
        = match parseData self
                  (JArr (List.map parseTxtLine
                           (List.filter nonBlank (JsString.split JsString.newline text))))
          with
          | Resolved d => Resolved (onlyData d)
          | Rejected e => Rejected e
          end).
Proof.
  split; [|split; [|split; [|split; [|split; [|split; [|split; [|split; [|split;
    [|split; [|split]]]]]]]]]].
  - intros v Hv. unfold parseTxtLine. rewrite Hv. reflexivity.
  - intros Hnone. unfold parseTxtLine. rewrite Hnone, parseKeyValue_pairs.
    eexists. split; [reflexivity|]. split.
    + intros key. rewrite lookupProp_assignments.
      unfold fieldOf. destruct (lastValue key (pairsOf line)); reflexivity.
    + intros key. apply keys_assignments.
  - intros fragment key val. unfold pairOf.
    destruct (JsString.split ":" fragment) as [|k [|v more]].
    + split; [discriminate | intros (k' & v' & more' & H & _); discriminate].
    + split; [discriminate | intros (k' & v' & more' & H & _); discriminate].
    + destruct (JsString.trim k) as [|a tk] eqn:Hk; cbn [JsString.isEmpty orb].
      * split; [discriminate|]. intros (k' & v' & more' & H & -> & _ & Hne & _).
        injection H as <- <- <-. congruence.
      * destruct (JsString.trim v) as [|b tv] eqn:Hv; cbn [JsString.isEmpty].
        -- split; [discriminate|]. intros (k' & v' & more' & H & _ & -> & _ & Hne).
           injection H as <- <- <-. congruence.
        -- split.
           ++ intros H. injection H as <- <-. exists k, v, more.
              rewrite Hk, Hv. repeat split; discriminate.
           ++ intros (k' & v' & more' & H & -> & -> & _). injection H as <- <- <-.
              rewrite Hk, Hv. reflexivity.
  - intros before after core Hbefore Hafter Hcore.
    pose proof (trim_strips_padding before after core Hbefore Hafter Hcore) as Htrim.
    split; [exact Htrim|]. unfold nonBlank. rewrite Htrim. destruct core; reflexivity.
  - intros pad Hpad. unfold nonBlank. rewrite (trim_padding_only pad Hpad). reflexivity.
  - vm_compute. reflexivity.
  - vm_compute. reflexivity.
  - vm_compute. reflexivity.
  - vm_compute. reflexivity.
  - repeat split; vm_compute; reflexivity.
  - vm_compute. reflexivity.
  - intros env self isServer s r text Hmiss Hr Hok Hbody.
    rewrite (plain_miss FTxt env self isServer s Hmiss : fetchTxtData env self isServer s = _).
    cbn zeta. unfold delivered. rewrite Hr, Hok, Hbody. unfold withTotals, parseTxt.
    match goal with
    | |- context [parseData ?who ?j] => destruct (parseData who j); reflexivity
    end.
Qed.

Lemma txt_line_grammar_witness :
  (exists props : list (string * value),
      parseTxtLine "__proto__:x,name:Bob" = JObj props
      /\ JsValue.lookupProp "name" props = JStr "Bob"
      /\ ~ In "__proto__" (List.map fst props))
  /\ JsString.trim (nbsp ++ "Bob" ++ " ") = "Bob".
Proof.
  destruct (txt_line_grammar "__proto__:x,name:Bob") as (_ & Hfallback & _ & Htrim & _).
  split.
  - destruct (Hfallback eq_refl) as (props & Hline & Hfield & Hkeys).
    exists props. split; [exact Hline|]. split; [rewrite Hfield; reflexivity|].
    intros Hin. destruct (Hkeys _ Hin) as [Hne _]. apply Hne. reflexivity.
  - destruct (Htrim [nbsp] [" "] "Bob") as [Hcore _]; [| | | exact Hcore].
    + unfold padding, nbsp, JsString.whiteSpace. repeat constructor; cbn; tauto.
    + unfold padding, JsString.whiteSpace. repeat constructor; cbn; tauto.
    + split.
      * intros w rest Hin Hw. each_white_space Hin; discriminate Hw.
      * intros w init Hin Hw. each_white_space Hin;
          repeat (destruct init as [|? init]; try discriminate Hw).
Defined.

(** ** The realtime bus *)

Lemma emitTo_all_return (todo : list Realtime.Callback) (event : Realtime.DataChangeEvent)
  (b : Realtime.Bus) :
  Forall (Realtime.returns event) todo ->
  Realtime.emitTo todo event b
  = (Resolved tt,
     {| Realtime.listeners := Realtime.listeners b;
        Realtime.sseClients := Realtime.sseClients b;
        Realtime.isServerSide := Realtime.isServerSide b;
        Realtime.nextObj := Realtime.nextObj b;
        Realtime.called :=
          (Realtime.called b ++ List.map (fun cb => (Realtime.fn cb, event)) todo)%list;
        Realtime.pushed := Realtime.pushed b |}).
Proof.
  revert b. induction todo as [|cb todo IH]; intros b Hall; cbn [Realtime.emitTo List.map].
  - rewrite app_nil_r. destruct b; reflexivity.
  - apply Forall_cons in Hall. destruct Hall as [Hcb Hall].
    unfold Realtime.returns in Hcb. rewrite Hcb, (IH _ Hall). cbn.
    rewrite <- app_assoc. reflexivity.
Qed.

Lemma emitTo_first_throw (before after : list Realtime.Callback) (cb : Realtime.Callback)
  (e : Exn) (event : Realtime.DataChangeEvent) (b : Realtime.Bus) :
  Forall (Realtime.returns event) before ->
  Realtime.run cb event = Some e ->
  Realtime.emitTo (before ++ cb :: after) event b
  = (Rejected e,
     {| Realtime.listeners := Realtime.listeners b;
        Realtime.sseClients := Realtime.sseClients b;
        Realtime.isServerSide := Realtime.isServerSide b;
        Realtime.nextObj := Realtime.nextObj b;
        Realtime.called :=
          (Realtime.called b
           ++ List.map (fun c => (Realtime.fn c, event)) (before ++ [cb]))%list;
        Realtime.pushed := Realtime.pushed b |}).
Proof.
  revert b. induction before as [|c before IH]; intros b Hall Hcb.
  - cbn. rewrite Hcb. reflexivity.
  - apply Forall_cons in Hall. destruct Hall as [Hc Hall].
    cbn [app Realtime.emitTo]. unfold Realtime.returns in Hc. rewrite Hc, (IH _ Hall Hcb).
    cbn. rewrite <- app_assoc. reflexivity.
Qed.

Lemma sendTo_effect (payload : string) (todo : list Realtime.SseClient) (b : Realtime.Bus) :
  Realtime.sendTo todo payload b
  = {| Realtime.listeners := Realtime.listeners b;
       Realtime.sseClients :=
         List.filter
           (fun c => negb (existsb (Nat.eqb (Realtime.obj c)) (failing payload todo)))
           (Realtime.sseClients b);
       Realtime.isServerSide := Realtime.isServerSide b;
       Realtime.nextObj := Realtime.nextObj b;
       Realtime.called := Realtime.called b;
       Realtime.pushed :=
         (Realtime.pushed b ++ List.map (fun c => (Realtime.obj c, payload)) todo)%list |}.
Proof.
  revert b. induction todo as [|client todo IH]; intros b.
  - cbn. rewrite app_nil_r.
    assert (Hall : List.filter (fun _ : Realtime.SseClient => true) (Realtime.sseClients b)
                   = Realtime.sseClients b).
    { induction (Realtime.sseClients b) as [|c cs IHcs]; cbn; [|rewrite IHcs]; reflexivity. }
    rewrite Hall. destruct b; reflexivity.
  - cbn [Realtime.sendTo]. unfold failing. cbn [List.filter].
    destruct (Realtime.send client payload) as [e|]; rewrite IH; cbn; f_equal.
    + clear IH. induction (Realtime.sseClients b) as [|c cs IHcs]; cbn; [reflexivity|].
      fold (failing payload todo). fold (failing payload todo) in IHcs.
      destruct (Nat.eqb (Realtime.obj c) (Realtime.obj client)); cbn; [exact IHcs|].
      destruct (existsb (Nat.eqb (Realtime.obj c)) (failing payload todo)); cbn;
        rewrite IHcs; reflexivity.
    + rewrite <- app_assoc. reflexivity.
    + rewrite <- app_assoc. reflexivity.
Qed.

Lemma same_object_same_client (cs : list Realtime.SseClient) (c t : Realtime.SseClient) :
  NoDup (List.map Realtime.obj cs) -> In c cs -> In t cs ->
  Realtime.obj t = Realtime.obj c -> t = c.
Proof.
  induction cs as [|x cs IH]; cbn; intros Hnd Hc Ht Heq; [contradiction|].
  apply NoDup_cons in Hnd. destruct Hnd as [Hx Hnd].
  destruct Hc as [-> | Hc], Ht as [-> | Ht]; [reflexivity | | | auto].
  - exfalso. apply Hx. rewrite <- Heq. apply list_elem_of_In, in_map, Ht.
  - exfalso. apply Hx. rewrite Heq. apply list_elem_of_In, in_map, Hc.
Qed.

Lemma failing_clients_go (payload : string) (cs : list Realtime.SseClient) :
  NoDup (List.map Realtime.obj cs) ->
  List.filter (fun c => negb (existsb (Nat.eqb (Realtime.obj c)) (failing payload cs))) cs
  = Realtime.accepting payload cs.
Proof.
  intros Hnd. unfold Realtime.accepting. apply filter_ext_in. intros c Hc.
  destruct (Realtime.send c payload) as [e|] eqn:Hsend.
  - apply negb_false_iff, existsb_exists. exists (Realtime.obj c).
    split; [|apply Nat.eqb_refl]. unfold failing. apply in_map, filter_In.
    rewrite Hsend. auto.
  - apply negb_true_iff. destruct (existsb _ _) eqn:Hex; [|reflexivity].
    apply existsb_exists in Hex. destruct Hex as (o & Ho & Heq).
    apply Nat.eqb_eq in Heq. unfold failing in Ho. apply in_map_iff in Ho.
    destruct Ho as (t & Hobj & Ht). apply filter_In in Ht. destruct Ht as [Ht Hfail].
    assert (t = c) by (eapply same_object_same_client; eauto; congruence).
    subst t. rewrite Hsend in Hfail. discriminate.
Qed.

(** The client set never holds the same object twice: it starts empty and
    [registerSSEClient] adds a newly made object each time. *)
Lemma clients_stay_distinct (b : Realtime.Bus) (i : string) (snd : string -> option Exn) :
  (wellNumbered (Realtime.create (Realtime.isServerSide b))
   /\ Realtime.distinctClients (Realtime.create (Realtime.isServerSide b)))
  /\ (wellNumbered b -> Realtime.distinctClients b ->
      wellNumbered (Realtime.registerSSEClient i snd b)
      /\ Realtime.distinctClients (Realtime.registerSSEClient i snd b)).
Proof.
  unfold wellNumbered, Realtime.distinctClients. split.
  - split; constructor.
  - intros Hwn Hnd. cbn. split.
    + apply Forall_app. split.
      * eapply Forall_impl; [exact Hwn|]. cbn. intros c Hc. lia.
      * repeat constructor.
    + rewrite map_app. cbn. apply NoDup_app. split; [exact Hnd|]. split.
      * intros o Ho Hin. apply list_elem_of_In in Hin. cbn in Hin.
        destruct Hin as [<- | []]. apply list_elem_of_In, in_map_iff in Ho.
        destruct Ho as (c & Hobj & Hc). rewrite Forall_forall in Hwn.
        apply list_elem_of_In in Hc. specialize (Hwn c Hc). cbn in Hwn. lia.
      * apply NoDup_singleton.
Qed.

Lemma listenersOf_subscribe (name id : string) (cb : Realtime.Callback) (b : Realtime.Bus) :
  Realtime.listenersOf name (Realtime.subscribe id cb b)
  = (Realtime.listenersOf name b
     ++ if String.eqb (Realtime.eventName id) name then [cb] else [])%list.
Proof.
  unfold Realtime.listenersOf, Realtime.subscribe. cbn [Realtime.listeners].
  rewrite List.filter_app, fmap_app. cbn.
  destruct (String.eqb (Realtime.eventName id) name); reflexivity.
Qed.

(** C7 (as amended).  [publish(event)] calls the callbacks subscribed to
    the channel of [event.componentId] on the caller's stack, in the order
    they were subscribed.  With no subscriber nothing is called; no error
    is raised then, unless the bus is server-side and serializing the
    event throws.  When every callback returns, all of them have been
    called, in order.  Outside a server context [publish] then returns and
    nothing is sent.  In a server context the event is then serialized:
    when that gives a text, the text has been sent once to every
    registered client, in order, the clients whose [send] threw are gone
    from the client set while the others stay, and [publish] returns; when
    [JSON.stringify] throws, [publish] ends with its exception, nothing is
    sent and the client set is as before.  A callback that throws ends
    [publish] with its exception: the callbacks subscribed after it are not
    called, the event is not serialized and nothing is sent. *)
Theorem publish_notifies_in_order (stringify : Realtime.DataChangeEvent -> Result string)
  (event : Realtime.DataChangeEvent) (b : Realtime.Bus) :
  let subs := Realtime.listenersOf (Realtime.eventName (Realtime.ev_componentId event)) b in
  let out := Realtime.publish stringify event b in
  let calls (cbs : list Realtime.Callback) :=
    List.map (fun cb => (Realtime.fn cb, event)) cbs in
  (forall (name id : string) (cb : Realtime.Callback),
      Realtime.listenersOf name (Realtime.subscribe id cb b)
      = (Realtime.listenersOf name b
         ++ if String.eqb (Realtime.eventName id) name then [cb] else [])%list)
  /\ (subs = [] ->
      Realtime.called out.2 = Realtime.called b
      /\ (Realtime.isServerSide b = false -> out.1 = Resolved tt)
      /\ (forall payload, stringify event = Resolved payload -> out.1 = Resolved tt)
      /\ (forall e, Realtime.isServerSide b = true -> stringify event = Rejected e ->
                    out.1 = Rejected e))
  /\ (Forall (Realtime.returns event) subs ->
      Realtime.called out.2 = (Realtime.called b ++ calls subs)%list
      /\ Realtime.listeners out.2 = Realtime.listeners b
      /\ (forall payload : string,
            Realtime.isServerSide b = true -> stringify event = Resolved payload ->
            out.1 = Resolved tt
            /\ Realtime.pushed out.2
               = (Realtime.pushed b
                  ++ List.map (fun c => (Realtime.obj c, payload)) (Realtime.sseClients b))%list
            /\ (Realtime.distinctClients b ->
                Realtime.sseClients out.2 = Realtime.accepting payload (Realtime.sseClients b)))
      /\ (forall e : Exn,
            Realtime.isServerSide b = true -> stringify event = Rejected e ->
            out.1 = Rejected e
            /\ Realtime.pushed out.2 = Realtime.pushed b
            /\ Realtime.sseClients out.2 = Realtime.sseClients b)
      /\ (Realtime.isServerSide b = false ->
          out.1 = Resolved tt
          /\ Realtime.pushed out.2 = Realtime.pushed b
          /\ Realtime.sseClients out.2 = Realtime.sseClients b))
  /\ (forall (before after : list Realtime.Callback) (cb : Realtime.Callback) (e : Exn),
        subs = (before ++ cb :: after)%list ->
        Forall (Realtime.returns event) before ->
        Realtime.run cb event = Some e ->
        out.1 = Rejected e
        /\ Realtime.called out.2 = (Realtime.called b ++ calls (before ++ [cb]))%list
        /\ Realtime.pushed out.2 = Realtime.pushed b
        /\ Realtime.sseClients out.2 = Realtime.sseClients b).
Proof.
  cbn zeta. split; [|split; [|split]].
  - intros name id cb. apply listenersOf_subscribe.
  - intros Hnone. unfold Realtime.publish, Realtime.emit. rewrite Hnone.
    cbn [Realtime.emitTo]. unfold Realtime.broadcastToSSEClients.
    split; [|split; [|split]].
    + destruct (Realtime.isServerSide b); [|reflexivity].
      destruct (stringify event); [rewrite sendTo_effect|]; reflexivity.
    + intros ->. reflexivity.
    + intros payload ->. destruct (Realtime.isServerSide b); reflexivity.
    + intros e -> ->. reflexivity.
  - intros Hall. unfold Realtime.publish, Realtime.emit.
    rewrite (emitTo_all_return _ _ _ Hall). cbn [Realtime.isServerSide].
    unfold Realtime.broadcastToSSEClients. cbn [Realtime.sseClients].
    split; [|split; [|split; [|split]]].
    + destruct (Realtime.isServerSide b); [|reflexivity].
      destruct (stringify event); [rewrite sendTo_effect|]; reflexivity.
    + destruct (Realtime.isServerSide b); [|reflexivity].
      destruct (stringify event); [rewrite sendTo_effect|]; reflexivity.
    + intros payload -> ->. rewrite sendTo_effect. cbn.
      split; [reflexivity|]. split; [reflexivity|].
      intros Hdistinct. apply failing_clients_go, Hdistinct.
    + intros e -> ->. repeat split.
    + intros ->. repeat split.
  - intros before after cb e Hsubs Hbefore Hcb. unfold Realtime.publish, Realtime.emit.
    rewrite Hsubs, (emitTo_first_throw before after cb e event b Hbefore Hcb).
    repeat split.
Qed.

Lemma publish_notifies_in_order_witness :
  (Realtime.publish nameOnly refreshX twoAndTwo).1 = Resolved tt
  /\ Realtime.called (Realtime.publish nameOnly refreshX twoAndTwo).2
     = [(1%nat, refreshX); (2%nat, refreshX)]
  /\ List.map Realtime.id (Realtime.sseClients (Realtime.publish nameOnly refreshX twoAndTwo).2)
     = ["a"]
  /\ (Realtime.publish unserializable refreshX twoAndTwo).1
     = Rejected (TypeError "Do not know how to serialize a BigInt")
  /\ Realtime.pushed (Realtime.publish unserializable refreshX twoAndTwo).2 = [].
Proof.
  destruct (publish_notifies_in_order nameOnly refreshX twoAndTwo) as (_ & _ & Hall & _).
  destruct (publish_notifies_in_order unserializable refreshX twoAndTwo) as (_ & _ & Hbad & _).
  destruct Hall as (Hcalled & _ & Hserver & _); [repeat constructor|].
  destruct Hbad as (_ & _ & _ & Hthrows & _); [repeat constructor|].
  destruct (Hserver "x" eq_refl eq_refl) as (Hres & _ & Hclients).
  destruct (Hthrows _ eq_refl eq_refl) as (Hraised & Hpushed & _).
  split; [exact Hres|]. split; [exact Hcalled|]. split.
  - rewrite Hclients; [reflexivity|].
    unfold Realtime.distinctClients.
    change (NoDup [0%nat; 1%nat]).
    repeat constructor; intros H; apply list_elem_of_In in H; cbn in H; intuition discriminate.
  - split; [exact Hraised | exact Hpushed].
Defined.

(** C7, as first stated, with two callbacks on the channel, the first of
    which throws: the second is never called, [publish] ends with the
    exception, and nothing is sent although the bus is server-side. *)
Lemma publish_stops_at_throwing_callback :
  Realtime.listenersOf (Realtime.eventName "x") throwingFirst = [thrower 1; quiet 2]
  /\ (Realtime.publish nameOnly refreshX throwingFirst).1 = Rejected (Error "listener failed")
  /\ Realtime.called (Realtime.publish nameOnly refreshX throwingFirst).2 = [(1%nat, refreshX)]
  /\ Realtime.isServerSide throwingFirst = true.
Proof. repeat split. Qed.

(** * Further properties of the code *)

(** ** Numbers in template literals *)

Lemma digit_char (d : N) :
  (d < 10)%N ->
  JsString.isDigit (ascii_of_N (48 + d)) = true
  /\ JsString.digitVal (ascii_of_N (48 + d)) = Z.of_N d
  /\ ~ opens (ascii_of_N (48 + d)).
Proof.
  intros Hd. split; [|split].
  - unfold JsString.isDigit, JsString.code. rewrite N_ascii_embedding by lia.
    apply andb_true_iff. split; apply N.leb_le; lia.
  - unfold JsString.digitVal, JsString.code. rewrite N_ascii_embedding by lia. lia.
  - assert (Hcases : (d = 0 \/ d = 1 \/ d = 2 \/ d = 3 \/ d = 4 \/ d = 5 \/ d = 6
                      \/ d = 7 \/ d = 8 \/ d = 9)%N) by lia.
    intros (w & tail & Hin & Hw).
    destruct Hcases as [-> | [-> | [-> | [-> | [-> | [-> | [-> | [-> | [-> | ->]]]]]]]]];
      each_white_space Hin; discriminate Hw.
Qed.

Lemma minus_opens_nothing : ~ opens "-".
Proof. intros (w & tail & Hin & Hw). each_white_space Hin; discriminate Hw. Qed.

Lemma digitsOf_step (f : nat) (n : N) (acc : string) :
  JsString.digitsOf (S f) n acc
  = if (n <? 10)%N then String (ascii_of_N (48 + n mod 10)) acc
    else JsString.digitsOf f (n / 10) (String (ascii_of_N (48 + n mod 10)) acc).
Proof. reflexivity. Qed.

Lemma readDigits_digitsOf (f : nat) (n : N) (rest : string) (a : Z) (c : nat) :
  (n < 2 ^ N.of_nat (S f))%N ->
  exists k : nat,
    JsString.readDigits a c (JsString.digitsOf (S f) n rest)
    = JsString.readDigits (a * 10 ^ Z.of_nat (S k) + Z.of_N n) (c + S k) rest.
Proof.
  revert n rest a c. induction f as [|f IH]; intros n rest a c Hn.
  - assert (Hlt : (n < 10)%N) by (cbn in Hn; lia).
    exists 0%nat. rewrite digitsOf_step, (proj2 (N.ltb_lt n 10) Hlt).
    rewrite N.mod_small by exact Hlt. cbn [JsString.readDigits].
    destruct (digit_char n Hlt) as (-> & -> & _).
    replace (c + 1)%nat with (S c) by lia. f_equal. lia.
  - rewrite digitsOf_step. destruct (N.ltb_spec n 10) as [Hlt|Hge].
    + exists 0%nat. rewrite N.mod_small by exact Hlt. cbn [JsString.readDigits].
      destruct (digit_char n Hlt) as (-> & -> & _).
      replace (c + 1)%nat with (S c) by lia. f_equal. lia.
    + assert (Hq : (n / 10 < 2 ^ N.of_nat (S f))%N).
      { apply N.Div0.div_lt_upper_bound.
        replace (N.of_nat (S (S f))) with (N.succ (N.of_nat (S f))) in Hn by lia.
        rewrite N.pow_succ_r' in Hn. lia. }
      destruct (IH (n / 10)%N
                  (String (ascii_of_N (48 + n mod 10)) rest) a c Hq) as (k & Hk).
      exists (S k). rewrite Hk. cbn [JsString.readDigits].
      assert (Hr : (n mod 10 < 10)%N) by (apply N.mod_upper_bound; lia).
      destruct (digit_char _ Hr) as (-> & -> & _).
      pose proof (N.div_mod n 10 ltac:(lia)) as Hdm.
      revert Hr Hdm. generalize (n mod 10)%N (n / 10)%N. intros r q Hr Hdm.
      replace (S (c + S k)) with (c + S (S k))%nat by lia. f_equal.
      rewrite (Nat2Z.inj_succ (S k)), Z.pow_succ_r by lia. subst n.
      generalize (10 ^ Z.of_nat (S k)). intros x. lia.
Qed.

Lemma digitsOf_head (f : nat) (n : N) (rest : string) :
  exists (d : N) (tail : string),
    (d < 10)%N /\ JsString.digitsOf (S f) n rest = String (ascii_of_N (48 + d)) tail.
Proof.
  revert n rest. induction f as [|f IH]; intros n rest; rewrite digitsOf_step.
  - assert (Hr : (n mod 10 < 10)%N) by (apply N.mod_upper_bound; lia).
    destruct (n <? 10)%N; eauto.
  - assert (Hr : (n mod 10 < 10)%N) by (apply N.mod_upper_bound; lia).
    destruct (n <? 10)%N; [eauto|]. apply IH.
Qed.

Lemma ofN_fuel (n : N) : (n < 2 ^ N.of_nat (S (N.to_nat (N.log2 n))))%N.
Proof.
  replace (N.of_nat (S (N.to_nat (N.log2 n)))) with (N.succ (N.log2 n)) by lia.
  destruct (N.eq_dec n 0%N) as [->|Hn]; [cbn; lia|].
  apply N.log2_spec. lia.
Qed.

Lemma append_empty_l (s : string) : EmptyString ++ s = s.
Proof. reflexivity. Qed.

Lemma append_cons (c : ascii) (a s : string) : String c a ++ s = String c (a ++ s).
Proof. reflexivity. Qed.

Lemma digitsOf_append (f : nat) (n : N) (acc rest : string) :
  JsString.digitsOf f n acc ++ rest = JsString.digitsOf f n (acc ++ rest).
Proof.
  revert n acc. induction f as [|f IH]; intros n acc; [reflexivity|].
  rewrite !digitsOf_step. destruct (n <? 10)%N; [reflexivity|]. rewrite IH. reflexivity.
Qed.

Lemma readDigits_stops (a : Z) (c : nat) (rest : string) :
  stopsDigits rest -> JsString.readDigits a c rest = (a, c, rest).
Proof. destruct rest as [|x rest]; cbn; [reflexivity | intros ->; reflexivity]. Qed.

Lemma readDigits_ofN (n : N) (rest : string) :
  stopsDigits rest ->
  exists k : nat,
    JsString.readDigits 0 0 (JsString.ofN n ++ rest) = (Z.of_N n, S k, rest).
Proof.
  intros Hrest. unfold JsString.ofN. rewrite digitsOf_append, append_empty_l.
  destruct (readDigits_digitsOf (N.to_nat (N.log2 n)) n rest 0 0 (ofN_fuel n))
    as (k & Hk).
  exists k. rewrite Hk, (readDigits_stops _ _ _ Hrest). cbn [Nat.add].
  f_equal; f_equal; lia.
Qed.

Lemma ofN_head (n : N) :
  exists (d : N) (tail : string),
    (d < 10)%N /\ JsString.ofN n = String (ascii_of_N (48 + d)) tail.
Proof. apply digitsOf_head. Qed.

Lemma digit_is_no_sign (d : N) (tail : string) (A : Type) (x y z : A) :
  (d < 10)%N ->
  match String (ascii_of_N (48 + d)) tail with
  | String "-" _ => x
  | String "+" _ => y
  | _ => z
  end = z.
Proof.
  intros Hd.
  assert (Hcases : (d = 0 \/ d = 1 \/ d = 2 \/ d = 3 \/ d = 4 \/ d = 5 \/ d = 6
                    \/ d = 7 \/ d = 8 \/ d = 9)%N) by lia.
  destruct Hcases as [-> | [-> | [-> | [-> | [-> | [-> | [-> | [-> | [-> | ->]]]]]]]]];
    reflexivity.
Qed.

Lemma parseInt_ofZ_then (z : Z) (rest : string) :
  stopsDigits rest -> JsString.parseInt (JsString.ofZ z ++ rest) = Some z.
Proof.
  intros Hrest. unfold JsString.ofZ. destruct (Z.ltb_spec z 0) as [Hneg|Hpos].
  - unfold JsString.parseInt. rewrite append_cons.
    rewrite (trimStart_not_opened _ _ minus_opens_nothing).
    destruct (readDigits_ofN (Z.to_N (- z)) rest Hrest) as (k & ->). f_equal. lia.
  - destruct (ofN_head (Z.to_N z)) as (d & tail & Hd & Hhead).
    destruct (readDigits_ofN (Z.to_N z) rest Hrest) as (k & Hk).
    unfold JsString.parseInt. rewrite Hhead in *. rewrite append_cons in *.
    destruct (digit_char d Hd) as (_ & _ & Hplain).
    rewrite (trimStart_not_opened _ _ Hplain).
    rewrite (digit_is_no_sign d (tail ++ rest) _ (true, tail ++ rest) (false, tail ++ rest)
               (false, String (ascii_of_N (48 + d)) (tail ++ rest)) Hd).
    rewrite Hk. f_equal. lia.
Qed.

Lemma append_empty_r (s : string) : s ++ EmptyString = s.
Proof. induction s as [|c s IH]; [reflexivity | rewrite append_cons, IH; reflexivity]. Qed.

Lemma parseInt_ofZ (z : Z) : JsString.parseInt (JsString.ofZ z) = Some z.
Proof.
  rewrite <- (append_empty_r (JsString.ofZ z)). apply parseInt_ofZ_then. exact I.
Qed.

Lemma ofZ_injective (a b : Z) : JsString.ofZ a = JsString.ofZ b -> a = b.
Proof.
  intros H. pose proof (parseInt_ofZ a) as Ha.
  rewrite H, parseInt_ofZ in Ha. congruence.
Qed.

(** X1.  A safe integer written into a template literal reads back with
    [Number.parseInt(_, 10)] as the same number, so two different safe
    integers are never written the same way: when page and limit are safe
    integers, what [getUrl] writes after [&page=] and [&limit=] is what a
    handler parsing the query obtains, also when more text that starts
    with no digit follows it. *)
Theorem parseInt_reads_back_template_number (z : Z) :
  safeInteger z ->
  JsString.parseInt (JsString.ofZ z) = Some z
  /\ (forall z' : Z, safeInteger z' -> JsString.ofZ z = JsString.ofZ z' -> z = z')
  /\ (forall (c : ascii) (more : string),
        JsString.isDigit c = false ->
        JsString.parseInt (JsString.ofZ z ++ String c more) = Some z).
Proof.
  intros _. split; [apply parseInt_ofZ|]. split; [intros z' _; apply ofZ_injective|].
  intros c more Hc. apply parseInt_ofZ_then. exact Hc.
Qed.

Lemma parseInt_reads_back_template_number_witness :
  JsString.parseInt ("3" ++ "&limit=5") = Some 3.
Proof.
  destruct (parseInt_reads_back_template_number 3) as (_ & _ & Hmore);
    [unfold safeInteger; lia|].
  apply (Hmore "&"%char "limit=5"). reflexivity.
Defined.

(** ** Cache keys *)

Lemma append_cancel_l (a x y : string) : a ++ x = a ++ y -> x = y.
Proof.
  induction a as [|c a IH]; [exact (fun H => H)|].
  rewrite !append_cons. intros H. injection H as H. apply IH, H.
Qed.

(** Two texts free of [_] that are followed by [_] and more: the texts
    and what follows them agree. *)
Lemma split_at_underscore (a b r1 r2 : string) :
  ~ In "_"%char (list_ascii_of_string a) ->
  ~ In "_"%char (list_ascii_of_string b) ->
  a ++ String "_" r1 = b ++ String "_" r2 -> a = b /\ r1 = r2.
Proof.
  revert b. induction a as [|c a IH]; intros [|d b] Ha Hb; rewrite ?append_cons, ?append_empty_l.
  - intros H. injection H as ->. auto.
  - intros H. injection H as <- _. exfalso. apply Hb. left. reflexivity.
  - intros H. injection H as -> _. exfalso. apply Ha. left. reflexivity.
  - intros H. injection H as -> H.
    destruct (IH b) as [-> ->]; auto.
    + intros Hin. apply Ha. right. exact Hin.
    + intros Hin. apply Hb. right. exact Hin.
Qed.

Lemma ofZ_no_underscore (z : Z) : ~ In "_"%char (list_ascii_of_string (JsString.ofZ z)).
Proof.
  intros Hin. apply ofZ_chars in Hin. destruct Hin as [H | H]; [discriminate|].
  cbn in H. lia.
Qed.

(** X2.  Two pagination settings give the same JSON cache key exactly when
    both are disabled, or both are enabled with the same page and the same
    limit: no two pages of one fetcher share a cache entry, and a
    paginated read never shares one with an unpaginated read. *)
Theorem jsonCacheKey_separates_pages (self : Fetcher) (p q : PaginationOptions) :
  jsonCacheKey self p = jsonCacheKey self q
  <-> enabled p = enabled q
      /\ (enabled p = true -> page p = page q /\ limit p = limit q).
Proof.
  unfold jsonCacheKey. split.
  - intros H. apply append_cancel_l, append_cancel_l in H.
    destruct (enabled p), (enabled q); try discriminate.
    + split; [reflexivity|]. intros _.
      change ("_page" ++ JsString.ofZ (page p) ++ "_limit" ++ JsString.ofZ (limit p))
        with ("_page" ++ (JsString.ofZ (page p) ++ String "_" ("limit" ++ JsString.ofZ (limit p))))
        in H.
      change ("_page" ++ JsString.ofZ (page q) ++ "_limit" ++ JsString.ofZ (limit q))
        with ("_page" ++ (JsString.ofZ (page q) ++ String "_" ("limit" ++ JsString.ofZ (limit q))))
        in H.
      apply append_cancel_l in H.
      apply split_at_underscore in H; try apply ofZ_no_underscore.
      destruct H as [Hp Hl]. apply append_cancel_l in Hl.
      split; apply ofZ_injective; assumption.
    + split; [reflexivity | discriminate].
  - intros [He Hpl]. rewrite <- He. destruct (enabled p); [|reflexivity].
    destruct (Hpl eq_refl) as [-> ->]. reflexivity.
Qed.

Lemma jsonCacheKey_separates_pages_witness :
  jsonCacheKey userData (paginated 1 10) <> jsonCacheKey userData (paginated 2 10).
Proof.
  intros H. apply (jsonCacheKey_separates_pages userData) in H.
  destruct H as [_ H]. destruct (H eq_refl) as [Hpage _]. discriminate Hpage.
Defined.

(** X3.  The csv and txt cache keys do not mention the pagination although
    the request URL does: once a csv or txt read has resolved from the
    network, changing the pagination and reading again (client side,
    within the expiry window; server side, at any time) returns the same
    data from the cache and sends no request for the new page. *)
Theorem csv_txt_cache_ignores_pagination (env : Env) (self : Fetcher) (isServer : bool)
  (f : PlainFormat) (s s1 : State) (r : FetchResult) (pg lim : Z) (en : bool) (ms : Z) :
  f <> FJson ->
  cached f self isServer s = None ->
  fetchPlain f env self isServer s = (Resolved r, s1) ->
  (isServer = false -> ms < 300000) ->
  let s2 := (setPagination pg lim en (elapse ms s1)).2 in
  fetchPlain f env self isServer s2 = (Resolved r, s2).
Proof.
  intros Hf Hmiss Hrun Hms. cbn zeta. apply plain_hit.
  rewrite (plain_miss f env self isServer s Hmiss) in Hrun. cbn zeta in Hrun.
  destruct (delivered f self (upcoming s 0)) as [[[d items] pages]|e] eqn:Hd;
    [|discriminate].
  injection Hrun as <- <-.
  assert (Hplain : items = JUndefined /\ pages = JUndefined).
  { unfold delivered in Hd. destruct (outcome (upcoming s 0)); [|discriminate].
    destruct (ok r); [|discriminate]. destruct (body r); [|discriminate].
    destruct f; [congruence| |]; unfold withTotals in Hd;
      match type of Hd with
      | context [parseData ?who ?j] => destruct (parseData who j); [|discriminate]
      end; injection Hd as _ <- <-; auto. }
  destruct Hplain as [-> ->].
  unfold cached. destruct f; [congruence| |]; destruct isServer;
    cbn [plainKey stored withServerEntry withClientEntry setPagination elapse snd
         serverCache clientCache now afterFetch];
    rewrite lookup_insert_eq; try reflexivity.
  all: unfold fresh, cacheExpirationTime; cbn [timestamp];
    specialize (Hms eq_refl);
    match goal with
    | |- context [?a <? ?b] => destruct (Z.ltb_spec a b) as [_|Hge]; [reflexivity | lia]
    end.
Qed.

Lemma csv_txt_cache_ignores_pagination_witness :
  let s1 := (fetchCsvData browserEnv userCsv false csvAhead).2 in
  let s2 := (setPagination 2 10 true (elapse 1000 s1)).2 in
  (fetchCsvData browserEnv userCsv false s2).1
  = Resolved (onlyData [JObj [("id", JStr "1"); ("name", JStr "Alice")]])
  /\ requests (fetchCsvData browserEnv userCsv false s2).2 = requests s1.
Proof.
  cbn zeta.
  assert (Hf : FCsv <> FJson) by discriminate.
  assert (Hmiss : cached FCsv userCsv false csvAhead = None) by reflexivity.
  assert (Hrun : fetchPlain FCsv browserEnv userCsv false csvAhead
                 = (Resolved (onlyData [JObj [("id", JStr "1"); ("name", JStr "Alice")]]),
                    (fetchCsvData browserEnv userCsv false csvAhead).2))
    by (vm_compute; reflexivity).
  pose proof (csv_txt_cache_ignores_pagination browserEnv userCsv false FCsv csvAhead _ _
                2 10 true 1000 Hf Hmiss Hrun ltac:(intros _; lia)) as Hsecond.
  cbn zeta in Hsecond. cbn [fetchPlain] in Hsecond. rewrite Hsecond. split; reflexivity.
Defined.

(** ** Invalidation and what follows it *)

Lemma string_append_assoc (a b c : string) : (a ++ b) ++ c = a ++ b ++ c.
Proof.
  induction a as [|x a IH]; [reflexivity|]. rewrite !append_cons, IH. reflexivity.
Qed.

Lemma substring_of_trans (a b c : string) :
  substring_of a b -> substring_of b c -> substring_of a c.
Proof.
  intros (b1 & a1 & ->) (b2 & a2 & ->). exists (b2 ++ b1), (a1 ++ a2).
  rewrite !string_append_assoc. reflexivity.
Qed.

Lemma includes_trans (key mid sub : string) :
  JsString.includes key mid = true -> JsString.includes mid sub = true ->
  JsString.includes key sub = true.
Proof.
  rewrite !includes_substring. intros H1 H2. eapply substring_of_trans; eassumption.
Qed.

Lemma cacheKeys_contain_id (self : Fetcher) (p : PaginationOptions) (key : string) :
  In key (cacheKeys self p) -> JsString.includes key (componentId self) = true.
Proof.
  intros Hin. apply includes_substring.
  destruct Hin as [<- | [<- | [<- | [<- | []]]]].
  - eexists "json_", _. reflexivity.
  - exists "csv_", EmptyString. unfold csvCacheKey. rewrite append_empty_r. reflexivity.
  - exists "txt_", EmptyString. unfold txtCacheKey. rewrite append_empty_r. reflexivity.
  - exists "api_", EmptyString. unfold apiCacheKey. rewrite append_empty_r. reflexivity.
Qed.

Lemma plainKey_in_cacheKeys (f : PlainFormat) (self : Fetcher) (s : State) :
  In (plainKey f self s) (cacheKeys self (pagination s)).
Proof. destruct f; cbn; auto. Qed.

(** X4.  After [invalidateCache()] no read of this fetcher is served from
    its cache: client side for all four formats, server side as well when
    the code runs where [window] is undefined.  The next json, csv or txt
    read therefore sends a request. *)
Theorem invalidateCache_forces_refetch (env : Env) (self : Fetcher) (isServer : bool)
  (s : State) :
  (isServer = true -> windowUndefined env = true) ->
  let s' := (invalidateCache env self s).2 in
  (forall f : PlainFormat, cached f self isServer s' = None)
  /\ plainCacheHit isServer (apiCacheKey self) s' = None
  /\ (forall f : PlainFormat,
        requests (fetchPlain f env self isServer s').2
        = (requests s ++ [{| req_url := getUrl env self (pagination s) isServer;
                             req_headers := [] |}])%list).
Proof.
  intros Hside. cbn zeta.
  assert (Hgone : forall key,
             In key (cacheKeys self (pagination s)) ->
             (if isServer then serverCache (invalidateCache env self s).2 !! key
              else None) = None
             /\ clientCache (invalidateCache env self s).2 !! key = None).
  { intros key Hin. pose proof (cacheKeys_contain_id self _ key Hin) as Hinc.
    cbn [invalidateCache snd serverCache clientCache]. split.
    - destruct isServer; [|reflexivity]. rewrite (Hside eq_refl).
      rewrite deleteMatching_all_keys, Hinc. reflexivity.
    - rewrite deleteMatching_all_keys, Hinc. reflexivity. }
  assert (Hcached : forall f, cached f self isServer (invalidateCache env self s).2 = None).
  { intros f. unfold cached.
    change (plainKey f self (invalidateCache env self s).2) with (plainKey f self s).
    destruct (Hgone _ (plainKey_in_cacheKeys f self s)) as [Hs Hc].
    destruct isServer; [rewrite Hs | rewrite Hc]; reflexivity. }
  split; [exact Hcached|]. split.
  - unfold plainCacheHit.
    destruct (Hgone (apiCacheKey self)) as [Hs Hc]; [cbn; auto|].
    destruct isServer; [rewrite Hs | rewrite Hc]; reflexivity.
  - intros f. rewrite (plain_miss f env self isServer _ (Hcached f)). cbn zeta.
    destruct (delivered f self _) as [[[d items] pages]|e]; [|reflexivity].
    destruct isServer; reflexivity.
Qed.

Lemma invalidateCache_forces_refetch_witness :
  let warm := (fetchJsonData browserEnv userData false staleJson).2 in
  cached FJson userData false warm
  = Some (onlyData oneItem)
  /\ cached FJson userData false (invalidateCache browserEnv userData warm).2 = None.
Proof.
  cbn zeta. split; [vm_compute; reflexivity|].
  destruct (invalidateCache_forces_refetch browserEnv userData false
              (fetchJsonData browserEnv userData false staleJson).2)
    as (Hcached & _); [discriminate|].
  apply Hcached.
Defined.

(** X5.  The server table is shared, and the match is by substring: when
    [invalidateCache()] runs where [window] is undefined, it also removes
    every server entry of every other fetcher whose componentId contains
    this fetcher's componentId. *)
Theorem invalidateCache_reaches_other_fetchers (env : Env) (self other : Fetcher)
  (p : PaginationOptions) (s : State) (key : string) :
  windowUndefined env = true ->
  JsString.includes (componentId other) (componentId self) = true ->
  In key (cacheKeys other p) ->
  serverCache (invalidateCache env self s).2 !! key = None.
Proof.
  intros Hside Hsub Hin. cbn [invalidateCache snd serverCache]. rewrite Hside.
  rewrite deleteMatching_all_keys.
  rewrite (includes_trans key (componentId other) (componentId self)
             (cacheKeys_contain_id other p key Hin) Hsub).
  reflexivity.
Qed.

Lemma invalidateCache_reaches_other_fetchers_witness :
  serverCache sharedTable !! "csv_UserData" = Some oneItem
  /\ serverCache (invalidateCache nodeEnv userRecords sharedTable).2 !! "csv_UserData" = None
  /\ serverCache (invalidateCache nodeEnv userRecords sharedTable).2 !! "json_Orders"
     = Some oneItem.
Proof.
  split; [reflexivity|]. split; [|vm_compute; reflexivity].
  apply (invalidateCache_reaches_other_fetchers nodeEnv userRecords userCsv noPagination).
  - reflexivity.
  - reflexivity.
  - right. left. reflexivity.
Defined.

(** ** What the api path keeps *)

(** X6.  The api path caches a payload only when one of its attempts at
    the endpoint delivers it.  With no endpoint configured it resolves to
    the empty list with no request; when all three attempts fail it
    resolves to the fallback payload or to the mock data; in all these
    cases both cache tables are left exactly as they were, so the next call
    goes through the same attempts again. *)
Theorem api_caches_only_endpoint_payloads (env : Env) (self : Fetcher) (isServer : bool)
  (s : State) :
  plainCacheHit isServer (apiCacheKey self) s = None ->
  let run := fetchApiData env self isServer s in
  (nonEmpty (endpoint self) = false -> run = (Resolved (onlyData []), s))
  /\ (nonEmpty (endpoint self) = false
      \/ (attemptFails self (upcoming s 0) /\ attemptFails self (upcoming s 1)
          /\ attemptFails self (upcoming s 2)) ->
      serverCache run.2 = serverCache s /\ clientCache run.2 = clientCache s
      /\ plainCacheHit isServer (apiCacheKey self) run.2 = None).
Proof.
  intros Hmiss. cbn zeta.
  assert (Hidle : nonEmpty (endpoint self) = false ->
                  fetchApiData env self isServer s = (Resolved (onlyData []), s)).
  { intros Hno. unfold fetchApiData, bind, getState. rewrite Hmiss, Hno. reflexivity. }
  split; [exact Hidle|]. intros [Hno | (F0 & F1 & F2)].
  - rewrite (Hidle Hno). cbn [snd]. auto.
  - destruct (apiCalls_or_idle env self isServer s) as [[url Hcalls] | (r & -> & _)];
      [|cbn [snd]; auto].
    rewrite (fetchApiData_ladder env self isServer s url Hcalls). cbn zeta.
    unfold attemptFails in F0, F1, F2. rewrite F0, F1, F2.
    assert (Hsame : forall st,
               serverCache st = serverCache s -> clientCache st = clientCache s ->
               now s <= now st ->
               plainCacheHit isServer (apiCacheKey self) st = None).
    { intros st Hs Hc Hnow. unfold plainCacheHit in *. rewrite Hs, Hc.
      destruct isServer; [exact Hmiss|].
      destruct (clientCache s !! apiCacheKey self) as [e|]; [|reflexivity].
      unfold fresh in *. destruct (Z.ltb_spec (now s - timestamp e) cacheExpirationTime);
        [discriminate|].
      destruct (Z.ltb_spec (now st - timestamp e) cacheExpirationTime); [lia | reflexivity]. }
    assert (Hnow : now s <= now (exhausted env url s)).
    { unfold exhausted, failedAttempt, afterSleep, sleep, afterFetch. cbn. lia. }
    destruct isServer; cbn [snd].
    + split; [reflexivity|]. split; [reflexivity|]. apply Hsame; auto.
    + split; [reflexivity|]. split; [reflexivity|].
      apply Hsame; [reflexivity | reflexivity |]. cbn [afterFetch now]. lia.
Qed.

Lemma api_caches_only_endpoint_payloads_witness :
  clientCache (fetchApiData browserEnv productList false (idle 0 [])).2 = ∅
  /\ fetchApiData browserEnv noEndpoint false (idle 0 []) = (Resolved (onlyData []), idle 0 []).
Proof.
  assert (Hmiss : plainCacheHit false (apiCacheKey productList) (idle 0 []) = None)
    by reflexivity.
  assert (Hmiss' : plainCacheHit false (apiCacheKey noEndpoint) (idle 0 []) = None)
    by reflexivity.
  destruct (api_caches_only_endpoint_payloads browserEnv productList false (idle 0 []) Hmiss)
    as [_ Hkept].
  destruct (api_caches_only_endpoint_payloads browserEnv noEndpoint false (idle 0 []) Hmiss')
    as [Hidle _].
  split.
  - destruct Hkept as (_ & Hclient & _); [right; repeat split|]. exact Hclient.
  - apply Hidle. reflexivity.
Defined.

(** ** Dispatch *)

(** X7.  [fetchData] takes the json path when no data source is set,
    never rejects when the data source is [api], and for a data source
    that is none of [json], [csv], [txt], [api] rejects with
    [Unsupported data source] without sending a request or touching any
    state. *)
Theorem fetchData_dispatch_edges (env : Env) (self : Fetcher) (isServer : bool) (s : State) :
  (nonEmpty (dataSource self) = false ->
   fetchData env self isServer s = fetchJsonData env self isServer s)
  /\ (dataSource self = Some "api" ->
      exists (r : FetchResult) (s' : State),
        fetchData env self isServer s = (Resolved r, s'))
  /\ (forall d : string,
        dataSource self = Some d ->
        d <> EmptyString -> d <> "json" -> d <> "csv" -> d <> "txt" -> d <> "api" ->
        fetchData env self isServer s
        = (Rejected (Error ("Unsupported data source: " ++ d)), s)).
Proof.
  unfold fetchData. split; [|split].
  - intros ->. reflexivity.
  - intros ->. cbn. apply fetchApiData_resolves.
  - intros d -> Hne Hj Hc Ht Ha.
    assert (Hnon : nonEmpty (Some d) = true) by (destruct d; [congruence | reflexivity]).
    rewrite Hnon. cbn [default from_option id].
    destruct (String.eqb_spec d "json"); [congruence|].
    destruct (String.eqb_spec d "csv"); [congruence|].
    destruct (String.eqb_spec d "txt"); [congruence|].
    destruct (String.eqb_spec d "api"); [congruence|].
    reflexivity.
Qed.

Lemma fetchData_dispatch_edges_witness :
  fetchData browserEnv xmlSource false onePayloadAhead
  = (Rejected (Error "Unsupported data source: xml"), onePayloadAhead).
Proof.
  destruct (fetchData_dispatch_edges browserEnv xmlSource false onePayloadAhead)
    as (_ & _ & Hbad).
  apply (Hbad "xml"); [reflexivity | discriminate..].
Defined.

(** ** Rows and cells of a csv text *)

Lemma csvRecord_unnamed (headers values : list string) (index : nat)
  (acc : list (string * value)) (key : string) :
  (forall h, In h headers -> JsString.trim h <> key) ->
  JsValue.lookupProp key (csvRecord headers values index acc) = JsValue.lookupProp key acc.
Proof.
  revert index acc. induction headers as [|h0 headers IH]; intros index acc Hnone;
    cbn [csvRecord]; [reflexivity|].
  rewrite IH by (intros h Hh; apply Hnone; right; exact Hh).
  rewrite lookupProp_assign. destruct (String.eqb (JsString.trim h0) "__proto__"); [reflexivity|].
  destruct (String.eqb_spec (JsString.trim h0) key) as [Heq|_]; [|reflexivity].
  exfalso. apply (Hnone h0); [left; reflexivity | exact Heq].
Qed.

Lemma csvRecord_proto (headers values : list string) (index : nat)
  (acc : list (string * value)) :
  JsValue.lookupProp "__proto__" (csvRecord headers values index acc)
  = JsValue.lookupProp "__proto__" acc.
Proof.
  revert index acc. induction headers as [|h0 headers IH]; intros index acc;
    cbn [csvRecord]; [reflexivity|].
  rewrite IH, lookupProp_assign.
  destruct (String.eqb_spec (JsString.trim h0) "__proto__") as [|Hne]; [reflexivity|].
  destruct (String.eqb_spec (JsString.trim h0) "__proto__"); [congruence | reflexivity].
Qed.

Lemma csvRecord_keys (headers values : list string) (index : nat)
  (acc : list (string * value)) (key : string) :
  In key (List.map fst (csvRecord headers values index acc)) ->
  In key (List.map fst acc)
  \/ (key <> "__proto__" /\ exists h, In h headers /\ JsString.trim h = key).
Proof.
  revert index acc. induction headers as [|h0 headers IH]; intros index acc;
    cbn [csvRecord]; [auto|].
  intros Hin. apply IH in Hin. destruct Hin as [Hin | (Hkey & h & Hh & Heq)].
  - apply keys_assign in Hin. destruct Hin as [[-> Hne] | Hin]; [|auto].
    right. split; [exact Hne|]. exists h0. split; [left|]; reflexivity.
  - right. split; [exact Hkey|]. exists h. split; [right; exact Hh | exact Heq].
Qed.

Lemma csvRecord_named (headers values : list string) (index : nat)
  (acc : list (string * value)) (i : nat) (h : string) :
  nth_error headers i = Some h ->
  JsString.trim h <> "__proto__" ->
  (forall j h', (i < j)%nat -> nth_error headers j = Some h' ->
                JsString.trim h' <> JsString.trim h) ->
  JsValue.lookupProp (JsString.trim h) (csvRecord headers values index acc)
  = cell values (index + i).
Proof.
  revert index acc i. induction headers as [|h0 headers IH]; intros index acc i Hi Hplain Hlast.
  - destruct i; discriminate.
  - cbn [csvRecord]. destruct i as [|i].
    + injection Hi as ->. rewrite csvRecord_unnamed.
      * rewrite lookupProp_assign.
        destruct (String.eqb_spec (JsString.trim h) "__proto__"); [congruence|].
        rewrite String.eqb_refl, Nat.add_0_r. reflexivity.
      * intros h' Hin. apply In_nth_error in Hin. destruct Hin as [j Hj].
        apply (Hlast (S j)); [lia | exact Hj].
    + rewrite (IH (S index) _ i Hi Hplain).
      * f_equal. lia.
      * intros j h' Hj Hh'. apply (Hlast (S j)); [lia | exact Hh'].
Qed.

(** X8.  [fetchCsvData] turns a csv text into one record per non-blank
    line after the first, in order; a line of white space only, U+00A0
    included, is blank.  In each record the property named by a trimmed
    header other than [__proto__] holds the trimmed cell at that header's
    position, the last position when the name occurs more than once; it is
    [undefined] when the row is too short.  The record has no own property
    that is not such a header: the row's cells beyond the last header are
    dropped, and a header [__proto__] gives no property because the
    assignment meets the inherited accessor.  Trimming removes the white
    space of ECMAScript on both sides of a header or a cell. *)
Theorem csv_records_follow_headers (text : string) :
  (exists records : list (list (string * value)),
      parseCsv text = JArr (List.map JObj records)
      /\ length records = length (csvRows text)
      /\ forall (k : nat) (row : string) (props : list (string * value)),
           nth_error (csvRows text) k = Some row ->
           nth_error records k = Some props ->
           let values := JsString.split "," row in
           (forall (i : nat) (h : string),
               nth_error (csvHeaders text) i = Some h ->
               JsString.trim h <> "__proto__" ->
               (forall j h', (i < j)%nat -> nth_error (csvHeaders text) j = Some h' ->
                             JsString.trim h' <> JsString.trim h) ->
               JsValue.lookupProp (JsString.trim h) props = cell values i)
           /\ (forall key : string,
                 In key (List.map fst props) ->
                 key <> "__proto__"
                 /\ exists h, In h (csvHeaders text) /\ JsString.trim h = key)
           /\ (forall key : string,
                 (forall h, In h (csvHeaders text) -> JsString.trim h <> key) ->
                 JsValue.lookupProp key props = JUndefined))
  /\ (forall (before after : list string) (core : string)
             (values : list string) (i : nat),
        padding before -> padding after -> bare core ->
        nth_error values i = Some (joined before ++ core ++ joined after) ->
        cell values i = JStr core
        /\ nonBlank (joined before ++ core ++ joined after)
           = negb (String.eqb core EmptyString))
  /\ (forall pad : list string, padding pad -> nonBlank (joined pad) = false)
  /\ JsString.whiteSpace
     = List.map (fun codePoint => Json.utf8 codePoint EmptyString)
         [9; 10; 11; 12; 13; 32; 160; 5760;
          8192; 8193; 8194; 8195; 8196; 8197; 8198; 8199; 8200; 8201; 8202;
          8232; 8233; 8239; 8287; 12288; 65279]%N
  /\ parseCsv ("id," ++ nbsp ++ "name" ++ ",__proto__"
               ++ String JsString.newline nbsp
               ++ String JsString.newline ("1," ++ nbsp ++ "Ann" ++ nbsp ++ ",x"))
     = JArr [JObj [("id", JStr "1"); ("name", JStr "Ann")]].
Proof.
  split; [|split; [|split; [|split]]].
  - exists (List.map (fun row => csvRecord (csvHeaders text) (JsString.split "," row) 0 [])
              (csvRows text)).
    split; [|split].
    + unfold parseCsv, csvRows, csvHeaders. rewrite List.map_map. reflexivity.
    + apply List.length_map.
    + intros k row props Hrow Hprops. cbn zeta.
      rewrite nth_error_map, Hrow in Hprops. injection Hprops as <-. split; [|split].
      * intros i h Hi Hplain Hlast. apply (csvRecord_named _ _ 0 [] i h Hi Hplain Hlast).
      * intros key Hin. apply csvRecord_keys in Hin. destruct Hin as [[] | H]. exact H.
      * intros key Hnone. rewrite csvRecord_unnamed by exact Hnone. reflexivity.
  - intros before after core values i Hbefore Hafter Hcore Hcell.
    pose proof (trim_strips_padding before after core Hbefore Hafter Hcore) as Htrim.
    unfold cell, nonBlank. rewrite Hcell, Htrim. split; [reflexivity|].
    destruct core; reflexivity.
  - intros pad Hpad. unfold nonBlank. rewrite (trim_padding_only pad Hpad). reflexivity.
  - vm_compute. reflexivity.
  - vm_compute. reflexivity.
Qed.

Lemma csv_records_follow_headers_witness :
  (exists props : list (string * value),
      parseCsv ("id,name" ++ String JsString.newline "1") = JArr [JObj props]
      /\ JsValue.lookupProp "id" props = JStr "1"
      /\ JsValue.lookupProp "name" props = JUndefined)
  /\ cell ["1"; nbsp ++ "Ann" ++ " "] 1 = JStr "Ann".
Proof.
  destruct (csv_records_follow_headers ("id,name" ++ String JsString.newline "1"))
    as ((records & Hparse & Hlen & Hcells) & Htrim & _).
  split.
  - destruct records as [|props [|more records]]; try discriminate Hlen.
    exists props. split; [exact Hparse|].
    destruct (Hcells 0%nat "1" props eq_refl eq_refl) as [Hnamed _]. split.
    + apply (Hnamed 0%nat "id" eq_refl).
      * intros H. vm_compute in H. discriminate H.
      * intros [|[|j]] h' Hj Hh'; try lia; [|destruct j; discriminate].
        injection Hh' as <-. intros H. vm_compute in H. discriminate H.
    + apply (Hnamed 1%nat "name" eq_refl).
      * intros H. vm_compute in H. discriminate H.
      * intros [|[|j]] h' Hj Hh'; try lia. destruct j; discriminate.
  - destruct (Htrim [nbsp] [" "] "Ann" ["1"; nbsp ++ "Ann" ++ " "] 1%nat) as [Hcell _];
      [| | | reflexivity | exact Hcell].
    + unfold padding, nbsp, JsString.whiteSpace. repeat constructor; cbn; tauto.
    + unfold padding, JsString.whiteSpace. repeat constructor; cbn; tauto.
    + split.
      * intros w rest Hin Hw. each_white_space Hin; discriminate Hw.
      * intros w init Hin Hw. each_white_space Hin;
          repeat (destruct init as [|? init]; try discriminate Hw).
Defined.

(** ** Subscriptions and clients of the bus *)

Lemma removeLast_appended (name : string) (cb : Realtime.Callback)
  (ls : list (string * Realtime.Callback)) :
  Realtime.removeLast name (Realtime.fn cb) (ls ++ [(name, cb)])%list = Some ls.
Proof.
  induction ls as [|l ls IH]; cbn [app Realtime.removeLast].
  - cbn [fst snd]. rewrite String.eqb_refl, Nat.eqb_refl. reflexivity.
  - rewrite IH. reflexivity.
Qed.

Lemma removeLast_absent (name : string) (f : nat) (ls : list (string * Realtime.Callback)) :
  (forall l, In l ls -> String.eqb (fst l) name && Nat.eqb (Realtime.fn (snd l)) f = false) ->
  Realtime.removeLast name f ls = None.
Proof.
  induction ls as [|l ls IH]; intros Hnone; cbn [Realtime.removeLast]; [reflexivity|].
  rewrite IH by (intros x Hx; apply Hnone; right; exact Hx).
  rewrite (Hnone l) by (left; reflexivity). reflexivity.
Qed.

Lemma removeLast_latest (name : string) (f : nat) (registered : Realtime.Callback)
  (before after : list (string * Realtime.Callback)) :
  Realtime.fn registered = f ->
  (forall l, In l after -> String.eqb (fst l) name && Nat.eqb (Realtime.fn (snd l)) f = false) ->
  Realtime.removeLast name f (before ++ (name, registered) :: after)%list
  = Some (before ++ after)%list.
Proof.
  intros Hfn Hafter. induction before as [|l before IH]; cbn [app Realtime.removeLast].
  - rewrite (removeLast_absent name f after Hafter). cbn [fst snd].
    rewrite String.eqb_refl, Hfn, Nat.eqb_refl. reflexivity.
  - rewrite IH. reflexivity.
Qed.

(** X9.  The function returned by [subscribe] undoes that subscription
    and nothing else.  Called right away it gives back the bus as it was.
    In general it removes exactly one registration of that callback on
    that channel, the latest one, wherever it stands among the listeners:
    the listeners before it and after it stay, in order.  When the callback
    is not registered on the channel nothing changes.  The client set, the
    server flag and what was delivered are never touched. *)
Theorem unsubscribe_undoes_subscribe (componentId : string) (callback : Realtime.Callback)
  (b : Realtime.Bus) :
  let other (l : string * Realtime.Callback) :=
    String.eqb (fst l) (Realtime.eventName componentId)
    && Nat.eqb (Realtime.fn (snd l)) (Realtime.fn callback) = false in
  Realtime.unsubscribe componentId callback (Realtime.subscribe componentId callback b) = b
  /\ (forall (before after : list (string * Realtime.Callback))
             (registered : Realtime.Callback),
        Realtime.listeners b
        = (before ++ (Realtime.eventName componentId, registered) :: after)%list ->
        Realtime.fn registered = Realtime.fn callback ->
        (forall l, In l after -> other l) ->
        Realtime.listeners (Realtime.unsubscribe componentId callback b)
        = (before ++ after)%list)
  /\ ((forall l, In l (Realtime.listeners b) -> other l) ->
      Realtime.unsubscribe componentId callback b = b)
  /\ (let b' := Realtime.unsubscribe componentId callback b in
      Realtime.sseClients b' = Realtime.sseClients b
      /\ Realtime.isServerSide b' = Realtime.isServerSide b
      /\ Realtime.called b' = Realtime.called b
      /\ Realtime.pushed b' = Realtime.pushed b).
Proof.
  cbn zeta. split; [|split; [|split]].
  - unfold Realtime.unsubscribe, Realtime.subscribe. cbn.
    rewrite removeLast_appended. destruct b; reflexivity.
  - intros before after registered Hlisteners Hfn Hafter.
    unfold Realtime.unsubscribe. cbn [Realtime.listeners].
    rewrite Hlisteners, (removeLast_latest _ _ registered before after Hfn Hafter).
    reflexivity.
  - intros Hnone. unfold Realtime.unsubscribe.
    rewrite (removeLast_absent _ _ _ Hnone). destruct b; reflexivity.
  - repeat split.
Qed.

Lemma unsubscribe_undoes_subscribe_witness :
  Realtime.listeners (Realtime.unsubscribe "x" (quiet 1) twoAndTwo)
  = [(Realtime.eventName "x", quiet 2)]
  /\ Realtime.unsubscribe "x" (quiet 7) twoAndTwo = twoAndTwo.
Proof.
  destruct (unsubscribe_undoes_subscribe "x" (quiet 1) twoAndTwo) as (_ & Hlatest & _).
  destruct (unsubscribe_undoes_subscribe "x" (quiet 7) twoAndTwo) as (_ & _ & Habsent & _).
  split.
  - apply (Hlatest [] [(Realtime.eventName "x", quiet 2)] (quiet 1) eq_refl eq_refl).
    intros l [<- | []]. reflexivity.
  - apply Habsent. intros l Hin. cbn in Hin.
    destruct Hin as [<- | [<- | []]]; reflexivity.
Defined.

Lemma emitTo_subscribed (todo : list Realtime.Callback) (event : Realtime.DataChangeEvent)
  (id : string) (cb : Realtime.Callback) (b : Realtime.Bus) :
  Realtime.emitTo todo event (Realtime.subscribe id cb b)
  = ((Realtime.emitTo todo event b).1,
     Realtime.subscribe id cb (Realtime.emitTo todo event b).2).
Proof.
  revert b. induction todo as [|c todo IH]; intros b; cbn [Realtime.emitTo].
  - reflexivity.
  - change (Realtime.recordCall c event (Realtime.subscribe id cb b))
      with (Realtime.subscribe id cb (Realtime.recordCall c event b)).
    destruct (Realtime.run c event); [reflexivity | apply IH].
Qed.

Lemma sendTo_subscribed (todo : list Realtime.SseClient) (payload id : string)
  (cb : Realtime.Callback) (b : Realtime.Bus) :
  Realtime.sendTo todo payload (Realtime.subscribe id cb b)
  = Realtime.subscribe id cb (Realtime.sendTo todo payload b).
Proof.
  revert b. induction todo as [|c todo IH]; intros b; cbn [Realtime.sendTo]; [reflexivity|].
  destruct (Realtime.send c payload).
  - change (Realtime.deleteClient c (Realtime.recordPush c payload (Realtime.subscribe id cb b)))
      with (Realtime.subscribe id cb (Realtime.deleteClient c (Realtime.recordPush c payload b))).
    apply IH.
  - change (Realtime.recordPush c payload (Realtime.subscribe id cb b))
      with (Realtime.subscribe id cb (Realtime.recordPush c payload b)).
    apply IH.
Qed.

Lemma eventName_injective (a b : string) :
  Realtime.eventName a = Realtime.eventName b -> a = b.
Proof. unfold Realtime.eventName. apply append_cancel_l. Qed.

(** X10.  Channels are separate: a callback subscribed to one componentId
    is not called by an event published for another.  Publishing for [x]
    on a bus with one more subscriber on [y] gives the same outcome, the
    same calls and the same pushes as without that subscriber. *)
Theorem publish_skips_other_channels (stringify : Realtime.DataChangeEvent -> Result string)
  (event : Realtime.DataChangeEvent) (other : string) (cb : Realtime.Callback)
  (b : Realtime.Bus) :
  Realtime.ev_componentId event <> other ->
  Realtime.publish stringify event (Realtime.subscribe other cb b)
  = ((Realtime.publish stringify event b).1,
     Realtime.subscribe other cb (Realtime.publish stringify event b).2).
Proof.
  intros Hne. unfold Realtime.publish, Realtime.emit.
  rewrite listenersOf_subscribe.
  destruct (String.eqb_spec (Realtime.eventName other)
              (Realtime.eventName (Realtime.ev_componentId event))) as [Heq|_].
  { apply eventName_injective in Heq. congruence. }
  rewrite app_nil_r, emitTo_subscribed.
  destruct (Realtime.emitTo _ event b) as [[u|e] b'] eqn:Hemit; cbn [fst snd]; [|reflexivity].
  change (Realtime.isServerSide (Realtime.subscribe other cb b'))
    with (Realtime.isServerSide b').
  destruct (Realtime.isServerSide b'); cbn [fst snd]; [|reflexivity].
  unfold Realtime.broadcastToSSEClients.
  change (Realtime.sseClients (Realtime.subscribe other cb b')) with (Realtime.sseClients b').
  destruct (stringify event) as [payload|e]; [|reflexivity].
  rewrite sendTo_subscribed. reflexivity.
Qed.

Lemma publish_skips_other_channels_witness :
  Realtime.called
    (Realtime.publish nameOnly refreshY (Realtime.subscribe "x" (thrower 1) (Realtime.create true))).2
  = [].
Proof.
  rewrite (publish_skips_other_channels nameOnly refreshY "x" (thrower 1)
             (Realtime.create true)); [reflexivity | discriminate].
Defined.

Lemma deleteFirst_absent (i : string) (cs : list Realtime.SseClient) :
  (forall c, In c cs -> Realtime.id c <> i) -> Realtime.deleteFirst i cs = cs.
Proof.
  induction cs as [|c cs IH]; intros Hnone; cbn [Realtime.deleteFirst]; [reflexivity|].
  destruct (String.eqb_spec (Realtime.id c) i) as [Heq|_].
  - exfalso. apply (Hnone c); [left; reflexivity | exact Heq].
  - rewrite IH; [reflexivity|]. intros x Hx. apply Hnone. right. exact Hx.
Qed.

Lemma deleteFirst_earliest (i : string) (before after : list Realtime.SseClient)
  (c : Realtime.SseClient) :
  (forall x, In x before -> Realtime.id x <> i) -> Realtime.id c = i ->
  Realtime.deleteFirst i (before ++ c :: after)%list = (before ++ after)%list.
Proof.
  induction before as [|x before IH]; intros Hnone Hid; cbn [app Realtime.deleteFirst].
  - rewrite Hid, String.eqb_refl. reflexivity.
  - destruct (String.eqb_spec (Realtime.id x) i) as [Heq|_].
    + exfalso. apply (Hnone x); [left; reflexivity | exact Heq].
    + rewrite IH; [reflexivity | | exact Hid]. intros y Hy. apply Hnone. right. exact Hy.
Qed.

Lemma deleteFirst_In (i : string) (cs : list Realtime.SseClient) (c : Realtime.SseClient) :
  In c (Realtime.deleteFirst i cs) -> In c cs.
Proof.
  induction cs as [|x cs IH]; cbn [Realtime.deleteFirst]; [tauto|].
  destruct (String.eqb (Realtime.id x) i); cbn; [tauto|]. intros [-> | H]; auto.
Qed.

Lemma deleteFirst_distinct (i : string) (cs : list Realtime.SseClient) :
  NoDup (List.map Realtime.obj cs) -> NoDup (List.map Realtime.obj (Realtime.deleteFirst i cs)).
Proof.
  induction cs as [|x cs IH]; cbn [Realtime.deleteFirst List.map]; [tauto|].
  intros Hnd. apply NoDup_cons in Hnd. destruct Hnd as [Hx Hnd].
  destruct (String.eqb (Realtime.id x) i); [exact Hnd|].
  cbn [List.map]. apply NoDup_cons. split; [|apply IH, Hnd].
  intros Hin. apply Hx. apply list_elem_of_In in Hin. apply list_elem_of_In.
  apply in_map_iff in Hin. destruct Hin as (c & Hobj & Hc).
  apply in_map_iff. exists c. split; [exact Hobj | eapply deleteFirst_In, Hc].
Qed.

Lemma filter_distinct (keep : Realtime.SseClient -> bool) (cs : list Realtime.SseClient) :
  NoDup (List.map Realtime.obj cs) -> NoDup (List.map Realtime.obj (List.filter keep cs)).
Proof.
  induction cs as [|x cs IH]; cbn [List.filter List.map]; [tauto|].
  intros Hnd. apply NoDup_cons in Hnd. destruct Hnd as [Hx Hnd].
  destruct (keep x); [|apply IH, Hnd].
  cbn [List.map]. apply NoDup_cons. split; [|apply IH, Hnd].
  intros Hin. apply Hx. apply list_elem_of_In in Hin. apply list_elem_of_In.
  apply in_map_iff in Hin. destruct Hin as (c & Hobj & Hc).
  apply in_map_iff. exists c. split; [exact Hobj|]. apply filter_In in Hc. apply Hc.
Qed.

(** X11.  [unregisterSSEClient(id)] deletes one client at most, the one
    registered earliest among those with that id; with no such client the
    set is unchanged.  So registering under a fresh id and unregistering it
    gives the set back, while under an id already in use it is the older
    client that goes and the new one that stays. *)
Theorem unregister_removes_earliest (i : string) (b : Realtime.Bus) :
  ((forall c, In c (Realtime.sseClients b) -> Realtime.id c <> i) ->
   Realtime.unregisterSSEClient i b = b
   /\ forall snd, Realtime.sseClients
                    (Realtime.unregisterSSEClient i (Realtime.registerSSEClient i snd b))
                  = Realtime.sseClients b)
  /\ (forall before c after,
        Realtime.sseClients b = (before ++ c :: after)%list ->
        Realtime.id c = i ->
        (forall x, In x before -> Realtime.id x <> i) ->
        Realtime.sseClients (Realtime.unregisterSSEClient i b) = (before ++ after)%list
        /\ forall snd,
             Realtime.sseClients
               (Realtime.unregisterSSEClient i (Realtime.registerSSEClient i snd b))
             = (before ++ after
                  ++ [{| Realtime.obj := Realtime.nextObj b; Realtime.id := i;
                         Realtime.send := snd |}])%list).
Proof.
  split.
  - intros Hnone. split.
    + unfold Realtime.unregisterSSEClient. rewrite (deleteFirst_absent _ _ Hnone).
      destruct b; reflexivity.
    + intros snd. cbn [Realtime.unregisterSSEClient Realtime.registerSSEClient
                        Realtime.sseClients].
      rewrite <- (app_nil_r (Realtime.sseClients b)) at 2.
      apply deleteFirst_earliest; [exact Hnone | reflexivity].
  - intros before c after Hcs Hid Hnone. split.
    + cbn [Realtime.unregisterSSEClient Realtime.sseClients]. rewrite Hcs.
      apply deleteFirst_earliest; assumption.
    + intros snd. cbn [Realtime.unregisterSSEClient Realtime.registerSSEClient
                        Realtime.sseClients].
      rewrite Hcs, <- app_assoc. cbn [app].
      apply (deleteFirst_earliest i before (after ++ [_]) c); assumption.
Qed.

Lemma unregister_removes_earliest_witness :
  List.map Realtime.obj
    (Realtime.sseClients
       (Realtime.unregisterSSEClient "a"
          (Realtime.registerSSEClient "a" openSink
             (Realtime.registerSSEClient "a" closedSink (Realtime.create true)))))
  = [1%nat].
Proof.
  destruct (unregister_removes_earliest "a"
              (Realtime.registerSSEClient "a" closedSink (Realtime.create true)))
    as [_ Hsome].
  destruct (Hsome [] {| Realtime.obj := 0; Realtime.id := "a"; Realtime.send := closedSink |} []
              eq_refl eq_refl (fun x (H : In x []) => match H with end)) as [_ Hreg].
  rewrite (Hreg openSink). reflexivity.
Defined.

Lemma publish_keeps_numbering (stringify : Realtime.DataChangeEvent -> Result string)
  (event : Realtime.DataChangeEvent) (b : Realtime.Bus) :
  exists keep,
    Realtime.sseClients (Realtime.publish stringify event b).2
    = List.filter keep (Realtime.sseClients b)
    /\ Realtime.nextObj (Realtime.publish stringify event b).2 = Realtime.nextObj b
    /\ Realtime.isServerSide (Realtime.publish stringify event b).2 = Realtime.isServerSide b.
Proof.
  assert (Hemit : forall todo bus,
             Realtime.sseClients (Realtime.emitTo todo event bus).2 = Realtime.sseClients bus
             /\ Realtime.nextObj (Realtime.emitTo todo event bus).2 = Realtime.nextObj bus
             /\ Realtime.isServerSide (Realtime.emitTo todo event bus).2
                = Realtime.isServerSide bus).
  { induction todo as [|cb todo IH]; intros bus; cbn [Realtime.emitTo]; [auto|].
    destruct (Realtime.run cb event); [cbn; auto|].
    destruct (IH (Realtime.recordCall cb event bus)) as (H1 & H2 & H3).
    rewrite H1, H2, H3. auto. }
  unfold Realtime.publish, Realtime.emit.
  destruct (Hemit (Realtime.listenersOf (Realtime.eventName (Realtime.ev_componentId event)) b) b)
    as (H1 & H2 & H3).
  destruct (Realtime.emitTo _ event b) as [[u|e] b'] eqn:Hrun; cbn [snd] in *.
  - destruct (Realtime.isServerSide b') eqn:Hside; cbn [snd].
    + unfold Realtime.broadcastToSSEClients.
      destruct (stringify event) as [payload|e]; cbn [snd].
      * rewrite sendTo_effect.
        cbn [Realtime.sseClients Realtime.nextObj Realtime.isServerSide].
        rewrite H1, H2, <- H3. eauto.
      * exists (fun _ => true). rewrite H1, H2, Hside, <- H3.
        split; [|auto]. clear. induction (Realtime.sseClients b) as [|c cs IH]; cbn; congruence.
    + exists (fun _ => true). rewrite H1, H2, Hside, <- H3.
      split; [|auto]. clear. induction (Realtime.sseClients b) as [|c cs IH]; cbn; congruence.
  - exists (fun _ => true). rewrite H1, H2, H3.
    split; [|auto]. clear. induction (Realtime.sseClients b) as [|c cs IH]; cbn; congruence.
Qed.

Lemma runBusOp_invariant (stringify : Realtime.DataChangeEvent -> Result string) (op : BusOp)
  (b : Realtime.Bus) :
  wellNumbered b -> Realtime.distinctClients b ->
  wellNumbered (runBusOp stringify op b)
  /\ Realtime.distinctClients (runBusOp stringify op b)
  /\ Realtime.isServerSide (runBusOp stringify op b) = Realtime.isServerSide b.
Proof.
  intros Hwn Hnd. destruct op as [i cb | i cb | i snd | i | event]; cbn [runBusOp].
  - auto.
  - auto.
  - destruct (clients_stay_distinct b i snd) as [_ Hreg].
    destruct (Hreg Hwn Hnd). auto.
  - unfold wellNumbered, Realtime.distinctClients in *.
    cbn [Realtime.unregisterSSEClient Realtime.sseClients Realtime.nextObj
         Realtime.isServerSide].
    split; [|split; [apply deleteFirst_distinct, Hnd | reflexivity]].
    apply Forall_forall. intros c Hc. apply list_elem_of_In, deleteFirst_In in Hc.
    rewrite Forall_forall in Hwn. apply Hwn, list_elem_of_In, Hc.
  - destruct (publish_keeps_numbering stringify event b) as (keep & Hcs & Hnext & Hside).
    unfold wellNumbered, Realtime.distinctClients in *. rewrite Hcs, Hnext, Hside.
    split; [|split; [apply filter_distinct, Hnd | reflexivity]].
    apply Forall_forall. intros c Hc. apply list_elem_of_In, filter_In in Hc.
    rewrite Forall_forall in Hwn. apply Hwn, list_elem_of_In, Hc.
Qed.

Lemma runBusOps_invariant (stringify : Realtime.DataChangeEvent -> Result string) (ops : list BusOp)
  (b : Realtime.Bus) :
  wellNumbered b -> Realtime.distinctClients b ->
  wellNumbered (runBusOps stringify ops b)
  /\ Realtime.distinctClients (runBusOps stringify ops b)
  /\ Realtime.isServerSide (runBusOps stringify ops b) = Realtime.isServerSide b.
Proof.
  unfold runBusOps. revert b. induction ops as [|op ops IH]; intros b Hwn Hnd; cbn [fold_left].
  - auto.
  - destruct (runBusOp_invariant stringify op b Hwn Hnd) as (Hwn' & Hnd' & Hside).
    destruct (IH _ Hwn' Hnd') as (H1 & H2 & H3). rewrite <- Hside. auto.
Qed.

(** X12.  On a server-side bus, whatever calls were made on it since it
    was constructed (subscribe, unsubscribe, register, unregister, publish,
    in any order), a publish whose callbacks all return ends in one of two
    ways.  When [JSON.stringify] gives a text, that text is sent once to
    each client registered at that moment, in registration order, the
    clients left in the set are exactly those whose send returned, and
    [publish] returns.  When [JSON.stringify] throws, [publish] ends with
    its exception, nothing is sent and no client is removed. *)
Theorem broadcast_after_any_history (stringify : Realtime.DataChangeEvent -> Result string)
  (ops : list BusOp) (event : Realtime.DataChangeEvent) :
  let b := runBusOps stringify ops (Realtime.create true) in
  let out := Realtime.publish stringify event b in
  Forall (Realtime.returns event)
    (Realtime.listenersOf (Realtime.eventName (Realtime.ev_componentId event)) b) ->
  (forall payload : string,
      stringify event = Resolved payload ->
      out.1 = Resolved tt
      /\ Realtime.sseClients out.2 = Realtime.accepting payload (Realtime.sseClients b)
      /\ Realtime.pushed out.2
         = (Realtime.pushed b
            ++ List.map (fun c => (Realtime.obj c, payload)) (Realtime.sseClients b))%list)
  /\ (forall e : Exn,
        stringify event = Rejected e ->
        out.1 = Rejected e
        /\ Realtime.sseClients out.2 = Realtime.sseClients b
        /\ Realtime.pushed out.2 = Realtime.pushed b).
Proof.
  cbn zeta. intros Hall.
  destruct (runBusOps_invariant stringify ops (Realtime.create true)) as (_ & Hnd & Hside).
  { constructor. }
  { constructor. }
  unfold Realtime.publish, Realtime.emit. rewrite (emitTo_all_return _ _ _ Hall).
  cbn [Realtime.isServerSide]. rewrite Hside. cbn [Realtime.create Realtime.isServerSide].
  unfold Realtime.broadcastToSSEClients. cbn [Realtime.sseClients]. split.
  - intros payload ->. rewrite sendTo_effect. cbn [fst snd Realtime.sseClients Realtime.pushed].
    split; [reflexivity|]. split; [|reflexivity]. apply failing_clients_go, Hnd.
  - intros e ->. repeat split.
Qed.

Lemma broadcast_after_any_history_witness :
  List.map Realtime.obj
    (Realtime.sseClients
       (Realtime.publish nameOnly refreshX
          (runBusOps nameOnly
             [Register "a" closedSink; Register "a" openSink; Subscribe "x" (quiet 1);
              Unregister "b"; Publish refreshY]
             (Realtime.create true))).2)
  = [1%nat].
Proof.
  destruct (broadcast_after_any_history nameOnly
              [Register "a" closedSink; Register "a" openSink; Subscribe "x" (quiet 1);
               Unregister "b"; Publish refreshY] refreshX) as [Hsend _].
  { repeat constructor. }
  destruct (Hsend "x" eq_refl) as (_ & Hcs & _).
  rewrite Hcs. reflexivity.
Defined.

(** ** The page buttons *)












(** ** Pages of a list *)

Lemma slice_window {A : Type} (first count : Z) (l : list A) :
  0 <= first -> 0 <= count ->
  JsArray.slice first (first + count) l
  = firstn (Z.to_nat count) (skipn (Z.to_nat first) l).
Proof.
  intros Hfirst Hcount. unfold JsArray.slice.
  destruct (Z.ltb_spec first 0) as [|_]; [lia|].
  destruct (Z.ltb_spec (first + count) 0) as [|_]; [lia|].
  destruct (Z.le_gt_cases (Z.of_nat (length l)) first) as [Hout | Hin].
  - rewrite (skipn_all2 (n := Z.to_nat first)) by lia.
    rewrite (skipn_all2 (n := Z.to_nat (Z.min first (Z.of_nat (length l))))) by lia.
    rewrite !firstn_nil. reflexivity.
  - replace (Z.min first (Z.of_nat (length l))) with first by lia.
    destruct (Z.le_gt_cases (first + count) (Z.of_nat (length l))) as [Hfits | Hover].
    + f_equal. lia.
    + rewrite (firstn_all2 (n := Z.to_nat count)) by (rewrite length_skipn; lia).
      apply firstn_all2. rewrite length_skipn. lia.
Qed.

Lemma pages_up_to {A : Type} (per : nat) (data : list A) (pages : nat) :
  concat (List.map (fun p => firstn per (skipn (p * per) data)) (seq 0 pages))
  = firstn (pages * per) data.
Proof.
  induction pages as [|pages IH].
  - reflexivity.
  - rewrite seq_S, map_app, concat_app, IH. cbn [List.map concat plus].
    rewrite app_nil_r, take_take_drop. f_equal. lia.
Qed.

Lemma ceilOfRatio_bounds (count : nat) (per : Z) :
  0 < per ->
  exists pages, ceilOfRatio count per = Finite pages
                /\ (pages - 1) * per < Z.of_nat count <= pages * per.
Proof.
  intros Hper. unfold ceilOfRatio. destruct (Z.eqb_spec per 0) as [|_]; [lia|].
  eexists. split; [reflexivity|].
  pose proof (Z.div_mod (- Z.of_nat count) per ltac:(lia)) as Hdiv.
  pose proof (Z.mod_pos_bound (- Z.of_nat count) per Hper) as Hmod.
  nia.
Qed.

Lemma visibleItems_window {A : Type} (p itemsPerPage : Z) (data : list A) :
  1 <= p -> 0 < itemsPerPage ->
  DynamicListRenderer.visibleItems p itemsPerPage data
  = firstn (Z.to_nat itemsPerPage) (skipn (Z.to_nat ((p - 1) * itemsPerPage)) data).
Proof.
  intros Hp Hper. unfold DynamicListRenderer.visibleItems. cbv zeta.
  apply slice_window; nia.
Qed.

(** X15.  With a positive page size the list renderer cuts the data into
    pages that lose and repeat nothing: the pages 1 to [totalPages], one
    after the other, are the data; every page before the last is full, no
    page is longer than the page size, a page within range of a non-empty
    list is not empty, and a page after the last is empty.  [totalPages]
    is 1 for an empty list. *)
Theorem list_pages_partition {A : Type} (data : list A) (itemsPerPage : Z) :
  0 < itemsPerPage ->
  exists pages : Z,
    DynamicListRenderer.totalPages data itemsPerPage = Finite pages
    /\ 1 <= pages
    /\ (data = [] -> pages = 1)
    /\ concat (List.map (fun p => DynamicListRenderer.visibleItems p itemsPerPage data)
                 (countUp 1 pages)) = data
    /\ (forall p, 1 <= p ->
          (forall j : nat,
              Z.of_nat j < itemsPerPage ->
              nth_error (DynamicListRenderer.visibleItems p itemsPerPage data) j
              = nth_error data (Z.to_nat ((p - 1) * itemsPerPage) + j))
          /\ Z.of_nat (length (DynamicListRenderer.visibleItems p itemsPerPage data))
             <= itemsPerPage
          /\ (p < pages ->
              Z.of_nat (length (DynamicListRenderer.visibleItems p itemsPerPage data))
              = itemsPerPage)
          /\ (p <= pages -> data <> [] ->
              DynamicListRenderer.visibleItems p itemsPerPage data <> [])
          /\ (pages < p -> DynamicListRenderer.visibleItems p itemsPerPage data = [])).
Proof.
  intros Hper.
  destruct (ceilOfRatio_bounds (length data) itemsPerPage Hper) as (c & Hc & Hlow & Hhigh).
  exists (Z.max 1 c). unfold DynamicListRenderer.totalPages. rewrite Hc.
  assert (Hpage : forall p, 1 <= p ->
             DynamicListRenderer.visibleItems p itemsPerPage data
             = firstn (Z.to_nat itemsPerPage)
                 (skipn (Z.to_nat ((p - 1) * itemsPerPage)) data))
    by (intros p Hp; apply visibleItems_window; lia).
  split; [reflexivity|]. split; [lia|]. split; [|split].
  - intros ->. cbn [length Z.of_nat] in *. nia.
  - unfold countUp. rewrite List.map_map.
    replace (Z.max 1 c - 1 + 1) with (Z.max 1 c) by lia.
    erewrite map_ext_in.
    + rewrite (pages_up_to (Z.to_nat itemsPerPage) data (Z.to_nat (Z.max 1 c))).
      apply firstn_all2. nia.
    + intros k Hk. cbv beta. rewrite Hpage by lia. do 2 f_equal. nia.
  - intros p Hp. rewrite (Hpage p Hp).
    split; [|split; [|split; [|split]]].
    + intros j Hj. rewrite nth_error_firstn, nth_error_skipn.
      destruct (Nat.ltb_spec j (Z.to_nat itemsPerPage)); [reflexivity | lia].
    + rewrite length_firstn, length_skipn. lia.
    + intros Hlt. rewrite length_firstn, length_skipn. nia.
    + intros Hle Hdata Hnil. apply (f_equal (@length A)) in Hnil.
      rewrite length_firstn, length_skipn in Hnil. cbn [length] in Hnil.
      destruct data as [|x data]; [congruence|]. cbn [length] in *. nia.
    + intros Hgt. rewrite skipn_all2; [apply firstn_nil | nia].
Qed.

Lemma list_pages_partition_witness :
  concat (List.map (fun p => DynamicListRenderer.visibleItems p 2 [1; 2; 3; 4; 5])
            (countUp 1 3)) = [1; 2; 3; 4; 5]
  /\ DynamicListRenderer.totalPages [1; 2; 3; 4; 5] 2 = Finite 3.
Proof.
  destruct (list_pages_partition [1; 2; 3; 4; 5] 2) as (pages & Htotal & _ & _ & Hcat & _);
    [lia|].
  assert (Hpages : pages = 3) by (vm_compute in Htotal; congruence).
  subst pages. split; [exact Hcat | reflexivity].
Defined.

(** ** The data route *)

Lemma ofZ_not_empty (z : Z) (fallback : string) :
  DataApi.orElse (Some (JsString.ofZ z)) fallback = JsString.ofZ z.
Proof.
  unfold DataApi.orElse, JsString.ofZ. destruct (z <? 0); [reflexivity|].
  destruct (ofN_head (Z.to_N z)) as (d & tail & _ & ->). reflexivity.
Qed.

(** X16.  The data route answers the query that [getUrl] writes for a
    page [p >= 1] and a limit [l > 0], both safe integers, with the
    envelope [fetchJsonData] expects:
    decoding it gives the fetcher the records the list renderer would show
    as page [p] of the three placeholder items, with totalItems 3 and
    totalPages the number of pages of size [l]; a page after the last
    decodes to no records. *)
Theorem handler_answers_a_page (component : string) (dataSource : option string)
  (p l : Z) (self : Fetcher) (s : State) :
  component <> EmptyString -> DataApi.orElse dataSource "json" = "json" ->
  1 <= p -> 0 < l -> safeInteger p -> safeInteger l ->
  exists (document : value) (pages : Z),
    DataApi.handler (Some component) dataSource
      (Some (JsString.ofZ p)) (Some (JsString.ofZ l))
    = {| DataApi.reply_status := 200; DataApi.contentType := "application/json";
         DataApi.reply_body := DataApi.Json document |}
    /\ DynamicListRenderer.totalPages DataApi.mockData l = Finite pages
    /\ decodeJsonBody self document s
       = (withTotals
            (parseData self
               (JArr (DynamicListRenderer.visibleItems p l DataApi.mockData)))
            (JNum 3 0) (JNum pages 0), s)
    /\ (pages < p -> DynamicListRenderer.visibleItems p l DataApi.mockData = []).
Proof.
  intros Hcomponent Hsource Hp Hl _ _.
  destruct (ceilOfRatio_bounds 3 l Hl) as (pages & Hpages & Hlow & Hhigh).
  eexists. exists pages. split; [|split; [|split]].
  - unfold DataApi.handler. rewrite Hsource, !ofZ_not_empty, !parseInt_ofZ.
    assert (Hthere : nonEmpty (Some component) = true)
      by (destruct component; [congruence | reflexivity]).
    rewrite Hthere. cbn [negb]. destruct (Z.ltb_spec 0 l) as [_|]; [|lia].
    change (length DataApi.mockData) with 3%nat. rewrite Hpages.
    cbn [String.eqb Ascii.eqb Bool.eqb DataApi.written DataApi.numberOrNull]. reflexivity.
  - unfold DynamicListRenderer.totalPages.
    change (length DataApi.mockData) with 3%nat. rewrite Hpages.
    cbn [atLeastOne]. f_equal. lia.
  - rewrite decodeJsonBody_shape. reflexivity.
  - intros Hpast. rewrite visibleItems_window by lia.
    rewrite skipn_all2; [apply firstn_nil|]. change (length DataApi.mockData) with 3%nat.
    nia.
Qed.

Lemma handler_answers_a_page_witness :
  exists document,
    DataApi.reply_body (DataApi.handler (Some "UserData") None (Some "2") (Some "2"))
    = DataApi.Json document
    /\ decodeJsonBody userRecords document (idle 0 [])
       = (Resolved ([JObj [("id", JNum 3 0); ("name", JStr "Item 3")]], JNum 3 0, JNum 2 0),
          idle 0 []).
Proof.
  destruct (handler_answers_a_page "UserData" None 2 2 userRecords (idle 0 []))
    as (document & pages & Hreply & Htotal & Hdecode & _);
    [discriminate | reflexivity | lia | lia | unfold safeInteger; lia
    | unfold safeInteger; lia |].
  exists document. split.
  - change (Some "2") with (Some (JsString.ofZ 2)). rewrite Hreply. reflexivity.
  - rewrite Hdecode. vm_compute in Htotal. injection Htotal as <-. reflexivity.
Defined.

(** X17.  Edges of the data route.  Without a component it answers 400
    whatever else is asked.  For the json source, without a limit, or with
    one that is not a positive number, it sends every item and
    [pagination: null].  With a
    positive limit, a page parameter that is present but not a number gives
    no items at all, although a missing one means page 1; page 0 gives no
    items either. *)
Theorem handler_edges (dataSource page limit : option string) :
  (forall component,
      nonEmpty component = false ->
      DataApi.reply_status (DataApi.handler component dataSource page limit) = 400)
  /\ (forall component,
        nonEmpty component = true -> DataApi.orElse dataSource "json" = "json" ->
        (DataApi.positive (JsString.parseInt (DataApi.orElse limit "0")) = false ->
         DataApi.handler component dataSource page limit
         = {| DataApi.reply_status := 200; DataApi.contentType := "application/json";
              DataApi.reply_body :=
                DataApi.Json (JObj [("data", JArr DataApi.mockData); ("pagination", JNull)]) |})
        /\ (forall l,
              JsString.parseInt (DataApi.orElse limit "0") = Some l -> 0 < l ->
              (forall text,
                  page = Some text -> JsString.isEmpty text = false ->
                  JsString.parseInt text = None \/ JsString.parseInt text = Some 0 ->
                  JsValue.lookupProp "data"
                    match DataApi.reply_body
                            (DataApi.handler component dataSource page limit) with
                    | DataApi.Json (JObj props) => props
                    | _ => []
                    end
                  = JArr [])
              /\ (nonEmpty page = false ->
                  DataApi.handler component dataSource page limit
                  = DataApi.handler component dataSource (Some "1") limit))).
Proof.
  split.
  - intros component Hnone. unfold DataApi.handler. rewrite Hnone. reflexivity.
  - intros component Hsome Hsource. split.
    + intros Hlimit. unfold DataApi.handler. rewrite Hsome, Hsource.
      cbn [negb String.eqb Ascii.eqb Bool.eqb].
      destruct (JsString.parseInt (DataApi.orElse limit "0")) as [l|]; [|reflexivity].
      cbn [DataApi.positive] in Hlimit. rewrite Hlimit. reflexivity.
    + intros l Hlimit Hl. split.
      * intros text -> Htext Hpage. unfold DataApi.handler.
        rewrite Hsome, Hsource, Hlimit. cbn [negb String.eqb Ascii.eqb Bool.eqb].
        destruct (Z.ltb_spec 0 l) as [_|]; [|lia].
        unfold DataApi.orElse at 1. rewrite Htext.
        cbn [DataApi.reply_body JsValue.lookupProp String.eqb Ascii.eqb Bool.eqb].
        f_equal. destruct Hpage as [-> | ->]; [reflexivity|].
        unfold JsArray.slice. change (length DataApi.mockData) with 3%nat.
        destruct (Z.ltb_spec ((0 - 1) * l) 0); [|lia].
        destruct (Z.ltb_spec ((0 - 1) * l + l) 0); [lia|].
        replace (Z.to_nat _) with 0%nat by lia. reflexivity.
      * intros Hpage. unfold DataApi.handler.
        assert (Hone : DataApi.orElse page "1" = DataApi.orElse (Some "1") "1").
        { destruct page as [text|]; [|reflexivity]. cbn in Hpage.
          destruct text; [reflexivity | discriminate]. }
        rewrite Hone. reflexivity.
Qed.

Lemma handler_edges_witness :
  DataApi.reply_status (DataApi.handler (Some EmptyString) None (Some "2") (Some "2")) = 400
  /\ DataApi.reply_body (DataApi.handler (Some "UserData") None (Some "abc") (Some "2"))
     = DataApi.Json
         (JObj [("data", JArr []);
                ("pagination",
                  JObj [("page", JNull); ("limit", JNum 2 0); ("totalItems", JNum 3 0);
                        ("totalPages", JNum 2 0)])]).
Proof.
  destruct (handler_edges None (Some "abc") (Some "2")) as [_ Hsome].
  destruct (handler_edges None (Some "2") (Some "2")) as [Hnone _].
  split; [apply Hnone; reflexivity|].
  destruct (Hsome (Some "UserData") eq_refl eq_refl) as [_ Hlimit].
  destruct (Hlimit 2 eq_refl ltac:(lia)) as [Hpage _].
  specialize (Hpage "abc" eq_refl eq_refl (or_introl eq_refl)).
  destruct (DataApi.reply_body _) as [[| | | | | |props]|] eqn:Hbody; try discriminate.
  vm_compute in Hbody. injection Hbody as <-. reflexivity.
Defined.

(** ** The server component *)

Lemma pagination_stored (isServer : bool) (key : string) (d : list value)
  (items pages : value) (s : State) :
  pagination (stored isServer key d items pages s) = pagination s.
Proof. destruct isServer; reflexivity. Qed.

Lemma fetchData_keeps_pagination (env : Env) (self : Fetcher) (isServer : bool) (s : State) :
  pagination (fetchData env self isServer s).2 = pagination s.
Proof.
  assert (Hplain : forall f, pagination (fetchPlain f env self isServer s).2 = pagination s).
  { intros f. destruct (cached f self isServer s) as [r|] eqn:Hc.
    - rewrite (plain_hit f env self isServer s r Hc). reflexivity.
    - rewrite (plain_miss f env self isServer s Hc). cbv zeta.
      destruct (delivered f self (upcoming s 0)) as [[[d items] pages]|e]; cbn [snd];
        [rewrite pagination_stored|]; reflexivity. }
  destruct (fetchData_dispatch env self isServer s) as [-> | [-> | [-> | [-> | [e ->]]]]].
  - apply (Hplain FJson).
  - apply (Hplain FCsv).
  - apply (Hplain FTxt).
  - destruct (apiCalls_or_idle env self isServer s) as [[url Hcalls] | (r & -> & _)];
      [|reflexivity].
    rewrite (fetchApiData_ladder env self isServer s url Hcalls). cbv zeta beta.
    repeat match goal with
           | |- context [match payloadOf ?a ?b with _ => _ end] => destruct (payloadOf a b)
           end;
      cbn [snd]; rewrite ?pagination_stored; try reflexivity.
    all: destruct isServer; reflexivity.
  - reflexivity.
Qed.

Lemma message_shown (prefix tail : string) (c : ascii) (more : string) :
  prefix = String c more ->
  DataApi.orElse (Some (prefix ++ tail)) "Unknown error occurred" = prefix ++ tail.
Proof. intros ->. rewrite append_cons. reflexivity. Qed.

(** X18.  The server component never throws: every render ends with the
    wrapped component or with the error component.  For an id nobody
    registered it shows [No fetcher registered for component: id] without
    touching anything; for a registered fetcher it leaves that fetcher's
    pagination at page 1 with the default page size, enabled, whatever it
    was before; and a fetcher of the api source never leads to the error
    component. *)
Theorem server_component_always_renders (env : Env) (networkText : string)
  (fetchers : gmap string Fetcher) (componentId : string) (defaultItemsPerPage : Z)
  (s : State) :
  let run := ServerComponent env networkText fetchers componentId defaultItemsPerPage s in
  (exists view, run.1 = Resolved view)
  /\ (fetchers !! componentId = None ->
      run = (Resolved (ErrorView ("No fetcher registered for component: " ++ componentId)), s))
  /\ (forall self,
        fetchers !! componentId = Some self ->
        pagination run.2 = {| page := 1; limit := defaultItemsPerPage; enabled := true |}
        /\ (dataSource self = Some "api" -> exists records props, run.1 = Resolved (Wrapped records props))).
Proof.
  cbv zeta. unfold ServerComponent, tryCatch, bind, ret, throw.
  destruct (fetchers !! componentId) as [self|] eqn:Hfound.
  - cbn [setPagination].
    set (s0 := {| now := now s; network := network s; requests := requests s;
                  timers := timers s; serverCache := serverCache s;
                  clientCache := clientCache s;
                  pagination := {| page := 1; limit := defaultItemsPerPage;
                                   enabled := true |} |}).
    pose proof (fetchData_keeps_pagination env self true s0) as Hkeep.
    split; [|split; [discriminate|]].
    + destruct (fetchData env self true s0) as [[r|e] s1]; eauto.
    + intros self' Hself. injection Hself as <-. split.
      * destruct (fetchData env self true s0) as [[r|e] s1]; exact Hkeep.
      * intros Hapi.
        assert (Hpath : fetchData env self true s0 = fetchApiData env self true s0)
          by (unfold fetchData; rewrite Hapi; reflexivity).
        destruct (fetchApiData_resolves env self true s0) as (r & s1 & Hres).
        rewrite Hpath, Hres. eauto.
  - split; [eauto|]. split; [|discriminate].
    intros _. cbn [messageOf]. erewrite message_shown; reflexivity.
Qed.

Lemma server_component_always_renders_witness :
  ServerComponent nodeEnv "fetch failed" ∅ "UserData" 10 (idle 0 [])
  = (Resolved (ErrorView "No fetcher registered for component: UserData"), idle 0 []).
Proof.
  destruct (server_component_always_renders nodeEnv "fetch failed" ∅ "UserData" 10 (idle 0 []))
    as (_ & Hnone & _).
  apply Hnone. reflexivity.
Defined.



(** ** The client component *)

Lemma includes_past (c : ascii) (s sub : string) :
  JsString.startsWith (String c s) sub = false ->
  JsString.includes (String c s) sub = JsString.includes s sub.
Proof. intros H. cbn [JsString.includes]. rewrite H. reflexivity. Qed.

Ltac past_prefix :=
  repeat (rewrite append_cons, includes_past by reflexivity); rewrite append_empty_l.

Lemma friendly_failure (f : PlainFormat) (text : string) :
  ClientFetching.friendly (failurePrefix f ++ text)
  = if JsString.includes text "Too Many Requests" || JsString.includes text "429"
    then "The API is rate limited. Please try again later."
    else "Network error. Please check your connection.".
Proof.
  unfold ClientFetching.friendly.
  assert (Hrate : forall sub,
             sub = "Too Many Requests" \/ sub = "429" ->
             JsString.includes (failurePrefix f ++ text) sub = JsString.includes text sub).
  { intros sub [-> | ->]; destruct f; cbn [failurePrefix]; past_prefix; reflexivity. }
  rewrite !Hrate by auto.
  destruct (_ || _); [reflexivity|].
  assert (Hfetch : JsString.includes (failurePrefix f ++ text) "Failed to fetch" = true)
    by (destruct f; reflexivity).
  rewrite Hfetch. reflexivity.
Qed.

(** X20.  In the client component, every answer of the json, csv or txt
    route that is not a 2xx is reported by its status text alone: as
    [The API is rate limited ...] when the status text contains
    [Too Many Requests] or [429], and otherwise as
    [Network error. Please check your connection.], whatever the status
    code, because the fetcher's own message starts with [Failed to fetch].
    One request is sent, the data shown before stays, and loading ends. *)
Theorem client_reports_status_text (f : PlainFormat) (env : Env) (networkText : string)
  (fetchers : gmap string Fetcher) (componentId : string) (self : Fetcher)
  (cells : ClientFetching.Cells) (s : State) (r : Response) :
  fetchers !! componentId = Some self ->
  dataSource self = Some (sourceName f) ->
  cached f self false
    (setPagination (ClientFetching.state_currentPage cells)
       (ClientFetching.state_itemsPerPage cells) true s).2 = None ->
  outcome (upcoming s 0) = Some r -> ok r = false ->
  exists (after : ClientFetching.Cells) (s' : State),
    ClientFetching.fetchEffect env networkText fetchers componentId cells s
    = (Resolved after, s')
    /\ ClientFetching.state_error after
       = Some (if JsString.includes (statusText r) "Too Many Requests"
                  || JsString.includes (statusText r) "429"
               then "The API is rate limited. Please try again later."
               else "Network error. Please check your connection.")
    /\ ClientFetching.state_loading after = false
    /\ ClientFetching.state_data after = ClientFetching.state_data cells
    /\ length (requests s') = S (length (requests s))
    /\ clientCache s' = clientCache s.
Proof.
  intros Hfound Hsource Hmiss Hout Hbad.
  assert (Hpath : forall st, fetchData env self false st = fetchPlain f env self false st)
    by (intros st; unfold fetchData; rewrite Hsource; destruct f; reflexivity).
  unfold ClientFetching.fetchEffect, tryCatch, bind, ret. rewrite Hfound.
  cbn [ClientFetching.setError ClientFetching.setLoading ClientFetching.state_currentPage
       ClientFetching.state_itemsPerPage].
  cbn [setPagination snd] in Hmiss |- *.
  rewrite Hpath, (plain_miss f env self false _ Hmiss). cbv zeta.
  unfold delivered. change (upcoming _ 0) with (upcoming s 0). rewrite Hout, Hbad.
  cbn [messageOf]. do 2 eexists. split; [reflexivity|].
  cbn [ClientFetching.state_error ClientFetching.state_loading ClientFetching.state_data
       ClientFetching.setLoading ClientFetching.setError].
  split; [|split; [reflexivity | split; [reflexivity | split; [|reflexivity]]]].
  - assert (Hshown : DataApi.orElse (Some (failurePrefix f ++ statusText r))
                       "Unknown error occurred" = failurePrefix f ++ statusText r)
      by (destruct f; cbn [failurePrefix]; rewrite append_cons; reflexivity).
    rewrite Hshown, friendly_failure. reflexivity.
  - cbn [afterFetch requests]. rewrite length_app. cbn. lia.
Qed.

Lemma client_reports_status_text_witness :
  ClientFetching.state_error
    match (ClientFetching.fetchEffect browserEnv "Failed to fetch" {[ "User" := userRecords ]}
             "User" (mounted 10) rateLimitedNow).1 with
    | Resolved after => after
    | Rejected _ => mounted 10
    end
  = Some "Network error. Please check your connection.".
Proof.
  destruct (client_reports_status_text FJson browserEnv "Failed to fetch"
              {[ "User" := userRecords ]} "User" userRecords (mounted 10) rateLimitedNow
              {| status := 429; statusText := EmptyString; retryAfter := None; body := None |})
    as (after & s' & Hrun & Herror & _);
    [reflexivity | reflexivity | reflexivity | reflexivity | reflexivity |].
  rewrite Hrun. exact Herror.
Defined.

(** X21.  With a fetcher of the api source the client component never
    shows a fetch failure: whatever the network does, the effect ends with
    loading off and either no error or
    [No data available. The API might be rate limited.], the latter exactly
    when the read gave no records on page 1 or before; on a later page an
    empty read sends the component back to page 1 instead. *)
Theorem client_api_never_reports_failure (env : Env) (networkText : string)
  (fetchers : gmap string Fetcher) (componentId : string) (self : Fetcher)
  (cells : ClientFetching.Cells) (s : State) :
  fetchers !! componentId = Some self ->
  dataSource self = Some "api" ->
  exists (after : ClientFetching.Cells) (s' : State) (r : FetchResult),
    ClientFetching.fetchEffect env networkText fetchers componentId cells s
    = (Resolved after, s')
    /\ fetchApiData env self false
         (setPagination (ClientFetching.state_currentPage cells)
            (ClientFetching.state_itemsPerPage cells) true s).2 = (Resolved r, s')
    /\ ClientFetching.state_loading after = false
    /\ (data r <> [] ->
        ClientFetching.state_error after = None
        /\ ClientFetching.state_data after = data r
        /\ ClientFetching.state_currentPage after = ClientFetching.state_currentPage cells)
    /\ (data r = [] -> ClientFetching.state_currentPage cells <= 1 ->
        ClientFetching.state_error after
        = Some "No data available. The API might be rate limited.")
    /\ (data r = [] -> 1 < ClientFetching.state_currentPage cells ->
        ClientFetching.state_error after = None
        /\ ClientFetching.state_currentPage after = 1
        /\ ClientFetching.state_data after = ClientFetching.state_data cells).
Proof.
  intros Hfound Hsource.
  assert (Hpath : forall st, fetchData env self false st = fetchApiData env self false st)
    by (intros st; unfold fetchData; rewrite Hsource; reflexivity).
  unfold ClientFetching.fetchEffect, tryCatch, bind, ret. rewrite Hfound.
  cbn [ClientFetching.setError ClientFetching.setLoading ClientFetching.state_currentPage
       ClientFetching.state_itemsPerPage setPagination snd].
  rewrite Hpath.
  match goal with
  | |- context [fetchApiData env self false ?st] =>
      destruct (fetchApiData_resolves env self false st) as (r & s' & Hres)
  end.
  rewrite Hres.
  assert (Htotals : totalItems r = JUndefined /\ totalPages r = JUndefined).
  { match type of Hres with
    | fetchApiData env self false ?st = _ =>
        destruct (apiCalls_or_idle env self false st)
          as [[url Hcalls] | (r0 & Hidle & [Hhit | (_ & _ & Hnone)])]
    end.
    - rewrite (fetchApiData_ladder env self false _ url Hcalls) in Hres. cbv zeta beta in Hres.
      repeat match type of Hres with
             | context [match payloadOf ?a ?b with _ => _ end] => destruct (payloadOf a b)
             end;
        injection Hres as <- _; split; reflexivity.
    - rewrite Hidle in Hres. injection Hres as <- _.
      unfold plainCacheHit in Hhit.
      destruct (fresh _ _); [|discriminate]. injection Hhit as <-. split; reflexivity.
    - rewrite Hidle in Hres. injection Hres as <- _. subst r0. split; reflexivity. }
  destruct Htotals as [Hitems Hpages]. rewrite Hitems, Hpages.
  cbn [ClientFetching.isUndefined negb].
  destruct (data r) as [|x d] eqn:Hdata; cbn [length Nat.eqb andb].
  - destruct (Z.gtb_spec (ClientFetching.state_currentPage cells) 1) as [Hlater | Hfirst].
    + eexists. exists s', r. rewrite Hdata.
      split; [reflexivity|]. split; [reflexivity|]. split; [reflexivity|].
      split; [congruence|]. split; [lia|]. intros _ _. repeat split.
    + eexists. exists s', r. rewrite Hdata.
      split; [reflexivity|]. split; [reflexivity|]. split; [reflexivity|].
      split; [congruence|]. split; [reflexivity | lia].
  - eexists. exists s', r. rewrite Hdata.
    split; [reflexivity|]. split; [reflexivity|]. split; [reflexivity|].
    split; [|split; intros Hnil; discriminate Hnil]. intros _. repeat split.
Qed.

Lemma client_api_never_reports_failure_witness :
  exists after,
    (ClientFetching.fetchEffect browserEnv "Failed to fetch"
       {[ "UserProducts" := userProducts ]} "UserProducts" (mounted 10) (idle 0 [])).1
    = Resolved after
    /\ ClientFetching.state_error after = None
    /\ ClientFetching.state_data after = mockUsers.
Proof.
  destruct (client_api_never_reports_failure browserEnv "Failed to fetch"
              {[ "UserProducts" := userProducts ]} "UserProducts" userProducts (mounted 10)
              (idle 0 []))
    as (after & s' & r & Hrun & Hread & Hloading & Hsome & _);
    [reflexivity | reflexivity |].
  exists after. rewrite Hrun. split; [reflexivity|].
  vm_compute in Hread. injection Hread as Hr _. subst r.
  destruct (Hsome ltac:(discriminate)) as (Herror & Hdata & _).
  split; [exact Herror | exact Hdata].
Defined.

(** ** The registry's base URL *)

Lemma endsWith_appended (u : string) (c : ascii) :
  endsWith (u ++ String c EmptyString) c = true
  /\ dropLast (u ++ String c EmptyString) = u.
Proof.
  induction u as [|a u [IHe IHd]].
  - rewrite append_empty_l. cbn. rewrite Ascii.eqb_refl. auto.
  - rewrite append_cons. cbn [endsWith dropLast].
    destruct (u ++ String c EmptyString) as [|b rest] eqn:Happ.
    + destruct u; discriminate.
    + rewrite IHe, IHd. auto.
Qed.

(** X22.  [setBaseUrl] removes one trailing slash and no more: a URL given
    with or without its final slash leads to the same server-side data URL,
    while a URL ending in two slashes keeps one.  The client-side data URL
    does not depend on the base URL at all. *)
Theorem setBaseUrl_strips_one_slash (url : string) (env : Env) (id : string)
  (source : option string) :
  getDataUrl (setBaseUrl url env) id source false = getDataUrl env id source false
  /\ (endsWith url "/" = false ->
      baseUrl (setBaseUrl url env) = url
      /\ getDataUrl (setBaseUrl (url ++ "/") env) id source true
         = getDataUrl (setBaseUrl url env) id source true)
  /\ baseUrl (setBaseUrl (url ++ "//") env) = url ++ "/".
Proof.
  split; [reflexivity|]. split.
  - intros Hplain. unfold setBaseUrl at 1. cbn [baseUrl]. rewrite Hplain.
    split; [reflexivity|].
    unfold getDataUrl, setBaseUrl. cbn [baseUrl apiBasePath].
    destruct (endsWith_appended url "/") as [-> ->]. rewrite Hplain. reflexivity.
  - unfold setBaseUrl. cbn [baseUrl].
    replace (url ++ "//") with ((url ++ "/") ++ "/").
    + destruct (endsWith_appended (url ++ "/") "/") as [-> ->]. reflexivity.
    + rewrite string_append_assoc. reflexivity.
Qed.

Lemma setBaseUrl_strips_one_slash_witness :
  getDataUrl (setBaseUrl "https://example.com/" nodeEnv) "UserData" None true
  = "https://example.com/api/data?component=UserData&dataSource=json".
Proof.
  destruct (setBaseUrl_strips_one_slash "https://example.com" nodeEnv "UserData" None)
    as (_ & Hplain & _).
  destruct (Hplain eq_refl) as [_ Hsame].
  change ("https://example.com/") with ("https://example.com" ++ "/").
  rewrite Hsame. reflexivity.
Defined.

(** ** The rows of a record *)

Lemma slice_from_start {A : Type} (count : Z) (l : list A) :
  0 <= count -> JsArray.slice 0 count l = firstn (Z.to_nat count) l.
Proof.
  intros Hcount. rewrite <- (Z.add_0_l count) at 1. rewrite slice_window by lia.
  reflexivity.
Qed.

Lemma filter_split_permutation {A : Type} (keep : A -> bool) (l : list A) :
  Permutation (List.filter keep l ++ List.filter (fun x => negb (keep x)) l) l.
Proof.
  induction l as [|x l IH]; cbn [List.filter app]; [constructor|].
  destruct (keep x); cbn [negb app].
  - constructor. exact IH.
  - symmetry. apply Permutation_cons_app. symmetry. exact IH.
Qed.

(** X23.  Expanded, the display of a record shows the keys that are not
    excluded, each as often as the record has it and no other; an excluded
    key is never shown, priority or not.  Collapsed, it shows an initial
    part of the same rows, and the number on the [Show n more fields]
    button is the number of rows that expanding adds; there is no button
    exactly when nothing is hidden. *)
Theorem display_shows_each_field_once (data : value) (excludeFields priorityFields : list string)
  (full : DynamicDataDisplay.Display) :
  DynamicDataDisplay.display data excludeFields priorityFields true = Some full ->
  Permutation (DynamicDataDisplay.rows full) (DynamicDataDisplay.allFields data excludeFields)
  /\ (forall key, In key (DynamicDataDisplay.rows full) ->
                  ~ In key excludeFields /\ In key (DynamicDataDisplay.keysOf data))
  /\ exists (brief : DynamicDataDisplay.Display) (hidden : list string),
       DynamicDataDisplay.display data excludeFields priorityFields false = Some brief
       /\ DynamicDataDisplay.rows full = (DynamicDataDisplay.rows brief ++ hidden)%list
       /\ DynamicDataDisplay.more brief = DynamicDataDisplay.more full
       /\ match DynamicDataDisplay.more brief with
          | Some n => Z.of_nat (length hidden) = n /\ 0 < n
          | None => hidden = []
          end.
Proof.
  unfold DynamicDataDisplay.display. destruct (_ || _); [discriminate|].
  intros Hfull. injection Hfull as <-. cbn [DynamicDataDisplay.rows DynamicDataDisplay.more].
  set (others := DynamicDataDisplay.otherFields data excludeFields priorityFields).
  assert (Hall : JsArray.slice 0 (Z.of_nat (length others)) others = others).
  { rewrite slice_from_start by lia. apply firstn_all2. lia. }
  rewrite Hall.
  assert (Hperm : Permutation
                    (DynamicDataDisplay.priorityFieldsToShow data excludeFields priorityFields
                     ++ others)
                    (DynamicDataDisplay.allFields data excludeFields))
    by apply filter_split_permutation.
  split; [exact Hperm|]. split.
  - intros key Hkey. apply (Permutation_in _ Hperm) in Hkey.
    unfold DynamicDataDisplay.allFields in Hkey. apply filter_In in Hkey.
    destruct Hkey as [Hkeys Hkept]. split; [|exact Hkeys].
    intros Hexcluded. apply negb_true_iff in Hkept.
    assert (Hlisted : DynamicDataDisplay.listed excludeFields key = true).
    { apply existsb_exists. exists key. split; [exact Hexcluded | apply String.eqb_refl]. }
    congruence.
  - eexists. exists (skipn 2 others). split; [reflexivity|].
    cbn [DynamicDataDisplay.rows DynamicDataDisplay.more].
    rewrite slice_from_start by lia. change (Z.to_nat 2) with 2%nat.
    split; [|split; [reflexivity|]].
    + rewrite <- app_assoc, firstn_skipn. reflexivity.
    + destruct (Z.gtb_spec (Z.of_nat (length others)) 2) as [Hmany | Hfew].
      * rewrite length_skipn. lia.
      * apply skipn_all2. lia.
Qed.

Lemma display_shows_each_field_once_witness :
  exists brief,
    DynamicDataDisplay.display
      (JObj [("id", JNum 1 0); ("name", JStr "Ann"); ("email", JStr "a@b.c");
             ("phone", JStr "1"); ("secret", JStr "x")])
      ["secret"] ["name"; "secret"] false = Some brief
    /\ DynamicDataDisplay.rows brief = ["name"; "id"; "email"]
    /\ DynamicDataDisplay.more brief = Some 1.
Proof.
  destruct (display_shows_each_field_once
              (JObj [("id", JNum 1 0); ("name", JStr "Ann"); ("email", JStr "a@b.c");
                     ("phone", JStr "1"); ("secret", JStr "x")])
              ["secret"] ["name"; "secret"]
              {| DynamicDataDisplay.rows := ["name"; "id"; "email"; "phone"];
                 DynamicDataDisplay.more := Some 1 |} eq_refl)
    as (_ & _ & brief & hidden & Hbrief & _).
  exists brief. split; [exact Hbrief|].
  vm_compute in Hbrief. injection Hbrief as <-. split; reflexivity.
Defined.

(** ** Where the API key goes *)

(** X24.  Whatever the data source, the cache and the network, one call of
    [fetchData] sends at most four requests, and the RapidAPI key and host
    headers go to the fetcher's configured endpoint only: every request of
    the call either carries no header at all, as those to the package's
    data route and fallback route do, or is addressed to the endpoint and
    carries exactly the headers of the api path. *)
Theorem api_key_goes_to_endpoint_only (env : Env) (self : Fetcher) (isServer : bool)
  (s : State) :
  exists sent : list Request,
    requests (fetchData env self isServer s).2 = (requests s ++ sent)%list
    /\ (length sent <= 4)%nat
    /\ forall req, In req sent ->
         req_headers req = []
         \/ (endpoint self = Some (req_url req) /\ req_headers req = apiHeaders env).
Proof.
  assert (Hplain : forall f,
             exists sent : list Request,
               requests (fetchPlain f env self isServer s).2 = (requests s ++ sent)%list
               /\ (length sent <= 4)%nat
               /\ forall req, In req sent ->
                    req_headers req = []
                    \/ (endpoint self = Some (req_url req)
                        /\ req_headers req = apiHeaders env)).
  { intros f. destruct (cached f self isServer s) as [r|] eqn:Hc.
    - rewrite (plain_hit f env self isServer s r Hc). exists [].
      rewrite app_nil_r. split; [reflexivity|]. split; [cbn; lia|]. intros req [].
    - rewrite (plain_miss f env self isServer s Hc). cbv zeta.
      exists [{| req_url := getUrl env self (pagination s) isServer; req_headers := [] |}].
      split; [|split; [cbn; lia|]].
      + destruct (delivered f self (upcoming s 0)) as [[[d items] pages]|e]; cbn [snd];
          [destruct isServer|]; reflexivity.
      + intros req [<- | []]. left. reflexivity. }
  destruct (fetchData_dispatch env self isServer s) as [-> | [-> | [-> | [-> | [e ->]]]]].
  - apply (Hplain FJson).
  - apply (Hplain FCsv).
  - apply (Hplain FTxt).
  - destruct (apiCalls_or_idle env self isServer s) as [[url Hcalls] | (r & -> & _)].
    + destruct (api_requests_sent env self isServer s url Hcalls)
        as (n & tail & -> & Hn & Htail).
      exists (repeat (toEndpoint env url) n ++ tail)%list.
      split; [reflexivity|]. split.
      * rewrite length_app, repeat_length.
        destruct Htail as [-> | (-> & _)]; cbn [length]; lia.
      * intros req Hin. apply in_app_or in Hin. destruct Hin as [Hin | Hin].
        -- apply repeat_spec in Hin. subst req. right.
           destruct Hcalls as (_ & Hurl & _). split; [exact Hurl | reflexivity].
        -- destruct Htail as [-> | (-> & _)]; [destruct Hin|].
           destruct Hin as [<- | []]. left. reflexivity.
    + exists []. rewrite app_nil_r. split; [reflexivity|]. split; [cbn; lia|]. intros req [].
  - exists []. rewrite app_nil_r. split; [reflexivity|]. split; [cbn; lia|]. intros req [].
Qed.

Lemma api_key_goes_to_endpoint_only_witness :
  exists sent : list Request,
    requests (fetchData keyedEnv productList false (idle 0 [])).2 = sent
    /\ (length sent <= 4)%nat
    /\ (In (toFallback productList) sent -> req_headers (toFallback productList) = []).
Proof.
  destruct (api_key_goes_to_endpoint_only keyedEnv productList false (idle 0 []))
    as (sent & Hsent & Hcount & Hkey).
  exists sent. split; [exact Hsent|]. split; [exact Hcount|].
  intros Hin. destruct (Hkey _ Hin) as [Hnone | [Hurl _]]; [exact Hnone | discriminate Hurl].
Defined.
